(** * The GraphQL request pipeline of the vendored go-graphql-client

    A shallow embedding of [vendor/github.com/hasura/go-graphql-client]
    (the file holding [Client], [request], [processResponse], [newError],
    [withRequest], [withResponse], [WithRequestModifier] and [WithDebug]),
    followed by the properties the specification states about it.

    Conventions of the embedding:
    - a Go [[]byte] and a Go [string] are both a [string]; a nil slice is
      the empty string (the pipeline only ever tests [len]);
    - a Go [map[string]any] is a [gmap string any], wrapped in [option]
      where the code distinguishes the nil map;
    - [Errors] is a [list Error]; the nil slice is [[]];
    - a run-time panic is an explicit [Panic] outcome;
    - pointers to [Client] live in a heap of clients, so that deriving a client
      is an allocation and the base client can be observed afterwards;
    - everything the file calls but does not define (encoding/json, net/http,
      compress/gzip, the query builder and jsonutil) is a field of the
      [Externals] class. *)

From Stdlib Require Import Ascii String.
From stdpp Require Import gmap strings list fin_maps pretty sorting.

Open Scope string_scope.
Open Scope Z_scope.

(** ** Run-time outcomes *)

Inductive panic_reason : Type :=
| nil_dereference        (* invalid memory address or nil pointer dereference *)
| interface_conversion   (* failed unchecked type assertion *)
| nil_map_assignment.    (* assignment to entry in nil map *)

Inductive outcome (A : Type) : Type :=
| Ret (a : A)
| Panic (why : panic_reason).
Arguments Ret {A} a.
Arguments Panic {A} why.

#[global] Instance outcome_ret : MRet outcome := fun A a => Ret a.
#[global] Instance outcome_bind : MBind outcome := fun A B f m =>
  match m with
  | Ret a => f a
  | Panic why => Panic why
  end.

(** ** Go [error] values *)

(** [NetworkError] (struct with unexported fields [body], [statusCode]).
    The status code is a Go [int]; no arithmetic is done on it, so it is
    a [Z] without wrap-around. *)
Record NetworkError : Type := mkNetworkError {
  body : string;
  statusCode : Z
}.

Inductive GoError : Type :=
| errorString (text : string)                    (* an error of a library *)
| wrapError (format : string) (cause : GoError)  (* fmt.Errorf(format ++ "%w", cause) *)
| networkError (ne : NetworkError).

(** ** Dynamically typed values ([any]) *)

Abbreviation Header := (gmap string (list string)).

#[warnings="-register-all"]
Inductive any : Type :=
| nil_any                                    (* the nil interface; JSON null *)
| bool_any (b : bool)
| number_any (literal : string)              (* a JSON number, by its literal *)
| string_any (s : string)
| slice_any (l : list any)
| map_any (m : gmap string any)
| header_any (h : Header)                    (* an http.Header *)
| error_any (e : GoError).

(** ** Readers *)

(** An [io.Reader] over a network body: the bytes still to come and the
    error that ends them ([None] for a clean EOF). *)
Record Stream : Type := mkStream {
  unread : string;
  fault : option GoError
}.

Definition io_ReadAll (r : Stream) : string * option GoError :=
  (unread r, fault r).

(** [bytes.Reader]: the whole buffer and the part not read yet. *)
Record bytes_Reader : Type := mkBytesReader {
  buf : string;
  remaining : string
}.

Definition bytes_NewReader (b : string) : bytes_Reader :=
  {| buf := b; remaining := b |}.

(** [r.Seek(0, io.SeekStart)] *)
Definition Seek_start (r : bytes_Reader) : bytes_Reader :=
  {| buf := buf r; remaining := buf r |}.

(** [io.ReadAll] on a [*bytes.Reader]: never fails, leaves it drained. *)
Definition bytes_ReadAll (r : bytes_Reader) : string * option GoError * bytes_Reader :=
  (remaining r, None, {| buf := buf r; remaining := "" |}).

Definition bytes_Stream (r : bytes_Reader) : Stream :=
  {| unread := remaining r; fault := None |}.

(** An [io.Reader] interface value as the pipeline passes it around: the
    nil interface, or a [*bytes.Reader] (which may itself be a nil
    pointer inside a non-nil interface). *)
Inductive io_Reader : Type :=
| nil_Reader
| bytes_Reader_ptr (p : option bytes_Reader).

(** ** net/http data *)

Record Request : Type := mkRequest {
  Request_Method : string;
  Request_URL : string;
  Request_Header : Header
}.

Record Response : Type := mkResponse {
  Response_StatusCode : Z;
  Response_Header : Header;
  Response_Body : Stream
}.

(** [Header.Get]: first value stored under the key, or the empty string.
    Keys are in the canonical form net/http gives them. *)
Definition Header_Get (h : Header) (key : string) : string :=
  match h !! key with
  | Some (v :: _) => v
  | _ => ""
  end.

(** [Header.Add]: append to the values stored under the key. *)
Definition Header_Add (h : Header) (key value : string) : Header :=
  <[key := (default [] (h !! key) ++ [value])%list]> h.

Definition Request_Header_Add (r : Request) (key value : string) : Request :=
  {| Request_Method := Request_Method r;
     Request_URL := Request_URL r;
     Request_Header := Header_Add (Request_Header r) key value |}.

Definition http_StatusOK : Z := 200.
Definition http_MethodPost : string := "POST".

(** [Doer]: the transport interface. [Do] gets the request and returns the
    request as it left it (a round tripper may set headers on it), the
    response pointer and the error. *)
Definition Doer : Type := Request → Request * option Response * option GoError.

(** [RequestModifier]: a function run on the outgoing request. *)
Definition RequestModifier : Type := Request → Request.

(** ** Structured errors *)

Record Location : Type := mkLocation {
  Line : Z;
  Column : Z
}.

Record Error : Type := mkError {
  Message : string;
  Extensions : option (gmap string any);
  Locations : list Location;
  Path : list any;
  err : option GoError
}.

Abbreviation Errors := (list Error).

(** The response envelope ([out] in [request]); [Data] and [Extensions]
    are [*json.RawMessage]. *)
Record Envelope : Type := mkEnvelope {
  Envelope_Data : option string;
  Envelope_Extensions : option string;
  Envelope_Errors : Errors
}.

(** ** Classification codes and operation kinds *)

Definition operationType : Type := N.   (* uint8 *)
Definition queryOperation : operationType := 0%N.
Definition mutationOperation : operationType := 1%N.

Definition ErrRequestError : string := "request_error".
Definition ErrJsonEncode : string := "json_encode_error".
Definition ErrJsonDecode : string := "json_decode_error".
Definition ErrGraphQLEncode : string := "graphql_encode_error".
Definition ErrGraphQLDecode : string := "graphql_decode_error".
Definition ErrGraphQLExtensionsDecode : string := "graphql_extensions_decode_error".

(** ** The client and the heap of clients *)

Record Client : Type := mkClient {
  url : string;
  httpClient : Doer;
  requestModifier : option RequestModifier;
  debug : bool
}.

Abbreviation loc := positive.
Abbreviation heap := (gmap positive Client).

(** [&Client{...}]: a fresh cell. *)
Definition alloc (h : heap) (c : Client) : loc * heap :=
  let l := fresh (dom h) in (l, <[l := c]> h).

(** Returns a copy of the client with the request modifier set. *)
Definition WithRequestModifier (h : heap) (c : loc) (f : option RequestModifier)
  : outcome (loc * heap) :=
  match h !! c with
  | None => Panic nil_dereference
  | Some cl =>
      Ret (alloc h {| url := url cl;
                      httpClient := httpClient cl;
                      requestModifier := f;
                      debug := false |})
  end.

(** WithDebug enable debug mode to print internal error detail. *)
Definition WithDebug (h : heap) (c : loc) (dbg : bool) : outcome (loc * heap) :=
  match h !! c with
  | None => Panic nil_dereference
  | Some cl =>
      Ret (alloc h {| url := url cl;
                      httpClient := httpClient cl;
                      requestModifier := requestModifier cl;
                      debug := dbg |})
  end.

Definition len (s : string) : Z := Z.of_nat (String.length s).

(** [m[k]] on a possibly nil map: the zero value [nil] when absent. *)
Definition map_index (m : option (gmap string any)) (k : string) : any :=
  match m with
  | Some m => default nil_any (m !! k)
  | None => nil_any
  end.

(** [x == nil] on an interface value. *)
Definition is_nil (x : any) : bool :=
  match x with
  | nil_any => true
  | _ => false
  end.

Section Pipeline.

(** [context.Context], the referent of the caller's output pointer
    [v any], and the referent of the pointer bound by [BindExtensions]. *)
Context {Ctx Target ExtTarget : Type}.

(** *** Options (the query-construction options of the library) *)

Definition OptionType : Type := string.
Definition OptionTypeOperationDirective : OptionType := "operation_directive".

(** The implementers of the [Option] interface: the two of this file and
    any other renderer, known by its [Type()] only. *)
Inductive Option : Type :=
| operationNameOption (name : string)
| bindExtensionsOption (value : option ExtTarget)
| otherOption (type : OptionType).

Definition Option_Type (o : Option) : OptionType :=
  match o with
  | operationNameOption _ => "operation_name"
  | bindExtensionsOption _ => "bind_extensions"
  | otherOption t => t
  end.

Definition OperationName (name : string) : Option := operationNameOption name.
Definition BindExtensions (value : option ExtTarget) : Option := bindExtensionsOption value.

(** Modelled from the spec: the declaration of [constructOptionsOutput] is
    in the query builder, outside this file. The pipeline reads two fields
    of it: the optional operation name of the request document and the
    target the caller bound for the extensions. *)
Record constructOptionsOutput : Type := mkConstructOptionsOutput {
  operationName : string;
  extensions : option ExtTarget
}.

(** Modelled from the spec: the declaration of [GraphQLRequestPayload] is
    outside this file. The request body is a structured object with three
    fields: query text, variable mapping, operation name. *)
Record GraphQLRequestPayload : Type := mkPayload {
  Payload_Query : string;
  Payload_Variables : gmap string any;
  Payload_OperationName : string
}.

(** *** What the pipeline calls and this file does not define *)

Class Externals : Type := {
  (** net/http *)
  http_StatusText : Z → string;
  http_DefaultClient : Doer;
  http_NewRequestWithContext :
    Ctx → string → string → bytes_Reader → GoError + Request;
  (** encoding/json: [Encoder.Encode] of the payload, [Decoder.Decode]
      into the envelope, [Unmarshal] into the bound extensions target
      (the target as it is left, and the error) *)
  json_Encode : GraphQLRequestPayload → GoError + string;
  json_Decode : Stream → GoError + Envelope;
  json_Unmarshal : string → ExtTarget → ExtTarget * option GoError;
  (** compress/gzip: [NewReader] reads the header from the body; it
      returns the body as it leaves it, and the error or the reader of
      the decompressed bytes *)
  gzip_NewReader : Stream → Stream * (GoError + Stream);
  (** the library's query builder and typed decoder: the output as it
      is left, and the error *)
  constructQuery : Target → gmap string any → list Option →
                   string * option constructOptionsOutput * option GoError;
  constructMutation : Target → gmap string any → list Option →
                      string * option constructOptionsOutput * option GoError;
  jsonutil_UnmarshalGraphQL : string → Target → Target * option GoError
}.

Context {ext : Externals}.

(** *** Errors *)

(** [NetworkError.Error]: [fmt.Sprintf("%d %s", code, StatusText(code))] *)
Definition NetworkError_Error (e : NetworkError) : string :=
  pretty (statusCode e) ++ " " ++ http_StatusText (statusCode e).

Definition NetworkError_Body (e : NetworkError) : string := body e.
Definition NetworkError_StatusCode (e : NetworkError) : Z := statusCode e.

(** [err.Error()] *)
Fixpoint GoError_Error (e : GoError) : string :=
  match e with
  | errorString text => text
  | wrapError format cause => format ++ GoError_Error cause
  | networkError ne => NetworkError_Error ne
  end.

Definition newError (code : string) (cause : GoError) : Error :=
  {| Message := GoError_Error cause;
     Extensions := Some {[ "code" := string_any code ]};
     Locations := [];
     Path := [];
     err := Some cause |}.

(** [Error.Unwrap] and [Errors.Unwrap] *)
Definition Error_Unwrap (e : Error) : option GoError := err e.
Definition Errors_Unwrap (e : Errors) : list (option GoError) := err <$> e.

Definition getInternalExtension (e : Error) : outcome (gmap string any) :=
  match Extensions e with
  | None => Ret ∅
  | Some m =>
      match m !! "internal" with
      | Some (map_any ex) => Ret ex
      | Some _ => Panic interface_conversion
      | None => Ret ∅
      end
  end.

(** [e.Extensions["internal"] = internal] *)
Definition setInternal (e : Error) (m : gmap string any) (internal : gmap string any) : Error :=
  {| Message := Message e;
     Extensions := Some (<["internal" := map_any internal]> m);
     Locations := Locations e;
     Path := Path e;
     err := err e |}.

(** [io.ReadAll(bodyReader)] on the interface value: the bytes, the
    error and the reader afterwards. *)
Definition io_Reader_ReadAll (bodyReader : io_Reader)
  : outcome (string * option GoError * io_Reader) :=
  match bodyReader with
  | nil_Reader => Panic nil_dereference
  | bytes_Reader_ptr None => Panic nil_dereference
  | bytes_Reader_ptr (Some r) =>
      let '(b, e, r') := bytes_ReadAll r in
      Ret (b, e, bytes_Reader_ptr (Some r'))
  end.

Definition withRequest (e : Error) (req : option Request) (bodyReader : io_Reader)
  : outcome Error :=
  internal ← getInternalExtension e;
  '(bodyBytes, rerr, _) ← io_Reader_ReadAll bodyReader;
  internal ← match rerr with
             | Some re => Ret (<["error" := error_any re]> internal)
             | None =>
                 match req with
                 | None => Panic nil_dereference
                 | Some req =>
                     Ret (<["request" :=
                             map_any (<["headers" := header_any (Request_Header req)]>
                                       {[ "body" := string_any bodyBytes ]})]> internal)
                 end
             end;
  Ret (setInternal e (default ∅ (Extensions e)) internal).

Definition withResponse (e : Error) (res : option Response) (bodyReader : io_Reader)
  : outcome (Error * io_Reader) :=
  internal ← getInternalExtension e;
  res ← match res with
        | None => Panic nil_dereference
        | Some res => Ret res
        end;
  let response : gmap string any := {[ "headers" := header_any (Response_Header res) ]} in
  '(internal, response, bodyReader) ←
    match bodyReader with
    | nil_Reader => Ret (internal, response, bodyReader)
    | _ =>
        '(bodyBytes, rerr, bodyReader) ← io_Reader_ReadAll bodyReader;
        match rerr with
        | Some re => Ret (<["error" := error_any re]> internal, response, bodyReader)
        | None => Ret (internal, <["body" := string_any bodyBytes]> response, bodyReader)
        end
    end;
  let internal := <["response" := map_any response]> internal in
  match Extensions e with
  | None => Panic nil_map_assignment
  | Some m => Ret (setInternal e m internal, bodyReader)
  end.

(** *** Building the query *)

(** buildQueryAndOptions the common method to build query and options *)
Definition buildQueryAndOptions (c : Client) (op : operationType) (v : Target)
    (variables : gmap string any) (options : list Option)
  : Errors + string * option constructOptionsOutput :=
  let '(query, optionOutput, e) :=
    if decide (op = queryOperation) then constructQuery v variables options
    else if decide (op = mutationOperation) then constructMutation v variables options
    else ("", None, Some (errorString ("invalid operation type: " ++ pretty op))) in
  match e with
  | Some e => inl [newError ErrGraphQLEncode e]
  | None => inr (query, optionOutput)
  end.

(** *** Sending the request *)

(** What [request] returns: raw data, raw extensions, the response, the
    reader over the captured response body, and the errors. *)
Definition request_result : Type :=
  string * string * option Response * io_Reader * Errors.

(** [return nil, nil, nil, nil, errs] *)
Definition failed (errs : Errors) : request_result :=
  ("", "", None, nil_Reader, errs).

(** [if c.debug { e = e.withRequest(request, reqReader) }] *)
Definition debugRequest (c : Client) (e : Error) (req : option Request)
    (reqReader : bytes_Reader) : outcome Error :=
  if debug c then withRequest e req (bytes_Reader_ptr (Some reqReader)) else Ret e.

(** [*out.Data] when [out.Data != nil && len( *out.Data) > 0], else nil *)
Definition rawMessage (m : option string) : string :=
  match m with
  | Some d => if 0 <? len d then d else ""
  | None => ""
  end.

(** The last part of [request]: the envelope has been decoded into [out]. *)
Definition envelopeResult (c : Client) (request : Request) (reqReader : bytes_Reader)
    (resp : Response) (respReader : io_Reader) (out : Envelope) : outcome request_result :=
  let rawData := rawMessage (Envelope_Data out) in
  let extensions := rawMessage (Envelope_Extensions out) in
  match Envelope_Errors out with
  | e0 :: rest =>
      (* len(out.Errors) > 0 *)
      if debug c && (bool_decide (Extensions e0 = None)
                     || is_nil (map_index (Extensions e0) "request"))
      then
        e0 ← withRequest e0 (Some request) (bytes_Reader_ptr (Some reqReader));
        '(e0, respReader) ← withResponse e0 (Some resp) respReader;
        Ret (rawData, extensions, Some resp, respReader, e0 :: rest)
      else Ret (rawData, extensions, Some resp, respReader, e0 :: rest)
  | [] => Ret (rawData, extensions, Some resp, respReader, [])
  end.

(** The part of [request] after the transport has answered with [resp]:
    gzip, status check, debug copy of the body, envelope decoding. *)
Definition readResponse (c : Client) (request : Request) (reqReader : bytes_Reader)
    (resp : Response) : outcome request_result :=
  let r := Response_Body resp in
  (* [body] is resp.Body as the gzip reader left it, [r] the reader to decode from *)
  match (if decide (Header_Get (Response_Header resp) "Content-Encoding" = "gzip")
         then match gzip_NewReader r with
              | (_, inl e) => inl e
              | (body, inr gr) => inr (body, gr)
              end
         else inr (r, r)) with
  | inl e =>
      Ret (failed [newError ErrJsonDecode
                     (wrapError "problem trying to create gzip reader: " e)])
  | inr (body, r) =>
      if negb (Response_StatusCode resp =? http_StatusOK) then
        let '(b, _) := io_ReadAll body in
        let e := newError ErrRequestError
                   (networkError {| statusCode := Response_StatusCode resp; body := b |}) in
        e ← debugRequest c e (Some request) reqReader;
        Ret (failed [e])
      else
        (* copy the response reader for debugging *)
        match (if debug c then
                 let '(b, e) := io_ReadAll body in
                 match e with
                 | Some e => inl e
                 | None =>
                     let respReader := bytes_NewReader b in
                     inr (bytes_Reader_ptr (Some respReader), bytes_Stream respReader)
                 end
               else inr (bytes_Reader_ptr None, r)) with
        | inl e => Ret (failed [newError ErrJsonDecode e])
        | inr (respReader, r) =>
            match json_Decode r with
            | inl e =>
                let we := newError ErrJsonDecode e in
                if debug c then
                  we ← withRequest we (Some request) (bytes_Reader_ptr (Some reqReader));
                  '(we, _) ← withResponse we (Some resp) respReader;
                  Ret (failed [we])
                else Ret (failed [we])
            | inr out => envelopeResult c request reqReader resp respReader out
            end
        end
  end.

(** Request the common method that send graphql request.

    [reqReader] is local to the call: the transport may advance it, and it
    is read again only in debug mode, after [Seek(0, io.SeekStart)]; the
    decoder likewise advances [respReader], which is rewound before it is
    read again. The model keeps the buffers and rewinds. *)
Definition request (c : Client) (ctx : Ctx) (query : string)
    (variables : gmap string any) (options : option constructOptionsOutput)
  : outcome request_result :=
  let in_ := {| Payload_Query := query;
                Payload_Variables := variables;
                Payload_OperationName := match options with
                                         | Some o => operationName o
                                         | None => ""
                                         end |} in
  match json_Encode in_ with
  | inl e => Ret (failed [newError ErrGraphQLEncode e])
  | inr buf =>
      let reqReader := bytes_NewReader buf in
      match http_NewRequestWithContext ctx http_MethodPost (url c) reqReader with
      | inl e =>
          let e := newError ErrRequestError
                     (wrapError "problem constructing request: " e) in
          e ← debugRequest c e None reqReader;
          Ret (failed [e])
      | inr request =>
          let request := Request_Header_Add request "Content-Type" "application/json" in
          let request := match requestModifier c with
                         | Some f => f request
                         | None => request
                         end in
          let '(request, resp, e) := httpClient c request in
          let reqReader := if debug c then Seek_start reqReader else reqReader in
          match e with
          | Some e =>
              let e := newError ErrRequestError e in
              e ← debugRequest c e (Some request) reqReader;
              Ret (failed [e])
          | None =>
              match resp with
              | None => Panic nil_dereference   (* resp.Body *)
              | Some resp => readResponse c request reqReader resp
              end
          end
      end
  end.

(** *** Decoding into the caller's values *)

(** The result of a call: the caller's output and bound extensions
    target as the call leaves them, and the returned error ([[]] is the
    nil error). *)
Definition call_result : Type := Target * option ExtTarget * Errors.

Definition processResponse (c : Client) (v : Target) (data : string)
    (extensions : option ExtTarget) (rawExtensions : string)
    (resp : option Response) (respBuf : io_Reader) (errs : Errors)
  : outcome call_result :=
  '(v, errs) ←
    (if 0 <? len data then
       let '(v, e) := jsonutil_UnmarshalGraphQL data v in
       match e with
       | Some e =>
           let we := newError ErrGraphQLDecode e in
           we ← (if debug c then
                   '(we, _) ← withResponse we resp respBuf; Ret we
                 else Ret we);
           Ret (v, (errs ++ [we])%list)
       | None => Ret (v, errs)
       end
     else Ret (v, errs));
  let '(extensions, errs) :=
    match extensions with
    | Some x =>
        if 0 <? len rawExtensions then
          let '(x, e) := json_Unmarshal rawExtensions x in
          match e with
          | Some e => (Some x, (errs ++ [newError ErrGraphQLExtensionsDecode e])%list)
          | None => (Some x, errs)
          end
        else (Some x, errs)
    | None => (None, errs)
    end in
  Ret (v, extensions, errs).

(** do executes a single GraphQL operation and unmarshal json. *)
Definition do (c : Client) (ctx : Ctx) (op : operationType) (v : Target)
    (variables : gmap string any) (options : list Option) : outcome call_result :=
  match buildQueryAndOptions c op v variables options with
  | inl errs => Ret (v, None, errs)
  | inr (query, optionsOutput) =>
      '(data, extData, resp, respBuf, errs) ←
        request c ctx query variables optionsOutput;
      match optionsOutput with
      | None => Panic nil_dereference   (* optionsOutput.extensions *)
      | Some o => processResponse c v data (extensions o) extData resp respBuf errs
      end
  end.

(** doRaw: return raw message and error *)
Definition doRaw (c : Client) (ctx : Ctx) (op : operationType) (v : Target)
    (variables : gmap string any) (options : list Option) : outcome (string * Errors) :=
  match buildQueryAndOptions c op v variables options with
  | inl errs => Ret ("", errs)
  | inr (query, optionsOutput) =>
      '(data, _, _, _, errs) ← request c ctx query variables optionsOutput;
      Ret (data, errs)
  end.

Definition Query (c : Client) (ctx : Ctx) (q : Target)
    (variables : gmap string any) (options : list Option) : outcome call_result :=
  do c ctx queryOperation q variables options.

Definition Mutate (c : Client) (ctx : Ctx) (m : Target)
    (variables : gmap string any) (options : list Option) : outcome call_result :=
  do c ctx mutationOperation m variables options.

(** NewClient creates a GraphQL client targeting the specified GraphQL
    server URL. If httpClient is nil, then http.DefaultClient is used. *)
Definition NewClient (h : heap) (u : string) (hc : option Doer) : loc * heap :=
  alloc h {| url := u;
             httpClient := default http_DefaultClient hc;
             requestModifier := None;
             debug := false |}.

End Pipeline.

Arguments Option : clear implicits.
Arguments constructOptionsOutput : clear implicits.
Arguments Externals : clear implicits.

(** ** A reference instance of the externals

    An executable stand-in for the libraries, used to run the pipeline on
    concrete responses: a reader of JSON texts (objects, arrays, strings
    with the simple escapes, numbers, [true], [false], [null]), a gzip
    reader for stored (uncompressed) deflate blocks, and the typed decoder
    for the mutation of the action's [addArtifact]. Error texts are those of
    the Go libraries where they are fixed texts. *)

Module Fixture.

(** *** Characters *)

Definition dquote : ascii := ascii_of_nat 34.
Definition backslash : ascii := ascii_of_nat 92.
Definition byte (n : nat) : string := String (ascii_of_nat n) "".

Definition is_space (c : ascii) : bool :=
  let n := nat_of_ascii c in
  (n =? 32)%nat || (n =? 9)%nat || (n =? 10)%nat || (n =? 13)%nat.

Fixpoint skip_ws (s : string) : string :=
  match s with
  | String c r => if is_space c then skip_ws r else s
  | "" => ""
  end.

Definition lower_ascii (c : ascii) : ascii :=
  let n := nat_of_ascii c in
  if (65 <=? n)%nat && (n <=? 90)%nat then ascii_of_nat (n + 32) else c.

Fixpoint lower (s : string) : string :=
  match s with
  | String c r => String (lower_ascii c) (lower r)
  | "" => ""
  end.

Fixpoint drop_string (n : nat) (s : string) : string :=
  match n, s with
  | S n, String _ r => drop_string n r
  | _, _ => s
  end.

Fixpoint take_string (n : nat) (s : string) : string :=
  match n, s with
  | S n, String c r => String c (take_string n r)
  | _, _ => ""
  end.

(** *** Reading JSON *)

Definition unescape (c : ascii) : option ascii :=
  let n := nat_of_ascii c in
  if (n =? 34)%nat || (n =? 92)%nat || (n =? 47)%nat then Some c
  else if (n =? 110)%nat then Some (ascii_of_nat 10)
  else if (n =? 116)%nat then Some (ascii_of_nat 9)
  else if (n =? 114)%nat then Some (ascii_of_nat 13)
  else None.

(** The text of a string literal, read after its opening quote. *)
Fixpoint parse_string (s : string) : option (string * string) :=
  match s with
  | "" => None
  | String c r =>
      if Ascii.eqb c dquote then Some ("", r)
      else if Ascii.eqb c backslash then
        match r with
        | String e r' =>
            match unescape e, parse_string r' with
            | Some c', Some (t, rest) => Some (String c' t, rest)
            | _, _ => None
            end
        | "" => None
        end
      else
        match parse_string r with
        | Some (t, rest) => Some (String c t, rest)
        | None => None
        end
  end.

Definition is_number_char (c : ascii) : bool :=
  let n := nat_of_ascii c in
  ((48 <=? n)%nat && (n <=? 57)%nat)
  || (n =? 45)%nat || (n =? 43)%nat || (n =? 46)%nat || (n =? 101)%nat || (n =? 69)%nat.

Fixpoint number_span (s : string) : nat :=
  match s with
  | String c r => if is_number_char c then S (number_span r) else 0%nat
  | "" => 0%nat
  end.

Definition starts_number (c : ascii) : bool :=
  let n := nat_of_ascii c in
  ((48 <=? n)%nat && (n <=? 57)%nat) || (n =? 45)%nat.

Fixpoint parse_value (fuel : nat) (s : string) {struct fuel} : option (any * string) :=
  match fuel with
  | O => None
  | S fuel =>
      match skip_ws s with
      | "" => None
      | String c r as t =>
          if Ascii.eqb c "{" then
            match skip_ws r with
            | String "}" r' => Some (map_any ∅, r')
            | _ => parse_members fuel r ∅
            end
          else if Ascii.eqb c "[" then
            match skip_ws r with
            | String "]" r' => Some (slice_any [], r')
            | _ => parse_elements fuel r []
            end
          else if Ascii.eqb c dquote then
            match parse_string r with
            | Some (x, rest) => Some (string_any x, rest)
            | None => None
            end
          else if String.prefix "true" t then Some (bool_any true, drop_string 4 t)
          else if String.prefix "false" t then Some (bool_any false, drop_string 5 t)
          else if String.prefix "null" t then Some (nil_any, drop_string 4 t)
          else if starts_number c then
            let n := number_span t in
            Some (number_any (take_string n t), drop_string n t)
          else None
      end
  end
with parse_members (fuel : nat) (s : string) (acc : gmap string any) {struct fuel}
  : option (any * string) :=
  match fuel with
  | O => None
  | S fuel =>
      match skip_ws s with
      | String c r =>
          if Ascii.eqb c dquote then
            match parse_string r with
            | Some (k, r1) =>
                match skip_ws r1 with
                | String ":" r2 =>
                    match parse_value fuel r2 with
                    | Some (x, r3) =>
                        match skip_ws r3 with
                        | String "," r4 => parse_members fuel r4 (<[k := x]> acc)
                        | String "}" r4 => Some (map_any (<[k := x]> acc), r4)
                        | _ => None
                        end
                    | None => None
                    end
                | _ => None
                end
            | None => None
            end
          else None
      | "" => None
      end
  end
with parse_elements (fuel : nat) (s : string) (acc : list any) {struct fuel}
  : option (any * string) :=
  match fuel with
  | O => None
  | S fuel =>
      match parse_value fuel s with
      | Some (x, r1) =>
          match skip_ws r1 with
          | String "," r2 => parse_elements fuel r2 (acc ++ [x])%list
          | String "]" r2 => Some (slice_any (acc ++ [x])%list, r2)
          | _ => None
          end
      | None => None
      end
  end.

Definition enough (s : string) : nat := (2 * String.length s + 2)%nat.

(** A whole text as one value. *)
Definition parse_json (s : string) : option any :=
  match parse_value (enough s) s with
  | Some (x, _) => Some x
  | None => None
  end.

(** The members of a top-level object in order of appearance, each with
    the raw text of its value. *)
Fixpoint raw_members (fuel : nat) (s : string) : option (list (string * string * any)) :=
  match fuel with
  | O => None
  | S fuel =>
      match skip_ws s with
      | String c r =>
          if Ascii.eqb c dquote then
            match parse_string r with
            | Some (k, r1) =>
                match skip_ws r1 with
                | String ":" r2 =>
                    let start := skip_ws r2 in
                    match parse_value (enough start) start with
                    | Some (x, r3) =>
                        let raw :=
                          take_string (String.length start - String.length r3) start in
                        match skip_ws r3 with
                        | String "," r4 =>
                            match raw_members fuel r4 with
                            | Some ms => Some ((k, raw, x) :: ms)
                            | None => None
                            end
                        | String "}" _ => Some [(k, raw, x)]
                        | _ => None
                        end
                    | None => None
                    end
                | _ => None
                end
            | None => None
            end
          else None
      | "" => None
      end
  end.

Definition top_members (s : string) : option (list (string * string * any)) :=
  match skip_ws s with
  | String "{" r =>
      match skip_ws r with
      | String "}" _ => Some []
      | _ => raw_members (enough r) r
      end
  | _ => None
  end.
(** JSON texts are written below with apostrophes for the quotes. *)
Fixpoint json (s : string) : string :=
  match s with
  | String c r => String (if Ascii.eqb c "'" then dquote else c) (json r)
  | "" => ""
  end.

(** *** Decoding the envelope *)

Definition type_error (what : string) : GoError :=
  errorString ("json: cannot unmarshal " ++ what).

Definition digit (c : ascii) : option Z :=
  let n := nat_of_ascii c in
  if (48 <=? n)%nat && (n <=? 57)%nat then Some (Z.of_nat (n - 48)) else None.

Fixpoint parse_digits (s : string) (acc : Z) : option Z :=
  match s with
  | "" => Some acc
  | String c r =>
      match digit c with
      | Some d => parse_digits r (10 * acc + d)
      | None => None
      end
  end.

Definition parse_int (s : string) : option Z :=
  match s with
  | "" => None
  | String "-" r => match r with "" => None | _ => Z.opp <$> parse_digits r 0 end
  | _ => parse_digits s 0
  end.

Definition decode_int (x : any) : GoError + Z :=
  match x with
  | number_any t =>
      match parse_int t with
      | Some n => inr n
      | None => inl (type_error "number into Go value of type int")
      end
  | nil_any => inr 0
  | _ => inl (type_error "value into Go value of type int")
  end.

Definition decode_location (x : any) : GoError + Location :=
  match x with
  | map_any m =>
      map_fold (fun k x acc =>
                  match acc with
                  | inl e => inl e
                  | inr l =>
                      if decide (lower k = "line") then
                        match decode_int x with
                        | inr n => inr {| Line := n; Column := Column l |}
                        | inl e => inl e
                        end
                      else if decide (lower k = "column") then
                        match decode_int x with
                        | inr n => inr {| Line := Line l; Column := n |}
                        | inl e => inl e
                        end
                      else inr l
                  end)
               (inr {| Line := 0; Column := 0 |}) m
  | nil_any => inr {| Line := 0; Column := 0 |}
  | _ => inl (type_error "value into Go struct field Error.locations")
  end.

Fixpoint decode_all {A : Type} (f : any -> GoError + A) (l : list any) : GoError + list A :=
  match l with
  | [] => inr []
  | x :: l =>
      match f x, decode_all f l with
      | inr a, inr r => inr (a :: r)
      | inl e, _ => inl e
      | _, inl e => inl e
      end
  end.

(** One member of an error object stored into the [Error] struct. The
    unexported field [err] is out of the decoder's reach. *)
Definition decode_error_field (k : string) (x : any) (e : Error) : GoError + Error :=
  if decide (lower k = "message") then
    match x with
    | string_any t =>
        inr {| Message := t; Extensions := Extensions e; Locations := Locations e;
               Path := Path e; err := err e |}
    | nil_any => inr e
    | _ => inl (type_error "value into Go struct field Error.message of type string")
    end
  else if decide (lower k = "extensions") then
    match x with
    | map_any m =>
        inr {| Message := Message e; Extensions := Some m; Locations := Locations e;
               Path := Path e; err := err e |}
    | nil_any =>
        inr {| Message := Message e; Extensions := None; Locations := Locations e;
               Path := Path e; err := err e |}
    | _ => inl (type_error "value into Go struct field Error.extensions")
    end
  else if decide (lower k = "locations") then
    match x with
    | slice_any l =>
        match decode_all decode_location l with
        | inr ls =>
            inr {| Message := Message e; Extensions := Extensions e; Locations := ls;
                   Path := Path e; err := err e |}
        | inl er => inl er
        end
    | nil_any =>
        inr {| Message := Message e; Extensions := Extensions e; Locations := [];
               Path := Path e; err := err e |}
    | _ => inl (type_error "value into Go struct field Error.locations")
    end
  else if decide (lower k = "path") then
    match x with
    | slice_any l =>
        inr {| Message := Message e; Extensions := Extensions e; Locations := Locations e;
               Path := l; err := err e |}
    | nil_any =>
        inr {| Message := Message e; Extensions := Extensions e; Locations := Locations e;
               Path := []; err := err e |}
    | _ => inl (type_error "value into Go struct field Error.path")
    end
  else inr e.

Definition zero_Error : Error :=
  {| Message := ""; Extensions := None; Locations := []; Path := []; err := None |}.

Definition decode_error (x : any) : GoError + Error :=
  match x with
  | map_any m =>
      map_fold (fun k x acc =>
                  match acc with
                  | inl e => inl e
                  | inr e => decode_error_field k x e
                  end)
               (inr zero_Error) m
  | nil_any => inr zero_Error
  | _ => inl (type_error "value into Go value of type graphql.Error")
  end.

(** A [*json.RawMessage] field: nil for [null], else the raw text. *)
Definition raw_pointer (raw : string) (x : any) : option string :=
  match x with
  | nil_any => None
  | _ => Some raw
  end.

Definition decode_envelope_field (m : string * string * any) (out : Envelope)
  : GoError + Envelope :=
  let '(k, raw, x) := m in
  if decide (lower k = "data") then
    inr {| Envelope_Data := raw_pointer raw x;
           Envelope_Extensions := Envelope_Extensions out;
           Envelope_Errors := Envelope_Errors out |}
  else if decide (lower k = "extensions") then
    inr {| Envelope_Data := Envelope_Data out;
           Envelope_Extensions := raw_pointer raw x;
           Envelope_Errors := Envelope_Errors out |}
  else if decide (lower k = "errors") then
    match x with
    | slice_any l =>
        match decode_all decode_error l with
        | inr es =>
            inr {| Envelope_Data := Envelope_Data out;
                   Envelope_Extensions := Envelope_Extensions out;
                   Envelope_Errors := es |}
        | inl e => inl e
        end
    | nil_any =>
        inr {| Envelope_Data := Envelope_Data out;
               Envelope_Extensions := Envelope_Extensions out;
               Envelope_Errors := [] |}
    | _ => inl (type_error "value into Go struct field .Errors of type graphql.Errors")
    end
  else inr out.

Definition zero_Envelope : Envelope :=
  {| Envelope_Data := None; Envelope_Extensions := None; Envelope_Errors := [] |}.

(** [json.NewDecoder(r).Decode(&out)] *)
Definition json_Decode (r : Stream) : GoError + Envelope :=
  let text := unread r in
  match top_members text with
  | Some ms =>
      foldl (fun acc m =>
               match acc with
               | inl e => inl e
               | inr out => decode_envelope_field m out
               end)
            (inr zero_Envelope) ms
  | None =>
      match parse_json text with
      | Some nil_any => inr zero_Envelope
      | Some _ => inl (type_error "value into Go value of type struct")
      | None =>
          match fault r with
          | Some e => inl e
          | None =>
              if decide (skip_ws text = "") then inl (errorString "EOF")
              else inl (errorString "invalid character in JSON text")
          end
      end
  end.

(** *** Writing JSON *)

Fixpoint escape (s : string) : string :=
  match s with
  | "" => ""
  | String c r =>
      let n := nat_of_ascii c in
      if (n =? 34)%nat || (n =? 92)%nat then String backslash (String c (escape r))
      else if (n =? 10)%nat then String backslash (String "n" (escape r))
      else if (n =? 13)%nat then String backslash (String "r" (escape r))
      else if (n =? 9)%nat then String backslash (String "t" (escape r))
      else String c (escape r)
  end.

Definition quote (s : string) : string :=
  String dquote (escape s) ++ String dquote "".

Fixpoint join (sep : string) (l : list string) : string :=
  match l with
  | [] => ""
  | [x] => x
  | x :: l => x ++ sep ++ join sep l
  end.

Definition key_le (a b : string * string) : Prop := String.leb a.1 b.1 = true.

#[global] Instance key_le_dec : RelDecision key_le :=
  fun a b => decide (String.leb a.1 b.1 = true).

(** An object from its rendered members, keys in sorted order. *)
Definition object (ms : gmap string string) : string :=
  "{" ++ join "," ((fun m => quote m.1 ++ ":" ++ m.2) <$> merge_sort key_le (map_to_list ms))
      ++ "}".

Fixpoint to_json (x : any) : string :=
  match x with
  | nil_any => "null"
  | bool_any b => if b then "true" else "false"
  | number_any t => t
  | string_any t => quote t
  | slice_any l => "[" ++ join "," (to_json <$> l) ++ "]"
  | map_any m => object (to_json <$> m)
  | header_any h =>
      object ((fun vs : list string => "[" ++ join "," (quote <$> vs) ++ "]") <$> h)
  | error_any _ => "{}"
  end.

(** [json.NewEncoder(&buf).Encode(in)]: the fields [query],
    [variables,omitempty] and [operationName,omitempty], then a newline. *)
Definition json_Encode (p : GraphQLRequestPayload) : GoError + string :=
  let query := quote "query" ++ ":" ++ quote (Payload_Query p) in
  let variables := quote "variables" ++ ":" ++ to_json (map_any (Payload_Variables p)) in
  let name := quote "operationName" ++ ":" ++ quote (Payload_OperationName p) in
  let fields : list string :=
    (query :: (if decide (Payload_Variables p = ∅) then nil else variables :: nil))%list in
  let fields : list string :=
    app fields (if decide (Payload_OperationName p = "") then nil else name :: nil) in
  inr ("{" ++ join "," fields ++ "}" ++ byte 10).

(** *** gzip with stored blocks *)

Definition crc32_step (crc : N) (c : ascii) : N :=
  let shift1 (x : N) : N :=
    if N.testbit x 0 then N.lxor (N.shiftr x 1) 3988292384 else N.shiftr x 1 in
  Nat.iter 8 shift1 (N.lxor crc (N_of_ascii c)).

Fixpoint crc32_update (crc : N) (s : string) : N :=
  match s with
  | "" => crc
  | String c r => crc32_update (crc32_step crc c) r
  end.

Definition crc32 (s : string) : N :=
  N.lxor (crc32_update 4294967295 s) 4294967295.

(** [n] as [k] little-endian bytes *)
Fixpoint le_bytes (k : nat) (n : N) : string :=
  match k with
  | O => ""
  | S k => String (ascii_of_N (n mod 256)) (le_bytes k (n / 256))
  end.

Fixpoint le_value (k : nat) (s : string) : option (N * string) :=
  match k, s with
  | O, _ => Some (0%N, s)
  | S k, String c r =>
      match le_value k r with
      | Some (n, rest) => Some ((N_of_ascii c + 256 * n)%N, rest)
      | None => None
      end
  | S _, "" => None
  end.

Definition gzip_header : string :=
  byte 31 ++ byte 139 ++ byte 8 ++ byte 0 ++ le_bytes 4 0 ++ byte 0 ++ byte 255.

(** The gzip file holding [payload] (shorter than 65536 bytes) as one
    stored block. *)
Definition gzip_stored (payload : string) : string :=
  let n := N.of_nat (String.length payload) in
  gzip_header
  ++ byte 1 ++ le_bytes 2 n ++ le_bytes 2 (65535 - n)
  ++ payload
  ++ le_bytes 4 (crc32 payload) ++ le_bytes 4 n.

Definition unexpected_EOF : GoError := errorString "unexpected EOF".

(** The contents of a run of stored blocks, the error that ends them and
    the bytes after the final block. *)
Fixpoint stored_blocks (fuel : nat) (s : string) : string * option GoError * string :=
  match fuel with
  | O => ("", Some unexpected_EOF, "")
  | S fuel =>
      match s with
      | "" => ("", Some unexpected_EOF, "")
      | String b r =>
          let n := N_of_ascii b in
          if negb (((n / 2) mod 4 =? 0)%N) then
            ("", Some (errorString "flate: block type outside this reader"), "")
          else
            match le_value 2 r with
            | Some (size, r1) =>
                match le_value 2 r1 with
                | Some (nsize, r2) =>
                    if negb ((size + nsize =? 65535)%N) then
                      ("", Some (errorString "flate: corrupt input"), "")
                    else if (String.length r2 <? N.to_nat size)%nat then
                      (r2, Some unexpected_EOF, "")
                    else
                      let data := take_string (N.to_nat size) r2 in
                      let rest := drop_string (N.to_nat size) r2 in
                      if (n mod 2 =? 1)%N then (data, None, rest)
                      else
                        let '(more, e, rest) := stored_blocks fuel rest in
                        (data ++ more, e, rest)
                | None => ("", Some unexpected_EOF, "")
                end
            | None => ("", Some unexpected_EOF, "")
            end
      end
  end.

(** The stream a gzip reader yields for the bytes after the header. *)
Definition gunzip (s : string) (ending : option GoError) : Stream :=
  let '(data, e, rest) := stored_blocks (String.length s) s in
  match e with
  | Some e => {| unread := data; fault := Some (default e ending) |}
  | None =>
      match le_value 4 rest with
      | Some (crc, r1) =>
          match le_value 4 r1 with
          | Some (size, _) =>
              if (crc =? crc32 data)%N && (size =? N.of_nat (String.length data))%N
              then {| unread := data; fault := None |}
              else {| unread := data; fault := Some (errorString "gzip: invalid checksum") |}
          | None => {| unread := data; fault := Some (default unexpected_EOF ending) |}
          end
      | None => {| unread := data; fault := Some (default unexpected_EOF ending) |}
      end
  end.

(** [gzip.NewReader(r)]: the header is read through a buffered reader,
    which takes up to 4096 bytes from [r]. Headers with optional fields
    are outside this reader. *)
Definition gzip_NewReader (r : Stream) : Stream * (GoError + Stream) :=
  let b := unread r in
  let left := {| unread := drop_string 4096 b; fault := fault r |} in
  if (String.length b <? 10)%nat then
    (left, inl (if decide (b = "") then default (errorString "EOF") (fault r)
                else default unexpected_EOF (fault r)))
  else if String.prefix (byte 31 ++ byte 139 ++ byte 8 ++ byte 0) b then
    (left, inr (gunzip (drop_string 10 b) (fault r)))
  else (left, inl (errorString "gzip: invalid header")).

(** *** The caller's types *)

(** The mutation of the action:
    [struct { AddArtifact struct { ID string } }], selected as
    [addArtifact(input: $input)] with the field [id]. *)
Record Mutation : Type := mkMutation {
  AddArtifact_ID : string
}.

Definition no_field (k : string) : GoError :=
  errorString ("struct field for " ++ quote k ++
               " doesn't exist in any of 1 places to unmarshal").

(** A key of [m] other than [k], if any. *)
Definition stray_key (k : string) (m : gmap string any) : option string :=
  head (filter (fun x => x ≠ k) (fst <$> map_to_list m)).

(** Modelled from the spec: [jsonutil.UnmarshalGraphQL] is a package of the
    library that is not part of this file. It unmarshals the data payload
    into the caller's typed output: for an output expecting [{id: string}]
    under [addArtifact], the payload [{"addArtifact": {"id": "abc123"}}]
    gives [id = "abc123"]. On failure this decoder
    leaves the output as it found it. *)
Definition UnmarshalGraphQL (data : string) (v : Mutation) : Mutation * option GoError :=
  match parse_json data with
  | None => (v, Some (errorString "unexpected end of JSON input"))
  | Some (map_any m) =>
      match stray_key "addArtifact" m with
      | Some k => (v, Some (no_field k))
      | None =>
          match m !! "addArtifact" with
          | Some (map_any a) =>
              match stray_key "id" a with
              | Some k => (v, Some (no_field k))
              | None =>
                  match a !! "id" with
                  | Some (string_any x) => ({| AddArtifact_ID := x |}, None)
                  | Some nil_any | None => (v, None)
                  | Some _ => (v, Some (type_error "value into Go value of type string"))
                  end
              end
          | Some nil_any | None => (v, None)
          | Some _ => (v, Some (errorString "unexpected token for a struct"))
          end
      end
  | Some nil_any => (v, None)
  | Some _ => (v, Some (errorString "unexpected token for a struct"))
  end.

(** [json.Unmarshal(rawExtensions, &m)] for a bound [map[string]any]. *)
Definition json_Unmarshal (raw : string) (x : gmap string any)
  : gmap string any * option GoError :=
  match parse_json raw with
  | Some (map_any m) => (m ∪ x, None)
  | Some nil_any => (∅, None)
  | Some _ =>
      (x, Some (type_error "value into Go value of type map[string]interface {}"))
  | None => (x, Some (errorString "unexpected end of JSON input"))
  end.

(** Modelled from the spec: [constructOptions], [constructQuery] and
    [constructMutation] belong to the query builder of the library, which
    is not part of this file. The document is a query or mutation string
    derived from the shape of the output type, plus an optional operation
    name; the options also carry the bound extensions target. *)
Fixpoint constructOptions (options : list (Option (gmap string any)))
    (output : constructOptionsOutput (gmap string any))
  : GoError + constructOptionsOutput (gmap string any) :=
  match options with
  | [] => inr output
  | operationNameOption name :: rest =>
      constructOptions rest {| operationName := name; extensions := extensions output |}
  | bindExtensionsOption value :: rest =>
      constructOptions rest {| operationName := operationName output; extensions := value |}
  | otherOption t :: rest =>
      if decide (t = OptionTypeOperationDirective) then constructOptions rest output
      else inl (errorString ("invalid query option type: " ++ t))
  end.

Definition selection : string := "{addArtifact(input: $input){id}}".

Definition construct (keyword : string) (v : Mutation) (variables : gmap string any)
    (options : list (Option (gmap string any)))
  : string * option (constructOptionsOutput (gmap string any)) * option GoError :=
  match constructOptions options {| operationName := ""; extensions := None |} with
  | inl e => ("", None, Some e)
  | inr o =>
      let arguments :=
        if decide (variables = ∅) then "" else "($input: AddArtifactInput!)" in
      let name := if decide (operationName o = "") then "" else " " ++ operationName o in
      (keyword ++ name ++ arguments ++ selection, Some o, None)
  end.

(** *** net/http *)

Definition http_StatusText (code : Z) : string :=
  if code =? 200 then "OK"
  else if code =? 201 then "Created"
  else if code =? 204 then "No Content"
  else if code =? 400 then "Bad Request"
  else if code =? 401 then "Unauthorized"
  else if code =? 403 then "Forbidden"
  else if code =? 404 then "Not Found"
  else if code =? 500 then "Internal Server Error"
  else if code =? 502 then "Bad Gateway"
  else if code =? 503 then "Service Unavailable"
  else "".

(** A context is [None] for the nil context. *)
Definition http_NewRequestWithContext (ctx : option unit) (method url : string)
    (reqBody : bytes_Reader) : GoError + Request :=
  match ctx with
  | None => inl (errorString "net/http: nil Context")
  | Some _ =>
      inr {| Request_Method := method; Request_URL := url; Request_Header := ∅ |}
  end.

(** A default client with no network behind it. *)
Definition http_DefaultClient : Doer :=
  fun req => (req, None, Some (errorString "dial tcp: connection refused")).

#[global] Instance externals : Externals (option unit) Mutation (gmap string any) :=
  @Build_Externals (option unit) Mutation (gmap string any)
    http_StatusText http_DefaultClient http_NewRequestWithContext
    json_Encode json_Decode json_Unmarshal
    gzip_NewReader
    (construct "query") (construct "mutation") UnmarshalGraphQL.

(** *** Transports and clients of the examples *)

(** The round tripper of the action: sets the bearer token and the
    organization on the request, then answers with [resp]. *)
Definition customTransport (token organization : string) (resp : Response) : Doer :=
  fun req =>
    let req := {| Request_Method := Request_Method req;
                  Request_URL := Request_URL req;
                  Request_Header :=
                    <["X-Organization" := [organization]]>
                      (<["Authorization" := ["Bearer " ++ token]]> (Request_Header req)) |} in
    (req, Some resp, None).

(** A transport that fails with [e]. *)
Definition brokenTransport (e : GoError) : Doer :=
  fun req => (req, None, Some e).

Definition apiURL : string := "https://api.trynova.ai/graphql".

Definition plain (status : Z) (text : string) : Response :=
  {| Response_StatusCode := status;
     Response_Header := {[ "Content-Type" := ["application/json"] ]};
     Response_Body := {| unread := text; fault := None |} |}.

Definition gzipped (status : Z) (bytes : string) : Response :=
  {| Response_StatusCode := status;
     Response_Header := <["Content-Encoding" := ["gzip"]]>
                          {[ "Content-Type" := ["application/json"] ]};
     Response_Body := {| unread := bytes; fault := None |} |}.

Definition client (dbg : bool) (resp : Response) : Client :=
  {| url := apiURL;
     httpClient := customTransport "t0k3n" "org-1" resp;
     requestModifier := None;
     debug := dbg |}.

Definition background : option unit := Some tt.

Definition input : gmap string any :=
  {[ "input" := map_any (<["type" := string_any "registry"]>
                          {[ "artifactId" := string_any "a-1" ]}) ]}.

Definition zero : Mutation := {| AddArtifact_ID := "" |}.
End Fixture.

(** ** Vocabulary of the properties *)

Section Vocabulary.

Context {Ctx Target ExtTarget : Type} {ext : Externals Ctx Target ExtTarget}.

(** The fixed classification strings. *)
Definition pipeline_codes : list string :=
  [ErrRequestError; ErrJsonEncode; ErrJsonDecode;
   ErrGraphQLEncode; ErrGraphQLDecode; ErrGraphQLExtensionsDecode].

(** [e] carries a non-nil extensions map binding ["code"] to one of the
    fixed strings, and its message is the message of the error it wraps. *)
Definition classified (e : Error) : Prop :=
  ∃ m code cause,
    Extensions e = Some m ∧ m !! "code" = Some (string_any code) ∧
    code ∈ pipeline_codes ∧
    err e = Some cause ∧ Message e = GoError_Error cause.

(** [e] is the error [e0] up to what is stored under its extensions. *)
Definition same_error (e0 e : Error) : Prop :=
  Message e = Message e0 ∧ Locations e = Locations e0 ∧
  Path e = Path e0 ∧ err e = err e0.

(** [e] is an error read from a response envelope. *)
Definition from_envelope (e : Error) : Prop :=
  ∃ r out e0, json_Decode r = inr out ∧ e0 ∈ Envelope_Errors out ∧ same_error e0 e.

(** The request as the transport gets it. *)
Definition outgoing (c : Client) (req0 : Request) : Request :=
  let request := Request_Header_Add req0 "Content-Type" "application/json" in
  match requestModifier c with
  | Some f => f request
  | None => request
  end.

(** The payload of a call. *)
Definition payload (query : string) (variables : gmap string any)
    (options : option (constructOptionsOutput ExtTarget)) : GraphQLRequestPayload :=
  {| Payload_Query := query;
     Payload_Variables := variables;
     Payload_OperationName := match options with
                              | Some o => operationName o
                              | None => ""
                              end |}.

(** The call is sent with body [reqBody] and the transport, leaving the
    request as [req], returns the response pointer [resp] and the error
    [failure]. *)
Definition dispatched (c : Client) (ctx : Ctx) (query : string)
    (variables : gmap string any) (options : option (constructOptionsOutput ExtTarget))
    (reqBody : string) (req : Request) (resp : option Response)
    (failure : option GoError) : Prop :=
  ∃ req0,
    json_Encode (payload query variables options) = inr reqBody ∧
    http_NewRequestWithContext ctx http_MethodPost (url c) (bytes_NewReader reqBody)
      = inr req0 ∧
    httpClient c (outgoing c req0) = (req, resp, failure).

(** The transport answers the call with [resp]. *)
Definition answered (c : Client) (ctx : Ctx) (query : string)
    (variables : gmap string any) (options : option (constructOptionsOutput ExtTarget))
    (reqBody : string) (req : Request) (resp : Response) : Prop :=
  dispatched c ctx query variables options reqBody req (Some resp) None.

(** The response declares the gzip content encoding. *)
Definition declares_gzip (resp : Response) : Prop :=
  Header_Get (Response_Header resp) "Content-Encoding" = "gzip".

(** The body of [resp] as it stands when the status is looked at: as
    received, or as the gzip reader left it after reading the header. *)
Definition body_left (resp : Response) (left : Stream) : Prop :=
  (¬ declares_gzip resp ∧ left = Response_Body resp) ∨
  (declares_gzip resp ∧ ∃ gr, gzip_NewReader (Response_Body resp) = (left, inr gr)).

(** What debug mode stores for the request and for the response. *)
Definition captured_request (req : Request) (reqBody : string) : any :=
  map_any (<["headers" := header_any (Request_Header req)]>
             {[ "body" := string_any reqBody ]}).

Definition captured_response (resp : Response) (respBody : string) : any :=
  map_any (<["body" := string_any respBody]>
             {[ "headers" := header_any (Response_Header resp) ]}).

(** [e] has request and response bytes attached. *)
Definition has_capture (e : Error) : Prop :=
  ∃ internal rq rs,
    map_index (Extensions e) "internal" = map_any internal ∧
    internal !! "request" = Some rq ∧ internal !! "response" = Some rs.

(** The same libraries with another envelope decoder. *)
Definition with_json_Decode (d : Stream → GoError + Envelope) : Externals Ctx Target ExtTarget :=
  {| http_StatusText := http_StatusText;
     http_DefaultClient := http_DefaultClient;
     http_NewRequestWithContext := http_NewRequestWithContext;
     json_Encode := json_Encode;
     json_Decode := d;
     json_Unmarshal := json_Unmarshal;
     gzip_NewReader := gzip_NewReader;
     constructQuery := constructQuery;
     constructMutation := constructMutation;
     jsonutil_UnmarshalGraphQL := jsonutil_UnmarshalGraphQL |}.

(** [l'] is a new client value in [h'], holding [cl'], which shares the
    URL and the transport of [base]; every other client of the heap is
    as it was in [h]. *)
Definition derived_from (h : heap) (base : Client) (l' : loc) (h' : heap)
    (cl' : Client) : Prop :=
  h !! l' = None ∧ h' !! l' = Some cl' ∧
  url cl' = url base ∧ httpClient cl' = httpClient base ∧
  ∀ k, k ≠ l' → h' !! k = h !! k.

(** The errors a call may return: built by the pipeline, or read from
    the envelope. *)
Definition accounted (e : Error) : Prop := classified e ∨ from_envelope e.

(** What [request] hands to [processResponse]: either nothing but
    errors, or a response, with the reader over its captured body when
    the client is in debug mode. *)
Definition delivered (c : Client) (res : request_result) : Prop :=
  let '(data, extData, resp, respBuf, _) := res in
  (resp = None ∧ data = "" ∧ extData = "") ∨
  (∃ r, resp = Some r ∧
        (debug c = true → ∃ rd, respBuf = bytes_Reader_ptr (Some rd))).

(** The second step of [processResponse]: the bound extensions target
    as it is left, and the errors the step adds. *)
Definition extensions_step (x : option ExtTarget) (raw : string)
  : option ExtTarget * Errors :=
  match x with
  | Some t =>
      if 0 <? len raw then
        match json_Unmarshal raw t with
        | (t', Some e) => (Some t', [newError ErrGraphQLExtensionsDecode e])
        | (t', None) => (Some t', [])
        end
      else (Some t, [])
  | None => (None, [])
  end.

(** The reader the envelope is decoded from when the client is not in
    debug mode: the body, or the gzip reader over it. *)
Definition decoded_from (resp : Response) (r : Stream) : Prop :=
  (¬ declares_gzip resp ∧ r = Response_Body resp) ∨
  (declares_gzip resp ∧ ∃ left, gzip_NewReader (Response_Body resp) = (left, inr r)).


(** The errors of a returned request, none for a panic. *)
Definition errors_of (r : outcome request_result) : Errors :=
  match r with
  | Ret res => res.2
  | Panic _ => []
  end.

(** The client [c] with its debug flag cleared. *)
Definition without_debug (c : Client) : Client :=
  {| url := url c; httpClient := httpClient c;
     requestModifier := requestModifier c; debug := false |}.

(** [e] carries nothing debug mode would attach: it is exactly as
    [newError] built it, or exactly as the envelope decoder read it. *)
Definition uncaptured (e : Error) : Prop :=
  (∃ code cause, code ∈ pipeline_codes ∧ e = newError code cause) ∨
  (∃ r out, json_Decode r = inr out ∧ e ∈ Envelope_Errors out).

End Vocabulary.

(** ** Scenarios *)

Module Scenario.
Import Fixture.

Definition only_data : string := json "{'data': {'addArtifact': {'id': 'abc123'}}}".

Definition two_errors : string :=
  json "{'data': {'addArtifact': {'id': 'abc123'}}, 'errors': [{'message': 'first'}, {'message': 'second'}]}".

Definition ill_typed_internal : string :=
  json "{'data': {'addArtifact': {'id': 'abc123'}}, 'errors': [{'message': 'boom', 'extensions': {'internal': 'x'}}]}".

Definition query : string := "mutation($input: AddArtifactInput!)" ++ selection.

Definition sent : string :=
  json "{'query':'mutation($input: AddArtifactInput!){addArtifact(input: $input){id}}','variables':{'input':{'artifactId':'a-1','type':'registry'}}}"
  ++ byte 10.

(** The request as [customTransport] leaves it. *)
Definition seen : Request :=
  {| Request_Method := "POST";
     Request_URL := apiURL;
     Request_Header :=
       <["X-Organization" := ["org-1"]]>
         (<["Authorization" := ["Bearer t0k3n"]]>
            {[ "Content-Type" := ["application/json"] ]}) |}.

Definition options : constructOptionsOutput (gmap string any) :=
  {| operationName := ""; extensions := None |}.

(** A heap with one client. *)
Definition base : Client := client false (plain 200 only_data).
Definition one_client : heap := {[ 1%positive := base ]}.


Definition bad_extensions : string :=
  json "{'data': {'addArtifact': {'id': 'abc123'}}, 'extensions': 'oops'}".

(** [BindExtensions(&m)] with an empty map [m]. *)
Definition bound : list (Option (gmap string any)) := [BindExtensions (Some ∅)].

Definition bound_options : constructOptionsOutput (gmap string any) :=
  {| operationName := ""; extensions := Some ∅ |}.

(** The request before the transport sees it. *)
Definition fresh_request : Request :=
  {| Request_Method := "POST"; Request_URL := apiURL; Request_Header := ∅ |}.

Definition decoded : Mutation := {| AddArtifact_ID := "abc123" |}.

Definition data_text : string := json "{'addArtifact': {'id': 'abc123'}}".

Definition message_only (text : string) : Error :=
  {| Message := text; Extensions := None; Locations := []; Path := []; err := None |}.

(** [two_errors], decoded. *)
Definition two_errors_envelope : Envelope :=
  {| Envelope_Data := Some data_text;
     Envelope_Extensions := None;
     Envelope_Errors := [message_only "first"; message_only "second"] |}.

(** [only_data], decoded. *)
Definition only_data_envelope : Envelope :=
  {| Envelope_Data := Some data_text;
     Envelope_Extensions := None;
     Envelope_Errors := [] |}.

Definition boom : Error :=
  {| Message := "boom";
     Extensions := Some {[ "internal" := string_any "x" ]};
     Locations := []; Path := []; err := None |}.

(** [ill_typed_internal], decoded. *)
Definition ill_typed_internal_envelope : Envelope :=
  {| Envelope_Data := Some data_text;
     Envelope_Extensions := None;
     Envelope_Errors := [boom] |}.

Definition whole (text : string) : Stream := {| unread := text; fault := None |}.
End Scenario.

(** ** The raw entry points of the client *)

Section RawCalls.

Context {Ctx Target ExtTarget : Type} {ext : Externals Ctx Target ExtTarget}.

(** QueryRaw executes a single GraphQL query request and returns the raw
    bytes message. *)
Definition QueryRaw (c : Client) (ctx : Ctx) (q : Target)
    (variables : gmap string any) (options : list (Option ExtTarget))
  : outcome (string * Errors) :=
  doRaw c ctx queryOperation q variables options.


(** NamedQuery and NamedMutate: the shortcuts with an operation name. *)
Definition NamedQuery (c : Client) (ctx : Ctx) (name : string) (q : Target)
    (variables : gmap string any) (options : list (Option ExtTarget))
  : outcome call_result :=
  do c ctx queryOperation q variables (options ++ [OperationName name])%list.

Definition NamedMutate (c : Client) (ctx : Ctx) (name : string) (m : Target)
    (variables : gmap string any) (options : list (Option ExtTarget))
  : outcome call_result :=
  do c ctx mutationOperation m variables (options ++ [OperationName name])%list.

(** The transport honours the contract of [http.Client.Do]: it returns an
    error or a response. *)
Definition honours_contract (d : Doer) : Prop :=
  ∀ req, ∃ req', (∃ resp, d req = (req', Some resp, None)) ∨
                 (∃ resp e, d req = (req', resp, Some e)).

End RawCalls.

(** * The action (package main) *)

Module Action.

Definition authURL : string :=
  "https://auth.trynova.ai/realms/default/protocol/openid-connect/token".
Definition registryURL : string := "registry.trynova.ai".
Definition apiURL : string := "https://api.trynova.ai/graphql".

(** ** What the action does on the runner *)

(** The calls the action makes on the machine it runs on, oldest first.
    What each call returns is the machine's to say (class [Machine]), and
    may depend on everything done before. The remote ends, the token
    endpoint and the API, answer through the machine as well. *)
Inductive Event : Type :=
| call_log (line : string)                          (* log.Println, log.Printf *)
| call_MkdirAll (path : string) (perm : Z)
| call_WriteFile (name data : string) (perm : Z)
| call_Run (argv : list string).                    (* cmd.Run *)

Abbreviation Trace := (list Event).

(** [error] values of package main: an error of a library (also the texts
    of [fmt.Errorf] without [%w]), the errors of the GraphQL client, and
    [fmt.Errorf(format ++ "%w", cause)]. *)
Inductive error : Type :=
| library (e : GoError)
| graphql_Errors (errs : Errors)
| Errorf_w (format : string) (cause : error).

(** An operand of [log.Fatalf]. *)
Inductive operand : Type :=
| text (s : string)
| failure (e : error).

(** How the program ends: [main] returns, [log.Fatalf] logs the formatted
    operands and exits with status 1, or the runtime panics. *)
Inductive Exit : Type :=
| returned
| Fatalf (format : string) (operands : list operand)
| index_out_of_range (index length : nat)
| panicked (why : panic_reason).

(** The fields of [*http.Response] that [getBearerToken] reads. *)
Record TokenResponse : Type := mkTokenResponse {
  Status : string;
  StatusCode : Z;
  Body : Stream
}.

Record AuthResponse : Type := mkAuthResponse {
  AccessToken : string
}.

(** A [http.RoundTripper]: like a [Doer], the request as it leaves it,
    the response and the error. *)
Definition RoundTripper : Type := Request → Request * option Response * option GoError.

Class Machine : Type := {
  (** os, os/exec: [cmd.Run] gives the combined output, for the callers
      that capture it, and the error *)
  os_UserHomeDir : Trace → GoError + string;
  os_MkdirAll : Trace → string → Z → option GoError;
  os_WriteFile : Trace → string → string → Z → option GoError;
  cmd_Run : Trace → list string → string * option GoError;
  (** path/filepath, net/url, encoding/base64, net/textproto *)
  filepath_Join : string → string → string;
  url_Values_Encode : gmap string (list string) → string;
  base64_RawURLEncoding_DecodeString : string → GoError + string;
  textproto_CanonicalMIMEHeaderKey : string → string;
  (** net/http: [http.NewRequest] of method, URL and body;
      [(&http.Client{}).Do] on the token request; [http.DefaultTransport];
      [(&http.Client{Transport: rt}).Do] *)
  http_NewRequest : string → string → string → GoError + Request;
  http_Client_Do : Trace → Request → string → GoError + TokenResponse;
  http_DefaultTransport : Trace → RoundTripper;
  http_Client : RoundTripper → Doer;
  (** encoding/json: decoding the token answer, and unmarshaling the claims
      into a [map[string]interface{}] (nil for the JSON null) *)
  json_Decode_AuthResponse : Stream → GoError + AuthResponse;
  json_Unmarshal_claims : string → GoError + option (gmap string any)
}.

(** ** Strings *)

Definition quot : string := String (ascii_of_nat 34) "".
Definition tab : string := String (ascii_of_nat 9) "".
Definition newline : string := String (ascii_of_nat 10) "".

(** [strings.Split(s, sep)] for a separator of one byte. *)
Fixpoint Split (s : string) (sep : ascii) : list string :=
  match s with
  | "" => [""]
  | String c r =>
      if Ascii.eqb c sep then "" :: Split r sep
      else match Split r sep with
           | part :: parts => String c part :: parts
           | [] => [String c ""]
           end
  end.

(** [fmt.Sprintf("%s/%s:%s", registryURL, imageName, imageTag)] *)
Definition parseLocation (imageName imageTag : string) : string :=
  registryURL ++ "/" ++ imageName ++ ":" ++ imageTag.

Section Steps.

Context {Ctx ExtTarget : Type}.
Context {ext : Externals Ctx Fixture.Mutation ExtTarget}.
Context {machine : Machine}.

(** [context.Background()] *)
Context (context_Background : Ctx).

(** [h.Set(key, value)] on a [http.Header], and on a [url.Values]. *)
Definition Header_Set (h : Header) (key value : string) : Header :=
  <[textproto_CanonicalMIMEHeaderKey key := [value]]> h.

Definition Values_Set (v : gmap string (list string)) (key value : string)
  : gmap string (list string) :=
  <[key := [value]]> v.

Definition Request_Header_Set (r : Request) (key value : string) : Request :=
  {| Request_Method := Request_Method r;
     Request_URL := Request_URL r;
     Request_Header := Header_Set (Request_Header r) key value |}.

(** ** The steps *)

Definition getBearerToken (clientId secret : string) (t : Trace)
  : Trace * (error + string * string) :=
  let t := (t ++ [call_log "Getting bearer token..."])%list in
  let data := Values_Set ∅ "grant_type" "client_credentials" in
  let data := Values_Set data "client_id" clientId in
  let data := Values_Set data "client_secret" secret in
  let form := url_Values_Encode data in
  match http_NewRequest "POST" authURL form with
  | inl e => (t, inl (library e))
  | inr req =>
      let req := Request_Header_Set req "Content-Type" "application/x-www-form-urlencoded" in
      match http_Client_Do t req form with
      | inl e => (t, inl (library e))
      | inr resp =>
          if negb (StatusCode resp =? http_StatusOK) then
            (t, inl (library (errorString ("failed to get token: " ++ Status resp))))
          else
            match json_Decode_AuthResponse (Body resp) with
            | inl e => (t, inl (library e))
            | inr authResp =>
                (* Get the organization_id from the token *)
                let token := AccessToken authResp in
                let claims := Split token "." in
                if negb (length claims =? 3)%nat then
                  (t, inl (library (errorString "invalid token format")))
                else
                  match base64_RawURLEncoding_DecodeString (default "" (claims !! 1%nat)) with
                  | inl e => (t, inl (library e))
                  | inr claimsData =>
                      match json_Unmarshal_claims claimsData with
                      | inl e => (t, inl (library e))
                      | inr claimsMap =>
                          match map_index claimsMap "organization_id" with
                          | string_any organizationId =>
                              ((t ++ [call_log "Bearer token obtained."])%list,
                               inr (AccessToken authResp, organizationId))
                          | _ =>
                              (t, inl (library
                                         (errorString "organization_id not found in token")))
                          end
                      end
                  end
            end
      end
  end.

(** The text written to the Docker configuration file. *)
Definition configContent (token : string) : string :=
  "{" ++ newline ++
  tab ++ tab ++ quot ++ "HttpHeaders" ++ quot ++ " : {" ++ newline ++
  tab ++ tab ++ tab ++ quot ++ "X-Meta-Authorization" ++ quot ++ " : "
      ++ quot ++ "Bearer " ++ token ++ quot ++ newline ++
  tab ++ tab ++ "}" ++ newline ++
  tab ++ "}".

Definition updateDockerConfig (token : string) (t : Trace) : Trace * option error :=
  let t := (t ++ [call_log "Updating Docker config..."])%list in
  match os_UserHomeDir t with
  | inl e => (t, Some (library e))
  | inr homeDir =>
      let dockerConfigPath := filepath_Join homeDir ".docker" in
      let t' := (t ++ [call_MkdirAll dockerConfigPath 448])%list in   (* 0700 *)
      match os_MkdirAll t dockerConfigPath 448 with
      | Some e => (t', Some (library e))
      | None =>
          let configFile := filepath_Join dockerConfigPath "config.json" in
          let t'' := (t' ++ [call_WriteFile configFile (configContent token) 384])%list in
          match os_WriteFile t' configFile (configContent token) 384 with   (* 0600 *)
          | Some e => (t'', Some (library e))
          | None => ((t'' ++ [call_log "Docker config updated."])%list, None)
          end
      end
  end.

Definition runDockerBuild (dockerfilePath dockerfile imageName imageTag : string)
    (t : Trace) : Trace * option error :=
  let t := (t ++ [call_log "Building Docker image..."])%list in
  let fullImageName := registryURL ++ "/" ++ imageName ++ ":" ++ imageTag in
  (* the inline Dockerfile, when given, is written and takes the place of the path *)
  let '(t, dockerfilePath, written) :=
    if negb (bool_decide (dockerfile = "")) then
      ((t ++ [call_WriteFile "./Dockerfile" dockerfile 420])%list,   (* 0644 *)
       "./Dockerfile",
       os_WriteFile t "./Dockerfile" dockerfile 420)
    else (t, dockerfilePath, None) in
  match written with
  | Some e => (t, Some (library e))
  | None =>
      if negb (bool_decide (dockerfilePath = "")) then
        let argv := ["docker"; "build"; "-f"; dockerfilePath; "-t"; fullImageName; "."] in
        let t' := (t ++ [call_Run argv])%list in
        match (cmd_Run t argv).2 with
        | Some e => (t', Some (library e))
        | None => ((t' ++ [call_log ("Docker image built: " ++ fullImageName)])%list, None)
        end
      else
        (t, Some (library (errorString "either dockerfilePath or dockerfile must be set")))
  end.

Definition runDockerPush (imageName imageTag : string) (t : Trace)
  : Trace * (string * option error) :=
  let t := (t ++ [call_log "Pushing Docker image..."])%list in
  let fullImageName := registryURL ++ "/" ++ imageName ++ ":" ++ imageTag in
  let argv := ["docker"; "push"; fullImageName] in
  let t' := (t ++ [call_Run argv])%list in
  match cmd_Run t argv with
  | (out, Some e) => (t', (out, Some (library e)))
  | (out, None) =>
      ((t' ++ [call_log ("Docker image pushed: " ++ fullImageName)])%list, (out, None))
  end.

Definition setOutput (name value : string) (t : Trace) : Trace * option error :=
  let t := (t ++ [call_log ("Setting output: " ++ name ++ "=" ++ value)])%list in
  let argv := ["sh"; "-c"; "echo ::set-output name=" ++ name ++ "::" ++ value] in
  ((t ++ [call_Run argv])%list, library <$> (cmd_Run t argv).2).

(** Custom transport to add headers *)
Record customTransport : Type := mkCustomTransport {
  Transport : RoundTripper;
  Token : string;
  Organization : string
}.

Definition RoundTrip (ct : customTransport) : RoundTripper :=
  fun req =>
    let req := Request_Header_Set req "Authorization" ("Bearer " ++ Token ct) in
    let req := Request_Header_Set req "x-organization" (Organization ct) in
    Transport ct req.

(** [models.AddArtifactInput] stored in an [any]: a struct value is
    represented by the object its json tags give. *)
Definition AddArtifactInput (type artifactID version : string) (tags : list any)
    (registryURL_ : string) : any :=
  map_any (<["type" := string_any type]>
          (<["artifactId" := string_any artifactID]>
          (<["version" := string_any version]>
          (<["tags" := slice_any tags]>
          {[ "registry" := map_any {[ "url" := string_any registryURL_ ]} ]})))).

Definition addArtifact (token organization artifactId version url_ : string) (t : Trace)
  : Trace * outcome (option error) :=
  let t := (t ++ [call_log "Adding artifact to GraphQL API..."])%list in
  let httpClient :=
    http_Client (RoundTrip {| Transport := http_DefaultTransport t;
                              Token := token;
                              Organization := organization |}) in
  let '(l, h) := NewClient ∅ apiURL (Some httpClient) in
  match h !! l with
  | None => (t, Panic nil_dereference)
  | Some client =>
      let mutation := {| Fixture.AddArtifact_ID := "" |} in
      let input := AddArtifactInput "registry" artifactId version [] url_ in
      let variables : gmap string any := {[ "input" := input ]} in
      match Mutate client context_Background mutation variables [] with
      | Panic why => (t, Panic why)
      | Ret (mutation, _, errs) =>
          match errs with
          | _ :: _ => (t, Ret (Some (Errorf_w "failed to add artifact: " (graphql_Errors errs))))
          | [] =>
              ((t ++ [call_log ("Artifact added successfully with ID: "
                                ++ Fixture.AddArtifact_ID mutation)])%list,
               Ret None)
          end
      end
  end.

(** [os.Args[i]] *)
Definition Args_index (args : list string) (i : nat) : Exit + string :=
  match args !! i with
  | Some a => inr a
  | None => inl (index_out_of_range i (length args))
  end.

Definition usage : string :=
  "Usage: %s <clientId> <secret> <imageName> <imageTag> <artifactId> <dockerfilePath> <dockerfile>".

(** [main] after its arguments are read. *)
Definition run (clientId secret imageName imageTag artifactId dockerfilePath dockerfile : string)
    (t : Trace) : Trace * Exit :=
  let t := (t ++ [call_log ("ClientId: " ++ clientId ++ ", ImageName: " ++ imageName
                            ++ ", ImageTag: " ++ imageTag)])%list in
  match getBearerToken clientId secret t with
  | (t, inl e) => (t, Fatalf "Failed to get bearer token: %v" [failure e])
  | (t, inr (token, org)) =>
      match updateDockerConfig token t with
      | (t, Some e) => (t, Fatalf "Failed to update Docker config: %v" [failure e])
      | (t, None) =>
          match runDockerBuild dockerfilePath dockerfile imageName imageTag t with
          | (t, Some e) => (t, Fatalf "Failed to build Docker image: %v" [failure e])
          | (t, None) =>
              match runDockerPush imageName imageTag t with
              | (t, (output, Some e)) =>
                  (t, Fatalf ("Failed to push Docker image: %v" ++ newline ++ "Output: %s")
                        [failure e; text output])
              | (t, (_, None)) =>
                  let location := parseLocation imageName imageTag in
                  match setOutput "location" location t with
                  | (t, Some e) => (t, Fatalf "Failed to set output: %v" [failure e])
                  | (t, None) =>
                      match addArtifact token org artifactId imageTag location t with
                      | (t, Panic why) => (t, panicked why)
                      | (t, Ret (Some e)) =>
                          (t, Fatalf "Failed to add artifact: %v" [failure e])
                      | (t, Ret None) =>
                          ((t ++ [call_log "Docker Push Action completed successfully."])%list,
                           returned)
                      end
                  end
              end
          end
      end
  end.

(** [main], on [os.Args]. *)
Definition main (args : list string) (t : Trace) : Trace * Exit :=
  let t := (t ++ [call_log "Starting Docker Push Action..."])%list in
  if negb (length args =? 7)%nat then
    match Args_index args 0 with
    | inl panic => (t, panic)
    | inr program => (t, Fatalf usage [text program])
    end
  else
    match Args_index args 1, Args_index args 2, Args_index args 3, Args_index args 4,
          Args_index args 5, Args_index args 6, Args_index args 7 with
    | inr clientId, inr secret, inr imageName, inr imageTag,
      inr artifactId, inr dockerfilePath, inr dockerfile =>
        run clientId secret imageName imageTag artifactId dockerfilePath dockerfile t
    | inl panic, _, _, _, _, _, _
    | _, inl panic, _, _, _, _, _
    | _, _, inl panic, _, _, _, _
    | _, _, _, inl panic, _, _, _
    | _, _, _, _, inl panic, _, _
    | _, _, _, _, _, inl panic, _
    | _, _, _, _, _, _, inl panic => (t, panic)
    end.

End Steps.

End Action.

(** ** A reference machine

    An executable stand-in for the runner and the remote ends, used to run
    the steps of the action on concrete inputs: every call on the machine
    succeeds, the token endpoint and the API answer with fixed responses,
    and the pure library functions are computed (base64 without padding over
    the URL alphabet, canonical header keys for keys of letters, digits
    and hyphens, form encoding of values that need no escaping). *)

Module Runner.

Definition upper_ascii (c : ascii) : ascii :=
  let n := nat_of_ascii c in
  if (97 <=? n)%nat && (n <=? 122)%nat then ascii_of_nat (n - 32) else c.

Fixpoint canonical (upper : bool) (s : string) : string :=
  match s with
  | "" => ""
  | String c r =>
      String (if upper then upper_ascii c else Fixture.lower_ascii c)
             (canonical (Ascii.eqb c "-") r)
  end.

Definition b64_value (c : ascii) : option N :=
  let n := N_of_ascii c in
  if (65 <=? n)%N && (n <=? 90)%N then Some (n - 65)%N
  else if (97 <=? n)%N && (n <=? 122)%N then Some (n - 71)%N
  else if (48 <=? n)%N && (n <=? 57)%N then Some (n + 4)%N
  else if (n =? 45)%N then Some 62%N
  else if (n =? 95)%N then Some 63%N
  else None.

Definition bytes_of (k : nat) (n : N) : string :=
  match k with
  | 3%nat => String (ascii_of_N (n / 65536))
               (String (ascii_of_N ((n / 256) mod 256)) (String (ascii_of_N (n mod 256)) ""))
  | 2%nat => String (ascii_of_N (n / 256)) (String (ascii_of_N (n mod 256)) "")
  | _ => String (ascii_of_N n) ""
  end.

Fixpoint b64_decode (s : string) : option string :=
  match s with
  | "" => Some ""
  | String a (String b (String c (String d r))) =>
      match b64_value a, b64_value b, b64_value c, b64_value d, b64_decode r with
      | Some x, Some y, Some z, Some w, Some rest =>
          Some (bytes_of 3 (((x * 64 + y) * 64 + z) * 64 + w) ++ rest)
      | _, _, _, _, _ => None
      end
  | String a (String b (String c "")) =>
      match b64_value a, b64_value b, b64_value c with
      | Some x, Some y, Some z => Some (bytes_of 2 (((x * 64 + y) * 64 + z) / 4))
      | _, _, _ => None
      end
  | String a (String b "") =>
      match b64_value a, b64_value b with
      | Some x, Some y => Some (bytes_of 1 ((x * 64 + y) / 16))
      | _, _ => None
      end
  | String _ "" => None
  end.

Definition DecodeString (s : string) : GoError + string :=
  match b64_decode s with
  | Some b => inr b
  | None => inl (errorString "illegal base64 data")
  end.

Definition key_order (a b : string * list string) : Prop := String.leb a.1 b.1 = true.

#[global] Instance key_order_dec : RelDecision key_order :=
  fun a b => decide (String.leb a.1 b.1 = true).

Definition Encode (v : gmap string (list string)) : string :=
  Fixture.join "&"
    (flat_map (fun kv : string * list string => (fun x => kv.1 ++ "=" ++ x) <$> kv.2)
       (merge_sort key_order (map_to_list v))).

Definition Decode_AuthResponse (r : Stream) : GoError + Action.AuthResponse :=
  match Fixture.parse_json (unread r) with
  | Some (map_any m) =>
      match m !! "access_token" with
      | Some (string_any t) => inr {| Action.AccessToken := t |}
      | Some nil_any | None => inr {| Action.AccessToken := "" |}
      | Some _ => inl (Fixture.type_error "value into Go struct field AuthResponse.access_token")
      end
  | Some nil_any => inr {| Action.AccessToken := "" |}
  | Some _ => inl (Fixture.type_error "value into Go value of type main.AuthResponse")
  | None => inl (default (errorString "unexpected EOF") (fault r))
  end.

Definition Unmarshal_claims (data : string) : GoError + option (gmap string any) :=
  match Fixture.parse_json data with
  | Some (map_any m) => inr (Some m)
  | Some nil_any => inr None
  | Some _ =>
      inl (Fixture.type_error "value into Go value of type map[string]interface {}")
  | None => inl (errorString "unexpected end of JSON input")
  end.

(** The machine whose token endpoint answers [tokenAnswer] and whose API
    answers [api]. *)
Definition machine (tokenAnswer : GoError + Action.TokenResponse) (api : Action.RoundTripper)
  : Action.Machine :=
  {| Action.os_UserHomeDir := fun _ => inr "/root";
     Action.os_MkdirAll := fun _ _ _ => None;
     Action.os_WriteFile := fun _ _ _ _ => None;
     Action.cmd_Run := fun _ _ => ("", None);
     Action.filepath_Join := fun a b => a ++ "/" ++ b;
     Action.url_Values_Encode := Encode;
     Action.base64_RawURLEncoding_DecodeString := DecodeString;
     Action.textproto_CanonicalMIMEHeaderKey := canonical true;
     Action.http_NewRequest := fun method url _ =>
       inr {| Request_Method := method; Request_URL := url; Request_Header := ∅ |};
     Action.http_Client_Do := fun _ _ _ => tokenAnswer;
     Action.http_DefaultTransport := fun _ => api;
     Action.http_Client := fun rt => rt;
     Action.json_Decode_AuthResponse := Decode_AuthResponse;
     Action.json_Unmarshal_claims := Unmarshal_claims |}.

Definition tokenOK (body : string) : GoError + Action.TokenResponse :=
  inr {| Action.Status := "200 OK"; Action.StatusCode := 200;
         Action.Body := {| unread := body; fault := None |} |}.

(** A token whose claims are [{"organization_id":"org-1"}]. *)
Definition jwt : string :=
  "eyJhbGciOiJub25lIn0.eyJvcmdhbml6YXRpb25faWQiOiJvcmctMSJ9.c2ln".

(** A token whose claims are [{"organization_id":7}]. *)
Definition jwt_numeric : string :=
  "eyJhbGciOiJub25lIn0.eyJvcmdhbml6YXRpb25faWQiOjd9.c2ln".

Definition answers (resp : Response) : Action.RoundTripper :=
  fun req => (req, Some resp, None).

Definition not_found : string :=
  Fixture.json "{'errors': [{'message': 'not found', 'extensions': {'code': 'NOT_FOUND'}}]}".

Definition not_found_error : Error :=
  {| Message := "not found";
     Extensions := Some {[ "code" := string_any "NOT_FOUND" ]};
     Locations := []; Path := []; err := None |}.

Definition partial : string :=
  Fixture.json "{'data': {'addArtifact': {'id': 'abc123'}}, 'errors': [{'message': 'quota'}]}".

End Runner.

(** ** Vocabulary of the further properties *)

(** How many times [c] occurs in [s]. *)
Fixpoint occurrences (c : ascii) (s : string) : nat :=
  match s with
  | "" => 0%nat
  | String a r => ((if Ascii.eqb a c then 1 else 0) + occurrences c r)%nat
  end.

(** The calls of [docker] and of the shell in a trace. *)
Definition commands (t : list Action.Event) : list (list string) :=
  omap (fun e => match e with Action.call_Run argv => Some argv | _ => None end) t.

(** The files written in a trace. *)
Definition writes (t : list Action.Event) : list (string * string * Z) :=
  omap (fun e => match e with
                 | Action.call_WriteFile name data perm => Some (name, data, perm)
                 | _ => None
                 end) t.

Section ActionVocabulary.

Context {machine : Action.Machine}.

(** The token request of [getBearerToken], made on trace [t], is answered
    with [resp]. *)
Definition token_answer (clientId secret : string) (t : list Action.Event)
    (resp : Action.TokenResponse) : Prop :=
  let form :=
    Action.url_Values_Encode
      (Action.Values_Set
         (Action.Values_Set (Action.Values_Set ∅ "grant_type" "client_credentials")
            "client_id" clientId)
         "client_secret" secret) in
  ∃ req,
    Action.http_NewRequest "POST" Action.authURL form = inr req ∧
    Action.http_Client_Do (t ++ [Action.call_log "Getting bearer token..."])%list
      (Action.Request_Header_Set req "Content-Type" "application/x-www-form-urlencoded")
      form
    = inr resp.

(** The client [addArtifact] builds on trace [t]. *)
Definition artifact_client (token organization : string) (t : list Action.Event) : Client :=
  {| url := Action.apiURL;
     httpClient :=
       Action.http_Client
         (Action.RoundTrip
            {| Action.Transport :=
                 Action.http_DefaultTransport
                   (t ++ [Action.call_log "Adding artifact to GraphQL API..."])%list;
               Action.Token := token;
               Action.Organization := organization |});
     requestModifier := None;
     debug := false |}.

(** The variables [addArtifact] sends. *)
Definition artifact_variables (artifactId version url_ : string) : gmap string any :=
  {[ "input" := Action.AddArtifactInput "registry" artifactId version [] url_ ]}.

(** Every call on the machine succeeds; the home directory is [home]. *)
Definition obliging (home : string) : Prop :=
  (∀ t, Action.os_UserHomeDir t = inr home) ∧
  (∀ t path perm, Action.os_MkdirAll t path perm = None) ∧
  (∀ t name data perm, Action.os_WriteFile t name data perm = None) ∧
  (∀ t argv, (Action.cmd_Run t argv).2 = None).

End ActionVocabulary.

(** ** Scenarios of the action *)

Module Recording.

Definition token_body : string :=
  Fixture.json "{'access_token': '" ++ Runner.jwt ++ Fixture.json "'}".

Definition numeric_body : string :=
  Fixture.json "{'access_token': '" ++ Runner.jwt_numeric ++ Fixture.json "'}".

Definition opaque_body : string := Fixture.json "{'access_token': 'opaque'}".

(** The machine whose token endpoint answers 200 with [body] and whose
    API answers [resp]. *)
Definition runner (body : string) (resp : Response) : Action.Machine :=
  Runner.machine (Runner.tokenOK body) (Runner.answers resp).

Definition image : string := "registry.trynova.ai/foo:v1".

Definition variables : gmap string any := artifact_variables "a-1" "v1" image.

Definition query : string :=
  (Fixture.construct "mutation" Fixture.zero variables []).1.1.

Definition options : constructOptionsOutput (gmap string any) :=
  {| operationName := ""; extensions := None |}.

(** The body of the request [addArtifact] sends. *)
Definition sent : string :=
  match Fixture.json_Encode (payload query variables (Some options)) with
  | inr b => b
  | inl _ => ""
  end.

(** The request as [RoundTrip] leaves it. *)
Definition seen : Request :=
  {| Request_Method := "POST";
     Request_URL := Action.apiURL;
     Request_Header :=
       <["X-Organization" := ["org-1"]]>
         (<["Authorization" := ["Bearer " ++ Runner.jwt]]>
            {[ "Content-Type" := ["application/json"] ]}) |}.

Definition unknown_data_with_error : string :=
  Fixture.json "{'data': {'unknown': 1}, 'errors': [{'message': 'first'}]}".

Definition unknown_data_with_error_envelope : Envelope :=
  {| Envelope_Data := Some (Fixture.json "{'unknown': 1}");
     Envelope_Extensions := None;
     Envelope_Errors := [Scenario.message_only "first"] |}.

Definition not_found_envelope : Envelope :=
  {| Envelope_Data := None;
     Envelope_Extensions := None;
     Envelope_Errors := [Runner.not_found_error] |}.

Definition partial_envelope : Envelope :=
  {| Envelope_Data := Some Scenario.data_text;
     Envelope_Extensions := None;
     Envelope_Errors := [Scenario.message_only "quota"] |}.

(** A 200 answer whose body breaks off after the envelope. *)
Definition broken (text : string) : Response :=
  {| Response_StatusCode := 200;
     Response_Header := {[ "Content-Type" := ["application/json"] ]};
     Response_Body := {| unread := text; fault := Some (errorString "unexpected EOF") |} |}.

End Recording.

(** * Properties *)

(** Membership of a classification string in [pipeline_codes]. *)
Ltac in_codes :=
  unfold pipeline_codes;
  repeat first [apply list_elem_of_here | apply list_elem_of_further].

Section Properties.

Context {Ctx Target ExtTarget : Type} {ext : Externals Ctx Target ExtTarget}.

Implicit Types (c : Client) (e : Error) (errs : Errors) (h : heap) (l : loc).

(** ** The monad of outcomes *)

Lemma bind_Ret {A B} (f : A → outcome B) (a : A) : (Ret a ≫= f) = f a.
Proof. reflexivity. Qed.

Lemma bind_Ret_inv {A B} (f : A → outcome B) (m : outcome A) (b : B) :
  (m ≫= f) = Ret b → ∃ a, m = Ret a ∧ f a = Ret b.
Proof. destruct m as [a|why]; simpl; [eauto | discriminate]. Qed.

(** ** Allocation of clients *)

Lemma alloc_fresh h (cl : Client) : h !! (alloc h cl).1 = None.
Proof.
  unfold alloc; simpl. apply not_elem_of_dom. apply is_fresh.
Qed.

Lemma alloc_lookup h (cl : Client) : (alloc h cl).2 !! (alloc h cl).1 = Some cl.
Proof. unfold alloc; simpl. apply lookup_insert_eq. Qed.

Lemma alloc_frame h (cl : Client) l :
  l ≠ (alloc h cl).1 → (alloc h cl).2 !! l = h !! l.
Proof. unfold alloc; simpl. intros Hne. by rewrite lookup_insert_ne. Qed.

Lemma alloc_old h (cl old : Client) l :
  h !! l = Some old → (alloc h cl).2 !! l = Some old ∧ l ≠ (alloc h cl).1.
Proof.
  intros Hl.
  assert (l ≠ (alloc h cl).1) as Hne.
  { intros ->. rewrite alloc_fresh in Hl. discriminate. }
  split; [| exact Hne]. by rewrite alloc_frame.
Qed.

Lemma alloc_derived h (base cl : Client) :
  url cl = url base → httpClient cl = httpClient base →
  derived_from h base (alloc h cl).1 (alloc h cl).2 cl.
Proof.
  intros Hu Ht. unfold derived_from.
  split; [apply alloc_fresh |]. split; [apply alloc_lookup |].
  split; [exact Hu |]. split; [exact Ht |].
  intros k Hk. by apply alloc_frame.
Qed.

(** ** Deriving clients *)

(** C4. [WithRequestModifier] and [WithDebug] each return a new client
    value that shares the URL and the transport of the base client, and
    leave every client already in the heap as it was; after two
    debug derivations from one base client, the base client is unchanged
    and each derivation has the debug flag it was given. *)
Theorem derivations_do_not_mutate h l (base : Client)
    (f : option RequestModifier) (d1 d2 : bool) :
  h !! l = Some base →
  (∃ l1 h1 c1,
      WithRequestModifier h l f = Ret (l1, h1) ∧ derived_from h base l1 h1 c1
      ∧ h1 !! l = Some base) ∧
  (∃ l1 h1 c1,
      WithDebug h l d1 = Ret (l1, h1) ∧ derived_from h base l1 h1 c1 ∧ debug c1 = d1
      ∧ h1 !! l = Some base
      ∧ ∃ l2 h2 c2,
          WithDebug h1 l d2 = Ret (l2, h2) ∧ derived_from h1 base l2 h2 c2 ∧ debug c2 = d2
          ∧ l2 ≠ l1 ∧ h2 !! l = Some base ∧ h2 !! l1 = Some c1 ∧ h2 !! l2 = Some c2).
Proof.
  intros Hl. split.
  - unfold WithRequestModifier. rewrite Hl.
    set (cl := {| url := url base; httpClient := httpClient base;
                  requestModifier := f; debug := false |}).
    exists (alloc h cl).1, (alloc h cl).2, cl.
    split; [by destruct (alloc h cl) |].
    split; [by apply alloc_derived |].
    by apply alloc_old.
  - unfold WithDebug at 1. rewrite Hl.
    set (c1 := {| url := url base; httpClient := httpClient base;
                  requestModifier := requestModifier base; debug := d1 |}).
    destruct (alloc_old h c1 base l Hl) as [Hl1 Hne1].
    exists (alloc h c1).1, (alloc h c1).2, c1.
    split; [by destruct (alloc h c1) |].
    split; [by apply alloc_derived |].
    split; [reflexivity |]. split; [exact Hl1 |].
    unfold WithDebug. rewrite Hl1.
    set (h1 := (alloc h c1).2) in *. set (l1 := (alloc h c1).1) in *.
    set (c2 := {| url := url base; httpClient := httpClient base;
                  requestModifier := requestModifier base; debug := d2 |}).
    destruct (alloc_old h1 c2 base l Hl1) as [Hl2 Hne2].
    destruct (alloc_old h1 c2 c1 l1 (alloc_lookup h c1)) as [Hl12 Hne12].
    exists (alloc h1 c2).1, (alloc h1 c2).2, c2.
    split; [by destruct (alloc h1 c2) |].
    split; [by apply alloc_derived |].
    split; [reflexivity |].
    split; [by intros Heq; apply Hne12 |].
    split; [exact Hl2 |]. split; [exact Hl12 |]. apply alloc_lookup.
Qed.

(** C9. The client returned by [WithRequestModifier] has its debug flag
    false whatever the base client's flag; the client returned by
    [WithDebug] keeps the base client's request modifier; so a request
    modifier derived from a debug-enabled client has debug disabled. *)
Theorem modifier_derivation_drops_debug h l (base : Client)
    (f : option RequestModifier) (d : bool) :
  h !! l = Some base →
  (∃ l1 h1 c1,
      WithRequestModifier h l f = Ret (l1, h1) ∧ h1 !! l1 = Some c1
      ∧ debug c1 = false ∧ requestModifier c1 = f) ∧
  (∃ l1 h1 c1,
      WithDebug h l d = Ret (l1, h1) ∧ h1 !! l1 = Some c1
      ∧ debug c1 = d ∧ requestModifier c1 = requestModifier base) ∧
  (∃ l1 h1 c1 l2 h2 c2,
      WithDebug h l true = Ret (l1, h1) ∧ h1 !! l1 = Some c1 ∧ debug c1 = true
      ∧ WithRequestModifier h1 l1 f = Ret (l2, h2) ∧ h2 !! l2 = Some c2
      ∧ debug c2 = false).
Proof.
  intros Hl. split; [| split].
  - unfold WithRequestModifier. rewrite Hl.
    eexists _, _, _. split; [reflexivity |].
    split; [apply alloc_lookup |]. by split.
  - unfold WithDebug. rewrite Hl.
    eexists _, _, _. split; [reflexivity |].
    split; [apply alloc_lookup |]. by split.
  - unfold WithDebug. rewrite Hl.
    set (c1 := {| url := url base; httpClient := httpClient base;
                  requestModifier := requestModifier base; debug := true |}).
    exists (alloc h c1).1, (alloc h c1).2, c1.
    eexists _, _, _.
    split; [by destruct (alloc h c1) |].
    split; [apply alloc_lookup |]. split; [reflexivity |].
    unfold WithRequestModifier. rewrite alloc_lookup.
    split; [reflexivity |]. split; [apply alloc_lookup | reflexivity].
Qed.

(** ** Errors built by the pipeline *)

Lemma pipeline_codes_distinct :
  NoDup pipeline_codes.
Proof. apply (bool_decide_unpack (NoDup pipeline_codes)). vm_compute. exact I. Qed.

Lemma newError_classified code cause :
  code ∈ pipeline_codes → classified (newError code cause).
Proof.
  intros Hin. exists {[ "code" := string_any code ]}, code, cause.
  split; [reflexivity |]. split; [apply lookup_singleton_eq |]. by repeat split.
Qed.

Lemma newError_code code cause :
  map_index (Extensions (newError code cause)) "code" = string_any code.
Proof. unfold map_index; simpl. by rewrite lookup_singleton_eq. Qed.

Lemma getInternalExtension_newError code cause :
  getInternalExtension (newError code cause) = Ret ∅.
Proof.
  unfold getInternalExtension; simpl.
  rewrite lookup_singleton_ne; [reflexivity | discriminate].
Qed.

Lemma getInternalExtension_setInternal e m internal :
  getInternalExtension (setInternal e m internal) = Ret internal.
Proof. unfold getInternalExtension; simpl. by rewrite lookup_insert_eq. Qed.

Lemma same_error_refl e : same_error e e.
Proof. by repeat split. Qed.

Lemma same_error_trans e1 e2 e3 : same_error e1 e2 → same_error e2 e3 → same_error e1 e3.
Proof.
  intros (?&?&?&?) (?&?&?&?). repeat split; etrans; eassumption.
Qed.

Lemma same_error_setInternal e m internal : same_error e (setInternal e m internal).
Proof. by repeat split. Qed.

(** Storing the internal extension keeps every other entry. *)
Lemma setInternal_index e m internal k :
  k ≠ "internal" →
  map_index (Extensions (setInternal e m internal)) k = map_index (Some m) k.
Proof. intros Hk. unfold map_index; simpl. by rewrite lookup_insert_ne. Qed.

Lemma setInternal_internal e m internal :
  map_index (Extensions (setInternal e m internal)) "internal" = map_any internal.
Proof. unfold map_index; simpl. by rewrite lookup_insert_eq. Qed.

(** *** What the debug captures compute *)

Lemma withRequest_Ret e internal (req : Request) (rd : bytes_Reader) :
  getInternalExtension e = Ret internal →
  withRequest e (Some req) (bytes_Reader_ptr (Some rd))
  = Ret (setInternal e (default ∅ (Extensions e))
           (<["request" := captured_request req (remaining rd)]> internal)).
Proof. intros Hi. unfold withRequest. rewrite Hi. reflexivity. Qed.

Lemma withResponse_Ret e internal m (resp : Response) (rd : bytes_Reader) :
  getInternalExtension e = Ret internal →
  Extensions e = Some m →
  withResponse e (Some resp) (bytes_Reader_ptr (Some rd))
  = Ret (setInternal e m
           (<["response" := captured_response resp (remaining rd)]> internal),
         bytes_Reader_ptr (Some {| buf := buf rd; remaining := "" |})).
Proof.
  intros Hi Hm. unfold withResponse. rewrite Hi. simpl. rewrite Hm. reflexivity.
Qed.

(** A capture that returns changes nothing but the ["internal"] entry. *)
Lemma withRequest_inv e req rdr e' :
  withRequest e req rdr = Ret e' →
  ∃ internal, e' = setInternal e (default ∅ (Extensions e)) internal.
Proof.
  unfold withRequest. intros H.
  apply bind_Ret_inv in H as (i & _ & H).
  apply bind_Ret_inv in H as ([[b re] r'] & _ & H).
  apply bind_Ret_inv in H as (i' & _ & H).
  injection H as <-. by exists i'.
Qed.

Lemma withResponse_inv e res rdr e' rdr' :
  withResponse e res rdr = Ret (e', rdr') →
  ∃ m internal, Extensions e = Some m ∧ e' = setInternal e m internal.
Proof.
  unfold withResponse. intros H.
  apply bind_Ret_inv in H as (i & _ & H).
  apply bind_Ret_inv in H as (r & _ & H).
  apply bind_Ret_inv in H as ([[i' rs] b'] & _ & H).
  destruct (Extensions e) as [m|] eqn:Hm; [| discriminate].
  injection H as <- <-. by exists m, (<["response" := map_any rs]> i').
Qed.

Lemma setInternal_classified e m internal :
  Extensions e = Some m ∨ (Extensions e = None ∧ m = ∅) →
  classified e → classified (setInternal e m internal).
Proof.
  intros Hm (m0 & code & cause & Hx & Hc & Hin & He & Hmsg).
  assert (m = m0) as -> by (destruct Hm as [Hm | [Hm _]]; congruence).
  exists (<["internal" := map_any internal]> m0), code, cause.
  split; [reflexivity |].
  split; [by rewrite lookup_insert_ne |]. by repeat split.
Qed.

Lemma accounted_same_extensions e m internal :
  Extensions e = Some m ∨ (Extensions e = None ∧ m = ∅) →
  accounted e → accounted (setInternal e m internal).
Proof.
  intros Hm [Hc | (r & out & e0 & Hd & Hin & Hs)].
  - left. by apply setInternal_classified.
  - right. exists r, out, e0. split; [exact Hd |]. split; [exact Hin |].
    eapply same_error_trans; [exact Hs | apply same_error_setInternal].
Qed.

Lemma withRequest_accounted e req rdr e' :
  withRequest e req rdr = Ret e' → accounted e → accounted e'.
Proof.
  intros H Ha. apply withRequest_inv in H as (i & ->).
  apply accounted_same_extensions; [| exact Ha].
  destruct (Extensions e); simpl; auto.
Qed.

Lemma withResponse_accounted e res rdr e' rdr' :
  withResponse e res rdr = Ret (e', rdr') → accounted e → accounted e'.
Proof.
  intros H Ha. apply withResponse_inv in H as (m & i & Hm & ->).
  apply accounted_same_extensions; [auto | exact Ha].
Qed.

Lemma debugRequest_accounted c e req rd e' :
  debugRequest c e req rd = Ret e' → accounted e → accounted e'.
Proof.
  unfold debugRequest. destruct (debug c).
  - apply withRequest_accounted.
  - by intros [= <-].
Qed.

(** ** The request, stage by stage *)

(** Once dispatched, [request] is decided by what the transport returns. *)
Lemma request_dispatched c (ctx : Ctx) query variables options reqBody req resp failure :
  dispatched c ctx query variables options reqBody req resp failure →
  request c ctx query variables options
  = match failure with
    | Some e =>
        e ← debugRequest c (newError ErrRequestError e) (Some req)
              (bytes_NewReader reqBody);
        Ret (failed [e])
    | None =>
        match resp with
        | None => Panic nil_dereference
        | Some resp => readResponse c req (bytes_NewReader reqBody) resp
        end
    end.
Proof.
  intros (req0 & Henc & Hnew & Hdo). unfold request.
  fold (payload query variables options). rewrite Henc, Hnew.
  fold (outgoing c req0). rewrite Hdo.
  by destruct (debug c).
Qed.

Lemma envelopeResult_accounted c req rd (resp : Response) rr out res :
  Forall accounted (Envelope_Errors out) →
  envelopeResult c req rd resp rr out = Ret res →
  Forall accounted res.2.
Proof.
  unfold envelopeResult. intros Hall H.
  destruct (Envelope_Errors out) as [|e0 rest]; [by simplify_eq/= |].
  apply Forall_cons in Hall as [H0 Hrest].
  destruct (debug c && _); [| by simplify_eq/=; constructor].
  apply bind_Ret_inv in H as (e1 & H1 & H).
  apply bind_Ret_inv in H as ([e2 rr'] & H2 & H).
  simplify_eq/=. constructor; [| exact Hrest].
  eapply withResponse_accounted; [exact H2 |].
  eapply withRequest_accounted; eassumption.
Qed.

Lemma decoded_accounted r out :
  json_Decode r = inr out → Forall accounted (Envelope_Errors out).
Proof.
  intros Hd. apply Forall_forall. intros e He. right.
  exists r, out, e. split; [exact Hd |]. split; [exact He | apply same_error_refl].
Qed.

Lemma readResponse_accounted c req rd (resp : Response) res :
  readResponse c req rd resp = Ret res → Forall accounted res.2.
Proof.
  unfold readResponse. intros H.
  destruct (if decide _ then _ else _) as [e | [left r]].
  { simplify_eq/=. constructor; [| constructor].
    left. apply newError_classified. in_codes. }
  destruct (negb _).
  { destruct (io_ReadAll left) as [b ?].
    apply bind_Ret_inv in H as (e & He & H). simplify_eq/=.
    constructor; [| constructor].
    eapply debugRequest_accounted; [exact He |].
    left. apply newError_classified. in_codes. }
  destruct (if debug c then _ else _) as [e | [rr r']].
  { simplify_eq/=. constructor; [| constructor].
    left. apply newError_classified. in_codes. }
  destruct (json_Decode r') as [e | out] eqn:Hd.
  - assert (accounted (newError ErrJsonDecode e)) as Hnew.
    { left. apply newError_classified. in_codes. }
    destruct (debug c); [| by simplify_eq/=; constructor].
    apply bind_Ret_inv in H as (e1 & H1 & H).
    apply bind_Ret_inv in H as ([e2 rr'] & H2 & H).
    simplify_eq/=. constructor; [| constructor].
    eapply withResponse_accounted; [exact H2 |].
    eapply withRequest_accounted; eassumption.
  - eapply envelopeResult_accounted; [| exact H].
    eapply decoded_accounted, Hd.
Qed.

Lemma request_accounted c (ctx : Ctx) query variables options res :
  request c ctx query variables options = Ret res → Forall accounted res.2.
Proof.
  unfold request. intros H.
  destruct (json_Encode _) as [e | reqBody].
  { simplify_eq/=. constructor; [| constructor].
    left. apply newError_classified. in_codes. }
  destruct (http_NewRequestWithContext _ _ _ _) as [e | req0].
  { apply bind_Ret_inv in H as (e' & He & H). simplify_eq/=.
    constructor; [| constructor].
    eapply debugRequest_accounted; [exact He |].
    left. apply newError_classified. in_codes. }
  destruct (httpClient c _) as [[req resp] failure].
  destruct failure as [e |].
  { apply bind_Ret_inv in H as (e' & He & H). simplify_eq/=.
    constructor; [| constructor].
    eapply debugRequest_accounted; [exact He |].
    left. apply newError_classified. in_codes. }
  destruct resp as [resp |]; [| discriminate].
  eapply readResponse_accounted, H.
Qed.

Lemma envelopeResult_delivered c req rd (resp : Response) rr out res :
  (debug c = true → ∃ rd', rr = bytes_Reader_ptr (Some rd')) →
  envelopeResult c req rd resp rr out = Ret res → delivered c res.
Proof.
  unfold envelopeResult. intros Hrr H.
  destruct (Envelope_Errors out) as [|e0 rest].
  { simplify_eq/=. right. by exists resp. }
  destruct (debug c && _) eqn:Hdbg; [| simplify_eq/=; right; by exists resp].
  apply andb_true_iff in Hdbg as [Hdbg _].
  destruct (Hrr Hdbg) as [rd' ->].
  apply bind_Ret_inv in H as (e1 & H1 & H).
  apply bind_Ret_inv in H as ([e2 rr'] & H2 & H).
  simplify_eq/=. right. exists resp. split; [reflexivity |]. intros _.
  unfold withResponse in H2.
  apply bind_Ret_inv in H2 as (i & _ & H2). simpl in H2.
  destruct (Extensions e1); simplify_eq/=. eauto.
Qed.

Lemma readResponse_delivered c req rd (resp : Response) res :
  readResponse c req rd resp = Ret res → delivered c res.
Proof.
  unfold readResponse. intros H.
  destruct (if decide _ then _ else _) as [e | [left r]].
  { simplify_eq/=. by left. }
  destruct (negb _).
  { destruct (io_ReadAll left) as [b ?].
    apply bind_Ret_inv in H as (e & He & H). simplify_eq/=. by left. }
  destruct (debug c) eqn:Hdbg.
  - destruct (io_ReadAll left) as [b [e |]]; [simplify_eq/=; by left |].
    destruct (json_Decode _) as [e | out].
    + apply bind_Ret_inv in H as (e1 & H1 & H).
      apply bind_Ret_inv in H as ([e2 rr'] & H2 & H).
      simplify_eq/=. by left.
    + eapply envelopeResult_delivered; [| exact H]. eauto.
  - destruct (json_Decode _) as [e | out]; [simplify_eq/=; by left |].
    eapply envelopeResult_delivered; [| exact H]. congruence.
Qed.

Lemma request_delivered c (ctx : Ctx) query variables options res :
  request c ctx query variables options = Ret res → delivered c res.
Proof.
  unfold request. intros H.
  destruct (json_Encode _) as [e | reqBody]; [simplify_eq/=; by left |].
  destruct (http_NewRequestWithContext _ _ _ _) as [e | req0].
  { apply bind_Ret_inv in H as (e' & He & H). simplify_eq/=. by left. }
  destruct (httpClient c _) as [[req resp] failure].
  destruct failure as [e |].
  { apply bind_Ret_inv in H as (e' & He & H). simplify_eq/=. by left. }
  destruct resp as [resp |]; [| discriminate].
  eapply readResponse_delivered, H.
Qed.

(** ** Decoding into the caller's values *)

(** [processResponse] on what [request] delivers: the output is what the
    typed decoder leaves, and the errors are those of [request], then
    the decode error if any, then the extensions decode error if any. *)
Lemma decodeError_debug c cause (r : Response) (rd : bytes_Reader) :
  ∃ we,
    (if debug c
     then '(we, _) ← withResponse (newError ErrGraphQLDecode cause) (Some r)
                       (bytes_Reader_ptr (Some rd)); Ret we
     else Ret (newError ErrGraphQLDecode cause)) = Ret we
    ∧ same_error (newError ErrGraphQLDecode cause) we ∧ classified we
    ∧ map_index (Extensions we) "code" = string_any ErrGraphQLDecode
    ∧ (debug c = false → we = newError ErrGraphQLDecode cause).
Proof.
  destruct (debug c).
  - erewrite withResponse_Ret;
      [| apply getInternalExtension_newError | reflexivity].
    eexists. split; [reflexivity |].
    split; [apply same_error_setInternal |].
    split; [apply setInternal_classified; [by left |];
            apply newError_classified; in_codes |].
    split; [| discriminate].
    rewrite setInternal_index by discriminate.
    apply (newError_code ErrGraphQLDecode cause).
  - eexists. split; [reflexivity |].
    split; [apply same_error_refl |].
    split; [apply newError_classified; in_codes |].
    split; [apply newError_code | reflexivity].
Qed.

Lemma processResponse_delivered c (v : Target) data extData x resp respBuf errs :
  delivered c (data, extData, resp, respBuf, errs) →
  ∃ mid,
    processResponse c v data x extData resp respBuf errs
    = Ret (if 0 <? len data then (jsonutil_UnmarshalGraphQL data v).1 else v,
           (extensions_step x extData).1,
           (errs ++ mid ++ (extensions_step x extData).2)%list) ∧
    match (if 0 <? len data then (jsonutil_UnmarshalGraphQL data v).2 else None) with
    | Some cause =>
        ∃ we, mid = [we] ∧ same_error (newError ErrGraphQLDecode cause) we ∧
              classified we ∧
              map_index (Extensions we) "code" = string_any ErrGraphQLDecode ∧
              (debug c = false → we = newError ErrGraphQLDecode cause)
    | None => mid = []
    end.
Proof.
  intros Hdel. unfold processResponse, extensions_step.
  destruct (0 <? len data) eqn:Hlen.
  - destruct (jsonutil_UnmarshalGraphQL data v) as [v' [cause |]] eqn:Hu; simpl.
    + assert (∃ r rd, resp = Some r ∧
                      (debug c = true → respBuf = bytes_Reader_ptr (Some rd)))
        as (r & rd & -> & Hrb).
      { destruct Hdel as [(_ & -> & _) | (r & -> & Hrb)]; [discriminate |].
        destruct (debug c); [| by exists r, (bytes_NewReader "")].
        destruct (Hrb eq_refl) as [rd ->]. by exists r, rd. }
      destruct (decodeError_debug c cause r rd) as (we & Hwe & Hprops).
      assert ((if debug c
               then '(we, _) ← withResponse (newError ErrGraphQLDecode cause) (Some r)
                                 respBuf; Ret we
               else Ret (newError ErrGraphQLDecode cause)) = Ret we) as ->.
      { destruct (debug c); [rewrite Hrb by reflexivity |]; exact Hwe. }
      exists [we]. split; [| by exists we].
      simpl. destruct x as [t |]; simpl.
      * destruct (0 <? len extData); simpl.
        -- destruct (json_Unmarshal extData t) as [t' [e |]]; simpl;
             by rewrite <- ?app_assoc, ?app_nil_r.
        -- by rewrite <- ?app_assoc, ?app_nil_r.
      * by rewrite <- ?app_assoc, ?app_nil_r.
    + exists []. split; [| reflexivity].
      destruct x as [t |]; simpl.
      * destruct (0 <? len extData); simpl.
        -- destruct (json_Unmarshal extData t) as [t' [e |]]; simpl;
             by rewrite ?app_nil_r.
        -- by rewrite ?app_nil_r.
      * by rewrite ?app_nil_r.
  - exists []. simpl. split; [| reflexivity].
    destruct x as [t |]; simpl.
    + destruct (0 <? len extData); simpl.
      * destruct (json_Unmarshal extData t) as [t' [e |]]; simpl;
          by rewrite ?app_nil_r.
      * by rewrite ?app_nil_r.
    + by rewrite ?app_nil_r.
Qed.

Lemma do_built c (ctx : Ctx) op (v : Target) variables options query oo
    data extData resp respBuf errs :
  buildQueryAndOptions c op v variables options = inr (query, Some oo) →
  request c ctx query variables (Some oo) = Ret (data, extData, resp, respBuf, errs) →
  do c ctx op v variables options
  = processResponse c v data (extensions oo) extData resp respBuf errs.
Proof. intros Hb Hr. unfold do. rewrite Hb, Hr. reflexivity. Qed.

Lemma buildQueryAndOptions_accounted c op (v : Target) variables options errs :
  buildQueryAndOptions c op v variables options = inl errs → Forall accounted errs.
Proof.
  unfold buildQueryAndOptions.
  destruct (if decide (op = queryOperation) then _ else _) as [[q o] [e |]];
    intros H; simplify_eq.
  constructor; [| constructor]. left. apply newError_classified. in_codes.
Qed.

Lemma extensions_step_accounted (x : option ExtTarget) raw :
  Forall accounted (extensions_step x raw).2.
Proof.
  unfold extensions_step. destruct x as [t |]; [| constructor].
  destruct (0 <? len raw); [| constructor].
  destruct (json_Unmarshal raw t) as [t' [e |]]; [| constructor].
  constructor; [| constructor]. left. apply newError_classified. in_codes.
Qed.

Lemma do_accounted c (ctx : Ctx) op (v : Target) variables options v' x errs :
  do c ctx op v variables options = Ret (v', x, errs) → Forall accounted errs.
Proof.
  unfold do. intros H.
  destruct (buildQueryAndOptions c op v variables options) as [berrs | [query oo]] eqn:Hb.
  { simplify_eq. eapply buildQueryAndOptions_accounted, Hb. }
  apply bind_Ret_inv in H as ([[[[data extData] resp] respBuf] rerrs] & Hr & H).
  destruct oo as [oo |]; [| discriminate].
  pose proof (request_accounted _ _ _ _ _ _ Hr) as Hacc. simpl in Hacc.
  pose proof (request_delivered _ _ _ _ _ _ Hr) as Hdel.
  destruct (processResponse_delivered c v data extData (extensions oo)
              resp respBuf rerrs Hdel) as (mid & Hp & Hmid).
  rewrite Hp in H. simplify_eq.
  apply Forall_app. split; [exact Hacc |].
  apply Forall_app. split; [| apply extensions_step_accounted].
  destruct (if 0 <? len data then _ else _) as [cause |].
  - destruct Hmid as (we & -> & _ & Hcl & _). constructor; [by left | constructor].
  - subst mid. constructor.
Qed.

(** ** Decode failures *)


(** C7. In every call whose envelope has extensions and whose caller
    bound a target for them, the extensions are unmarshaled on their own:
    when that fails, one error classified
    [graphql_extensions_decode_error] (a code of no other failure) is
    appended last, and the output is still what the typed decoder made
    of the data payload. *)
Theorem extensions_failure_keeps_data c (ctx : Ctx) op (v : Target) variables options
    query oo data extData resp respBuf errs t t' cause :
  buildQueryAndOptions c op v variables options = inr (query, Some oo) →
  request c ctx query variables (Some oo) = Ret (data, extData, resp, respBuf, errs) →
  extensions oo = Some t →
  0 < len extData →
  json_Unmarshal extData t = (t', Some cause) →
  ∃ mid,
    do c ctx op v variables options
    = Ret (if 0 <? len data then (jsonutil_UnmarshalGraphQL data v).1 else v,
           Some t',
           (errs ++ mid ++ [newError ErrGraphQLExtensionsDecode cause])%list) ∧
    match (if 0 <? len data then (jsonutil_UnmarshalGraphQL data v).2 else None) with
    | Some failure =>
        ∃ we, mid = [we] ∧ same_error (newError ErrGraphQLDecode failure) we ∧
              map_index (Extensions we) "code" = string_any ErrGraphQLDecode
    | None => mid = []
    end ∧
    map_index (Extensions (newError ErrGraphQLExtensionsDecode cause)) "code"
    = string_any ErrGraphQLExtensionsDecode ∧
    ∀ code, code ∈ [ErrRequestError; ErrJsonEncode; ErrJsonDecode;
                    ErrGraphQLEncode; ErrGraphQLDecode] →
            code ≠ ErrGraphQLExtensionsDecode.
Proof.
  intros Hb Hr Hx Hlen Hu.
  rewrite (do_built _ _ _ _ _ _ _ _ _ _ _ _ _ Hb Hr).
  pose proof (request_delivered _ _ _ _ _ _ Hr) as Hdel.
  destruct (processResponse_delivered c v data extData (extensions oo)
              resp respBuf errs Hdel) as (mid & Hp & Hmid).
  apply Z.ltb_lt in Hlen.
  unfold extensions_step in Hp. rewrite Hx in Hp |- *.
  rewrite Hlen, Hu in Hp. simpl in Hp.
  exists mid. split; [exact Hp |]. split.
  - destruct (if 0 <? len data then _ else _) as [failure |]; [| exact Hmid].
    destruct Hmid as (we & -> & Hsame & _ & Hcode & _). by exists we.
  - split; [apply newError_code |].
    intros code Hin ->.
    repeat (apply elem_of_cons in Hin as [Hin | Hin]; [discriminate |]).
    by apply elem_of_nil in Hin.
Qed.

(** C10. Every error the pipeline constructs goes through [newError]
    with one of the fixed classification strings: it carries a non-nil
    extensions map binding ["code"] to that string, and its message is
    the message of the error it wraps. Accordingly every error a call
    returns is such an error or one read from the response envelope. *)
Theorem pipeline_errors_are_classified :
  (∀ code cause,
      code ∈ pipeline_codes →
      classified (newError code cause) ∧
      Message (newError code cause) = GoError_Error cause ∧
      map_index (Extensions (newError code cause)) "code" = string_any code) ∧
  (∀ c (ctx : Ctx) op (v : Target) variables options v' x errs e,
      do c ctx op v variables options = Ret (v', x, errs) →
      e ∈ errs → classified e ∨ from_envelope e).
Proof.
  split.
  - intros code cause Hin. split; [by apply newError_classified |].
    split; [reflexivity | apply newError_code].
  - intros c ctx op v variables options v' x errs e Hdo He.
    apply do_accounted in Hdo. rewrite Forall_forall in Hdo. by apply Hdo.
Qed.

(** ** Reading the response *)

Lemma debugRequest_newError c code cause (req : Request) (rd : bytes_Reader) :
  debugRequest c (newError code cause) (Some req) rd
  = Ret (if debug c
         then setInternal (newError code cause) {[ "code" := string_any code ]}
                (<["request" := captured_request req (remaining rd)]> ∅)
         else newError code cause).
Proof.
  unfold debugRequest. destruct (debug c); [| reflexivity].
  by rewrite (withRequest_Ret _ ∅) by apply getInternalExtension_newError.
Qed.

(** The gzip stage of [readResponse] under [body_left]. *)
Lemma readResponse_left c req rd (resp : Response) left :
  body_left resp left →
  ∃ r,
    readResponse c req rd resp
    = (if negb (Response_StatusCode resp =? http_StatusOK) then
         let '(b, _) := io_ReadAll left in
         e ← debugRequest c
               (newError ErrRequestError
                  (networkError {| statusCode := Response_StatusCode resp; body := b |}))
               (Some req) rd;
         Ret (failed [e])
       else
         match (if debug c then
                  let '(b, e) := io_ReadAll left in
                  match e with
                  | Some e => inl e
                  | None =>
                      inr (bytes_Reader_ptr (Some (bytes_NewReader b)),
                           bytes_Stream (bytes_NewReader b))
                  end
                else inr (bytes_Reader_ptr None, r)) with
         | inl e => Ret (failed [newError ErrJsonDecode e])
         | inr (respReader, r) =>
             match json_Decode r with
             | inl e =>
                 let we := newError ErrJsonDecode e in
                 if debug c then
                   we ← withRequest we (Some req) (bytes_Reader_ptr (Some rd));
                   '(we, _) ← withResponse we (Some resp) respReader;
                   Ret (failed [we])
                 else Ret (failed [we])
             | inr out => envelopeResult c req rd resp respReader out
             end
         end)
    ∧ decoded_from resp r.
Proof.
  unfold body_left, decoded_from, declares_gzip, readResponse.
  intros [[Hno ->] | [Hgz [gr Hgr]]].
  - exists (Response_Body resp). rewrite decide_False by exact Hno.
    split; [reflexivity | by left].
  - exists gr. rewrite decide_True by exact Hgz. rewrite Hgr.
    split; [reflexivity | right; eauto].
Qed.

Lemma readResponse_not_OK c req rd (resp : Response) left :
  body_left resp left →
  Response_StatusCode resp ≠ http_StatusOK →
  readResponse c req rd resp
  = Ret (failed [let e := newError ErrRequestError
                            (networkError {| statusCode := Response_StatusCode resp;
                                             body := (io_ReadAll left).1 |}) in
                 if debug c
                 then setInternal e {[ "code" := string_any ErrRequestError ]}
                        (<["request" := captured_request req (remaining rd)]> ∅)
                 else e]).
Proof.
  intros Hleft Hst.
  destruct (readResponse_left c req rd resp left Hleft) as (r & -> & _).
  apply Z.eqb_neq in Hst. rewrite Hst. simpl.
  by rewrite debugRequest_newError.
Qed.

Lemma request_not_OK c (ctx : Ctx) query variables options reqBody req resp left :
  answered c ctx query variables options reqBody req resp →
  body_left resp left →
  Response_StatusCode resp ≠ http_StatusOK →
  request c ctx query variables options
  = Ret (failed [let e := newError ErrRequestError
                            (networkError {| statusCode := Response_StatusCode resp;
                                             body := (io_ReadAll left).1 |}) in
                 if debug c
                 then setInternal e {[ "code" := string_any ErrRequestError ]}
                        (<["request" := captured_request req reqBody]> ∅)
                 else e]).
Proof.
  intros Hans Hleft Hst.
  rewrite (request_dispatched _ _ _ _ _ _ _ _ _ Hans).
  by rewrite (readResponse_not_OK _ _ _ _ left).
Qed.

(** With status 200 and debug mode off, the envelope is decoded from the
    body, or from the gzip reader when gzip is declared. *)
Lemma readResponse_OK_plain c req rd (resp : Response) r out :
  debug c = false →
  Response_StatusCode resp = http_StatusOK →
  decoded_from resp r →
  json_Decode r = inr out →
  readResponse c req rd resp
  = Ret (rawMessage (Envelope_Data out), rawMessage (Envelope_Extensions out),
         Some resp, bytes_Reader_ptr None, Envelope_Errors out).
Proof.
  unfold decoded_from, declares_gzip, readResponse.
  intros Hdbg Hst Hfrom Hdec.
  assert (envelopeResult c req rd resp (bytes_Reader_ptr None) out
          = Ret (rawMessage (Envelope_Data out), rawMessage (Envelope_Extensions out),
                 Some resp, bytes_Reader_ptr None, Envelope_Errors out)) as Henv.
  { unfold envelopeResult. rewrite Hdbg. by destruct (Envelope_Errors out). }
  rewrite Hst, Hdbg. simpl.
  destruct Hfrom as [[Hno ->] | [Hgz [left Hgr]]].
  - rewrite decide_False by exact Hno. by rewrite Hdec.
  - rewrite decide_True by exact Hgz. rewrite Hgr. by rewrite Hdec.
Qed.

(** With status 200 and debug mode on, the envelope is decoded from the
    bytes still unread in the body itself. *)
Lemma readResponse_OK_debug c req rd (resp : Response) left raw :
  debug c = true →
  Response_StatusCode resp = http_StatusOK →
  body_left resp left →
  io_ReadAll left = (raw, None) →
  readResponse c req rd resp
  = match json_Decode {| unread := raw; fault := None |} with
    | inl e =>
        we ← withRequest (newError ErrJsonDecode e) (Some req)
               (bytes_Reader_ptr (Some rd));
        '(we, _) ← withResponse we (Some resp)
                     (bytes_Reader_ptr (Some (bytes_NewReader raw)));
        Ret (failed [we])
    | inr out =>
        envelopeResult c req rd resp (bytes_Reader_ptr (Some (bytes_NewReader raw))) out
    end.
Proof.
  intros Hdbg Hst Hleft Hraw.
  destruct (readResponse_left c req rd resp left Hleft) as (r & -> & _).
  rewrite Hst, Hdbg, Hraw. reflexivity.
Qed.

Lemma envelopeResult_no_errors c req rd (resp : Response) rr out :
  Envelope_Errors out = [] →
  envelopeResult c req rd resp rr out
  = Ret (rawMessage (Envelope_Data out), rawMessage (Envelope_Extensions out),
         Some resp, rr, []).
Proof. intros He. unfold envelopeResult. by rewrite He. Qed.

(** The first error of the envelope under debug mode. *)
Lemma envelopeResult_debug c req rd (resp : Response) raw out e0 rest :
  debug c = true →
  Envelope_Errors out = e0 :: rest →
  Extensions e0 = None ∨ is_nil (map_index (Extensions e0) "request") = true →
  envelopeResult c req rd resp (bytes_Reader_ptr (Some (bytes_NewReader raw))) out
  = internal ← getInternalExtension e0;
    Ret (rawMessage (Envelope_Data out), rawMessage (Envelope_Extensions out),
         Some resp, bytes_Reader_ptr (Some {| buf := raw; remaining := "" |}),
         setInternal e0 (default ∅ (Extensions e0))
           (<["response" := captured_response resp raw]>
              (<["request" := captured_request req (remaining rd)]> internal))
         :: rest).
Proof.
  intros Hdbg He Helig. unfold envelopeResult. rewrite He, Hdbg.
  assert (bool_decide (Extensions e0 = None)
          || is_nil (map_index (Extensions e0) "request") = true) as ->.
  { destruct Helig as [-> | ->]; [reflexivity | apply orb_true_r]. }
  simpl. destruct (getInternalExtension e0) as [internal | why] eqn:Hi.
  - rewrite (withRequest_Ret _ internal) by exact Hi. simpl.
    erewrite withResponse_Ret;
      [| apply getInternalExtension_setInternal | reflexivity].
    unfold setInternal. simpl. by rewrite insert_insert_eq.
  - unfold withRequest. by rewrite Hi.
Qed.

End Properties.

(** * Properties of responses *)

Section Responses.

Context {Ctx Target ExtTarget : Type} {ext : Externals Ctx Target ExtTarget}.

Implicit Types (c : Client) (e : Error) (errs : Errors).


(** ** Without debug mode nothing is attached *)

Lemma newError_uncaptured code cause :
  code ∈ pipeline_codes → uncaptured (newError code cause).
Proof. intros Hin. left. by exists code, cause. Qed.

Lemma request_uncaptured c (ctx : Ctx) query variables options res :
  debug c = false →
  request c ctx query variables options = Ret res → Forall uncaptured res.2.
Proof.
  intros Hdbg. unfold request, debugRequest. rewrite Hdbg. intros H.
  destruct (json_Encode _) as [e | reqBody].
  { simplify_eq/=. constructor; [| constructor]. apply newError_uncaptured. in_codes. }
  destruct (http_NewRequestWithContext _ _ _ _) as [e | req0].
  { simplify_eq/=. constructor; [| constructor]. apply newError_uncaptured. in_codes. }
  destruct (httpClient c _) as [[req resp] failure].
  destruct failure as [e |].
  { simplify_eq/=. constructor; [| constructor]. apply newError_uncaptured. in_codes. }
  destruct resp as [resp |]; [| discriminate].
  revert H. unfold readResponse, debugRequest, envelopeResult. rewrite Hdbg. intros H.
  destruct (if decide _ then _ else _) as [e | [left r]].
  { simplify_eq/=. constructor; [| constructor]. apply newError_uncaptured. in_codes. }
  destruct (negb _).
  { destruct (io_ReadAll left) as [b ?]. simplify_eq/=.
    constructor; [| constructor]. apply newError_uncaptured. in_codes. }
  destruct (json_Decode r) as [e | out] eqn:Hd.
  { simplify_eq/=. constructor; [| constructor]. apply newError_uncaptured. in_codes. }
  assert (Forall uncaptured (Envelope_Errors out)) as Hall.
  { apply Forall_forall. intros e He. right. by exists r, out. }
  destruct (Envelope_Errors out) as [| e0 rest]; by simplify_eq/=.
Qed.

Lemma do_uncaptured c (ctx : Ctx) op (v : Target) variables options v' x errs :
  debug c = false →
  do c ctx op v variables options = Ret (v', x, errs) → Forall uncaptured errs.
Proof.
  intros Hdbg. unfold do. intros H.
  destruct (buildQueryAndOptions c op v variables options) as [berrs | [query oo]] eqn:Hb.
  { simplify_eq. revert Hb. unfold buildQueryAndOptions.
    destruct (if decide (op = queryOperation) then _ else _) as [[q o] [e |]];
      intros Hb; simplify_eq.
    constructor; [| constructor]. apply newError_uncaptured. in_codes. }
  apply bind_Ret_inv in H as ([[[[data extData] resp] respBuf] rerrs] & Hr & H).
  destruct oo as [oo |]; [| discriminate].
  pose proof (request_uncaptured _ _ _ _ _ _ Hdbg Hr) as Hacc. simpl in Hacc.
  pose proof (request_delivered _ _ _ _ _ _ Hr) as Hdel.
  destruct (processResponse_delivered c v data extData (extensions oo)
              resp respBuf rerrs Hdel) as (mid & Hp & Hmid).
  rewrite Hp in H. simplify_eq.
  apply Forall_app. split; [exact Hacc |].
  apply Forall_app. split.
  - destruct (if 0 <? len data then _ else _) as [cause |].
    + destruct Hmid as (we & -> & _ & _ & _ & Hplain).
      rewrite (Hplain Hdbg). constructor; [| constructor].
      apply newError_uncaptured. in_codes.
    + subst mid. constructor.
  - unfold extensions_step. destruct (extensions oo) as [t |]; [| constructor].
    destruct (0 <? len extData); [| constructor].
    destruct (json_Unmarshal extData t) as [t' [e |]]; [| constructor].
    constructor; [| constructor]. apply newError_uncaptured. in_codes.
Qed.

(** ** Failed statuses *)


(** ** Envelopes with data only *)


(** ** Compressed responses under debug mode *)

(** C5, where the code departs from it. With debug mode on, a 200
    response declaring gzip is not decoded from the gzip reader: the
    debug copy reads what is left of the compressed body itself, so a
    payload that decompresses to a well-formed envelope ends in one
    [json_decode_error] whenever those left-over bytes are not an
    envelope; the same client without debug decodes the decompressed
    envelope. *)
Theorem gzip_is_bypassed_in_debug c (ctx : Ctx) query variables options
    reqBody req resp left gr out raw failure :
  answered c ctx query variables options reqBody req resp →
  debug c = true →
  Response_StatusCode resp = http_StatusOK →
  declares_gzip resp →
  gzip_NewReader (Response_Body resp) = (left, inr gr) →
  json_Decode gr = inr out →
  io_ReadAll left = (raw, None) →
  json_Decode {| unread := raw; fault := None |} = inl failure →
  (∃ e, request c ctx query variables options = Ret (failed [e]) ∧
        same_error (newError ErrJsonDecode failure) e ∧
        map_index (Extensions e) "code" = string_any ErrJsonDecode) ∧
  request (without_debug c) ctx query variables options
  = Ret (rawMessage (Envelope_Data out), rawMessage (Envelope_Extensions out),
         Some resp, bytes_Reader_ptr None, Envelope_Errors out).
Proof.
  intros Hans Hdbg Hst Hgz Hgr Hdec Hraw Hfail. split.
  - rewrite (request_dispatched _ _ _ _ _ _ _ _ _ Hans).
    rewrite (readResponse_OK_debug _ _ _ _ left raw Hdbg Hst);
      [| right; eauto | exact Hraw].
    rewrite Hfail.
    rewrite (withRequest_Ret _ ∅) by apply getInternalExtension_newError. simpl.
    erewrite withResponse_Ret;
      [| apply getInternalExtension_setInternal | reflexivity].
    simpl. eexists. split; [reflexivity |].
    split; [by repeat split |].
    unfold map_index. simpl.
    rewrite !lookup_insert_ne by discriminate. by rewrite lookup_singleton_eq.
  - assert (answered (without_debug c) ctx query variables options reqBody req resp)
      as Hans' by exact Hans.
    rewrite (request_dispatched _ _ _ _ _ _ _ _ _ Hans').
    apply (readResponse_OK_plain _ _ _ _ gr); [reflexivity | exact Hst | | exact Hdec].
    right. eauto.
Qed.

(** ** Envelopes with data and errors *)

(** C1, where the code departs from it. With debug mode on, an envelope
    with a data payload and errors whose first error stores something
    other than an object under the extension ["internal"] (and nothing
    under ["request"]) makes the call panic on the unchecked type
    assertion of [getInternalExtension]: neither the output nor the
    errors are returned. *)
Theorem ill_typed_internal_extension_panics c (ctx : Ctx) op (v : Target) variables
    options query oo reqBody req resp left raw out data e0 rest m x :
  buildQueryAndOptions c op v variables options = inr (query, oo) →
  answered c ctx query variables oo reqBody req resp →
  debug c = true →
  Response_StatusCode resp = http_StatusOK →
  body_left resp left →
  io_ReadAll left = (raw, None) →
  json_Decode {| unread := raw; fault := None |} = inr out →
  Envelope_Data out = Some data → 0 < len data →
  Envelope_Errors out = e0 :: rest →
  Extensions e0 = Some m →
  m !! "request" = None →
  m !! "internal" = Some x →
  (∀ internal, x ≠ map_any internal) →
  request c ctx query variables oo = Panic interface_conversion ∧
  do c ctx op v variables options = Panic interface_conversion.
Proof.
  intros Hb Hans Hdbg Hst Hleft Hraw Hdec Hdata Hlen He Hm Hreq Hint Hx.
  assert (request c ctx query variables oo = Panic interface_conversion) as Hr.
  { rewrite (request_dispatched _ _ _ _ _ _ _ _ _ Hans).
    rewrite (readResponse_OK_debug _ _ _ _ left raw Hdbg Hst Hleft Hraw), Hdec.
    rewrite (envelopeResult_debug _ _ _ _ _ _ e0 rest Hdbg He).
    - unfold getInternalExtension. rewrite Hm, Hint.
      destruct x; try reflexivity. by destruct (Hx m0).
    - right. unfold map_index. by rewrite Hm, Hreq. }
  split; [exact Hr |]. unfold do. by rewrite Hb, Hr.
Qed.

(** Partial success where the call returns: with debug mode off, a 200
    response whose envelope holds data and errors yields the errors of
    the envelope, in order, and the output the typed decoder makes of
    the data. *)
Lemma partial_success_without_debug c (ctx : Ctx) op (v : Target) variables options
    query oo reqBody req resp r out data :
  buildQueryAndOptions c op v variables options = inr (query, Some oo) →
  answered c ctx query variables (Some oo) reqBody req resp →
  debug c = false →
  Response_StatusCode resp = http_StatusOK →
  decoded_from resp r →
  json_Decode r = inr out →
  Envelope_Data out = Some data → 0 < len data →
  ∃ x tail,
    do c ctx op v variables options
    = Ret ((jsonutil_UnmarshalGraphQL data v).1, x,
           (Envelope_Errors out ++ tail)%list).
Proof.
  intros Hb Hans Hdbg Hst Hfrom Hdec Hdata Hlen.
  apply Z.ltb_lt in Hlen.
  assert (request c ctx query variables (Some oo)
          = Ret (data, rawMessage (Envelope_Extensions out), Some resp,
                 bytes_Reader_ptr None, Envelope_Errors out)) as Hr.
  { rewrite (request_dispatched _ _ _ _ _ _ _ _ _ Hans).
    rewrite (readResponse_OK_plain _ _ _ _ r out Hdbg Hst Hfrom Hdec), Hdata.
    simpl. by rewrite Hlen. }
  rewrite (do_built _ _ _ _ _ _ _ _ _ _ _ _ _ Hb Hr).
  pose proof (request_delivered _ _ _ _ _ _ Hr) as Hdel.
  destruct (processResponse_delivered c v data _ (extensions oo) _ _ _ Hdel)
    as (mid & -> & _).
  rewrite Hlen. eauto.
Qed.

(** A failed transport never yields an empty error collection. *)
Lemma transport_failure_is_reported c (ctx : Ctx) op (v : Target) variables options
    query oo reqBody req resp failure :
  buildQueryAndOptions c op v variables options = inr (query, Some oo) →
  dispatched c ctx query variables (Some oo) reqBody req resp (Some failure) →
  ∃ e, do c ctx op v variables options = Ret (v, extensions oo, [e]) ∧
       same_error (newError ErrRequestError failure) e ∧
       map_index (Extensions e) "code" = string_any ErrRequestError.
Proof.
  intros Hb Hd.
  assert (∃ e, request c ctx query variables (Some oo) = Ret (failed [e]) ∧
               same_error (newError ErrRequestError failure) e ∧
               map_index (Extensions e) "code" = string_any ErrRequestError)
    as (e & Hr & Hsame & Hcode).
  { rewrite (request_dispatched _ _ _ _ _ _ _ _ _ Hd), debugRequest_newError. simpl.
    eexists. split; [reflexivity |].
    destruct (debug c).
    - split; [apply same_error_setInternal |].
      rewrite setInternal_index by discriminate.
      unfold map_index. simpl. by rewrite lookup_singleton_eq.
    - split; [apply same_error_refl | apply newError_code]. }
  exists e. split; [| by split].
  rewrite (do_built _ _ _ _ _ _ _ _ _ _ _ _ _ Hb Hr).
  unfold processResponse. simpl. by destruct (extensions oo).
Qed.

(** ** Debug capture *)

Lemma map_index_default (o : option (gmap string any)) k :
  map_index (Some (default ∅ o)) k = map_index o k.
Proof. destruct o; [reflexivity |]. unfold map_index. simpl. by rewrite lookup_empty. Qed.

(** C3, as the code has it. With debug mode off, every error a call
    returns is exactly as [newError] built it or exactly as the envelope
    decoder read it: nothing is attached; a new client has debug mode
    off. With debug mode on, when the
    envelope has errors and the first one has nil extensions or nothing
    under ["request"] (and any ["internal"] entry of it is an object),
    the request headers and body and the response headers and body are
    stored under ["internal"] of that first error only; its other
    entries and the other errors are returned as decoded. *)
Theorem debug_capture_is_opt_in_and_first_only :
  (∀ h u hc, ∃ cl,
      (NewClient h u hc).2 !! (NewClient h u hc).1 = Some cl ∧ debug cl = false) ∧
  (∀ c (ctx : Ctx) op (v : Target) variables options v' x errs e,
      debug c = false →
      do c ctx op v variables options = Ret (v', x, errs) →
      e ∈ errs → uncaptured e) ∧
  (∀ c (ctx : Ctx) op (v : Target) variables options query oo reqBody req resp
      left raw out e0 rest internal,
      buildQueryAndOptions c op v variables options = inr (query, Some oo) →
      answered c ctx query variables (Some oo) reqBody req resp →
      debug c = true →
      Response_StatusCode resp = http_StatusOK →
      body_left resp left →
      io_ReadAll left = (raw, None) →
      json_Decode {| unread := raw; fault := None |} = inr out →
      Envelope_Errors out = e0 :: rest →
      Extensions e0 = None ∨ is_nil (map_index (Extensions e0) "request") = true →
      getInternalExtension e0 = Ret internal →
      ∃ e0',
        (∃ data extData r rb,
            request c ctx query variables (Some oo)
            = Ret (data, extData, r, rb, e0' :: rest)) ∧
        (∃ v' x tail,
            do c ctx op v variables options = Ret (v', x, (e0' :: rest ++ tail)%list)) ∧
        same_error e0 e0' ∧
        map_index (Extensions e0') "internal"
        = map_any (<["response" := captured_response resp raw]>
                     (<["request" := captured_request req reqBody]> internal)) ∧
        (∀ k, k ≠ "internal" →
              map_index (Extensions e0') k = map_index (Extensions e0) k) ∧
        has_capture e0').
Proof.
  split; [| split].
  - intros h u hc. eexists. split; [apply alloc_lookup | reflexivity].
  - intros c ctx op v variables options v' x errs e Hdbg Hdo He.
    apply do_uncaptured in Hdo; [| exact Hdbg].
    rewrite Forall_forall in Hdo. by apply Hdo.
  - intros c ctx op v variables options query oo reqBody req resp left raw out
      e0 rest internal Hb Hans Hdbg Hst Hleft Hraw Hdec He Helig Hint.
    set (e0' := setInternal e0 (default ∅ (Extensions e0))
                  (<["response" := captured_response resp raw]>
                     (<["request" := captured_request req reqBody]> internal))).
    assert (request c ctx query variables (Some oo)
            = Ret (rawMessage (Envelope_Data out), rawMessage (Envelope_Extensions out),
                   Some resp, bytes_Reader_ptr (Some {| buf := raw; remaining := "" |}),
                   e0' :: rest)) as Hr.
    { rewrite (request_dispatched _ _ _ _ _ _ _ _ _ Hans).
      rewrite (readResponse_OK_debug _ _ _ _ left raw Hdbg Hst Hleft Hraw), Hdec.
      rewrite (envelopeResult_debug _ _ _ _ _ _ e0 rest Hdbg He Helig), Hint.
      reflexivity. }
    exists e0'. split; [by eauto |]. split.
    { rewrite (do_built _ _ _ _ _ _ _ _ _ _ _ _ _ Hb Hr).
      pose proof (request_delivered _ _ _ _ _ _ Hr) as Hdel.
      destruct (processResponse_delivered c v _ _ (extensions oo) _ _ _ Hdel)
        as (mid & -> & _).
      eexists _, _, _. rewrite <- app_comm_cons. reflexivity. }
    split; [apply same_error_setInternal |].
    split; [apply setInternal_internal |].
    split.
    + intros k Hk. unfold e0'. rewrite setInternal_index by exact Hk.
      apply map_index_default.
    + eexists _, _, _. split; [apply setInternal_internal |].
      split; [| apply lookup_insert_eq].
      rewrite lookup_insert_ne by discriminate. apply lookup_insert_eq.
Qed.

End Responses.

(** * Further properties of the client *)

Section Further.

Context {Ctx Target ExtTarget : Type} {ext : Externals Ctx Target ExtTarget}.

Implicit Types (c : Client) (e : Error) (errs : Errors).








(** X3. When the HTTP request cannot be constructed, a client without
    debug returns one [request_error] whose message starts with
    "problem constructing request: "; a client in debug mode panics,
    because [withRequest] reads the headers of the nil request. *)
Theorem request_construction_failure c (ctx : Ctx) query variables options reqBody cause :
  json_Encode (payload query variables options) = inr reqBody →
  http_NewRequestWithContext ctx http_MethodPost (url c) (bytes_NewReader reqBody)
  = inl cause →
  request c ctx query variables options
  = (if debug c then Panic nil_dereference
     else Ret (failed [newError ErrRequestError
                         (wrapError "problem constructing request: " cause)])) ∧
  Message (newError ErrRequestError (wrapError "problem constructing request: " cause))
  = "problem constructing request: " ++ GoError_Error cause.
Proof.
  intros Henc Hnew. split; [| reflexivity].
  unfold request. fold (payload query variables options). rewrite Henc, Hnew.
  unfold debugRequest. destruct (debug c); [| reflexivity].
  unfold withRequest. by rewrite getInternalExtension_newError.
Qed.

Lemma readResponse_returns_without_debug c req rd (resp : Response) :
  debug c = false → ∃ res, readResponse c req rd resp = Ret res.
Proof.
  intros Hdbg. unfold readResponse, debugRequest, envelopeResult. rewrite Hdbg.
  destruct (if decide _ then _ else _) as [e | [left r]]; [eauto |].
  destruct (negb _).
  { destruct (io_ReadAll left) as [b ?]. simpl. eauto. }
  destruct (json_Decode r) as [e | out]; [eauto |].
  simpl. destruct (Envelope_Errors out); eauto.
Qed.

Lemma request_returns_without_debug c (ctx : Ctx) query variables oo :
  debug c = false →
  honours_contract (httpClient c) →
  ∃ res, request c ctx query variables oo = Ret res.
Proof.
  intros Hdbg Hok. unfold request, debugRequest. rewrite Hdbg.
  destruct (json_Encode _) as [e | reqBody]; [eauto |].
  destruct (http_NewRequestWithContext _ _ _ _) as [e | req0]; [simpl; eauto |].
  match goal with |- context [httpClient c ?r] => destruct (Hok r) as (req' & Hdo) end.
  destruct Hdo as [[resp ->] | (resp & e & ->)]; [| simpl; eauto].
  by apply readResponse_returns_without_debug.
Qed.

Lemma do_returns_without_debug c (ctx : Ctx) op (v : Target) variables options :
  debug c = false →
  honours_contract (httpClient c) →
  (∀ query, buildQueryAndOptions c op v variables options ≠ inr (query, None)) →
  ∃ res, do c ctx op v variables options = Ret res.
Proof.
  intros Hdbg Hok Hsome. unfold do.
  destruct (buildQueryAndOptions c op v variables options) as [berrs | [query oo]] eqn:Hb;
    [eauto |].
  destruct (request_returns_without_debug c ctx query variables oo Hdbg Hok)
    as ([[[[data extData] resp] respBuf] rerrs] & Hr).
  rewrite Hr. simpl.
  destruct oo as [oo |]; [| by destruct (Hsome query)].
  pose proof (request_delivered _ _ _ _ _ _ Hr) as Hdel.
  destruct (processResponse_delivered c v data extData (extensions oo)
              resp respBuf rerrs Hdel) as (mid & -> & _).
  eauto.
Qed.

(** X4. Without debug mode, and with a transport that returns a response
    or an error, no call panics: [request] returns, and so does [do]
    whenever the query builder hands out its options. *)
Theorem calls_return_without_debug c (ctx : Ctx) op (v : Target) variables options :
  debug c = false →
  honours_contract (httpClient c) →
  (∀ query oo, ∃ res, request c ctx query variables oo = Ret res) ∧
  ((∀ query, buildQueryAndOptions c op v variables options ≠ inr (query, None)) →
   ∃ res, do c ctx op v variables options = Ret res).
Proof.
  intros Hdbg Hok. split.
  - intros query oo. by apply request_returns_without_debug.
  - by apply do_returns_without_debug.
Qed.

Lemma processResponse_debug_decode_failure c (v v' : Target) data x extData
    (resp : Response) (rd : bytes_Reader) errs cause :
  debug c = true →
  0 < len data →
  jsonutil_UnmarshalGraphQL data v = (v', Some cause) →
  processResponse c v data x extData (Some resp) (bytes_Reader_ptr (Some rd)) errs
  = Ret (v', (extensions_step x extData).1,
         (errs ++ [setInternal (newError ErrGraphQLDecode cause)
                     {[ "code" := string_any ErrGraphQLDecode ]}
                     (<["response" := captured_response resp (remaining rd)]> ∅)]
               ++ (extensions_step x extData).2)%list).
Proof.
  intros Hdbg Hlen Hu. apply Z.ltb_lt in Hlen.
  unfold processResponse, extensions_step. rewrite Hlen, Hu, Hdbg.
  erewrite withResponse_Ret; [| apply getInternalExtension_newError | reflexivity].
  simpl. destruct x as [t |]; simpl.
  - destruct (0 <? len extData); simpl.
    + destruct (json_Unmarshal extData t) as [t' [e |]]; simpl;
        by rewrite <- ?app_assoc, ?app_nil_r.
    + by rewrite <- ?app_assoc, ?app_nil_r.
  - by rewrite <- ?app_assoc, ?app_nil_r.
Qed.

(** X5. In debug mode the response body is captured from one reader that
    is read to its end each time. When the data payload fails to decode,
    the decode error carries the whole body if the envelope had no errors;
    if the envelope had errors and the first one received the capture, the
    decode error carries an empty body. *)
Theorem decode_error_capture_is_drained c (ctx : Ctx) op (v v' : Target) variables
    options query oo reqBody req resp left raw out data cause :
  buildQueryAndOptions c op v variables options = inr (query, Some oo) →
  answered c ctx query variables (Some oo) reqBody req resp →
  debug c = true →
  Response_StatusCode resp = http_StatusOK →
  body_left resp left →
  io_ReadAll left = (raw, None) →
  json_Decode {| unread := raw; fault := None |} = inr out →
  Envelope_Data out = Some data →
  0 < len data →
  jsonutil_UnmarshalGraphQL data v = (v', Some cause) →
  let decode_error (text : string) :=
    setInternal (newError ErrGraphQLDecode cause)
      {[ "code" := string_any ErrGraphQLDecode ]}
      (<["response" := captured_response resp text]> ∅) in
  (Envelope_Errors out = [] →
   ∃ x tail,
     do c ctx op v variables options = Ret (v', x, (decode_error raw :: tail)%list)) ∧
  (∀ e0 rest internal,
      Envelope_Errors out = e0 :: rest →
      Extensions e0 = None ∨ is_nil (map_index (Extensions e0) "request") = true →
      getInternalExtension e0 = Ret internal →
      ∃ e0' x tail,
        do c ctx op v variables options
        = Ret (v', x, (e0' :: rest ++ decode_error "" :: tail)%list) ∧
        map_index (Extensions e0') "internal"
        = map_any (<["response" := captured_response resp raw]>
                     (<["request" := captured_request req reqBody]> internal))).
Proof.
  intros Hb Hans Hdbg Hst Hleft Hraw Hdec Hdata Hlen Hu decode_error.
  assert (rawMessage (Envelope_Data out) = data) as Hrawdata.
  { rewrite Hdata. simpl. apply Z.ltb_lt in Hlen. by rewrite Hlen. }
  assert (request c ctx query variables (Some oo)
          = envelopeResult c req (bytes_NewReader reqBody) resp
              (bytes_Reader_ptr (Some (bytes_NewReader raw))) out) as Hreq.
  { rewrite (request_dispatched _ _ _ _ _ _ _ _ _ Hans).
    by rewrite (readResponse_OK_debug _ _ _ _ left raw Hdbg Hst Hleft Hraw), Hdec. }
  split.
  - intros Hnone.
    rewrite (envelopeResult_no_errors _ _ _ _ _ _ Hnone), Hrawdata in Hreq.
    rewrite (do_built _ _ _ _ _ _ _ _ _ _ _ _ _ Hb Hreq).
    rewrite (processResponse_debug_decode_failure _ _ v' _ _ _ _ _ _ cause Hdbg Hlen Hu).
    eexists _, _. reflexivity.
  - intros e0 rest internal He Helig Hint.
    rewrite (envelopeResult_debug _ _ _ _ _ _ e0 rest Hdbg He Helig), Hint, Hrawdata
      in Hreq.
    simpl in Hreq.
    rewrite (do_built _ _ _ _ _ _ _ _ _ _ _ _ _ Hb Hreq).
    rewrite (processResponse_debug_decode_failure _ _ v' _ _ _ _ _ _ cause Hdbg Hlen Hu).
    eexists _, _, _. split.
    + reflexivity.
    + apply setInternal_internal.
Qed.

(** X6. Without debug mode, a 200 response whose envelope has no data
    payload (the field absent or null) leaves the caller's output as it
    was: the call returns the errors of the envelope as decoded, followed
    only by what the extensions step adds. *)
Theorem envelope_without_data_leaves_output c (ctx : Ctx) op (v : Target) variables
    options query oo reqBody req resp r out :
  buildQueryAndOptions c op v variables options = inr (query, Some oo) →
  answered c ctx query variables (Some oo) reqBody req resp →
  debug c = false →
  Response_StatusCode resp = http_StatusOK →
  decoded_from resp r →
  json_Decode r = inr out →
  Envelope_Data out = None →
  do c ctx op v variables options
  = Ret (v,
         (extensions_step (extensions oo) (rawMessage (Envelope_Extensions out))).1,
         (Envelope_Errors out
          ++ (extensions_step (extensions oo) (rawMessage (Envelope_Extensions out))).2)%list).
Proof.
  intros Hb Hans Hdbg Hst Hfrom Hdec Hdata.
  assert (request c ctx query variables (Some oo)
          = Ret ("", rawMessage (Envelope_Extensions out), Some resp,
                 bytes_Reader_ptr None, Envelope_Errors out)) as Hr.
  { rewrite (request_dispatched _ _ _ _ _ _ _ _ _ Hans).
    by rewrite (readResponse_OK_plain _ _ _ _ r out Hdbg Hst Hfrom Hdec), Hdata. }
  rewrite (do_built _ _ _ _ _ _ _ _ _ _ _ _ _ Hb Hr).
  pose proof (request_delivered _ _ _ _ _ _ Hr) as Hdel.
  destruct (processResponse_delivered c v "" _ (extensions oo) _ _ _ Hdel)
    as (mid & -> & Hmid).
  simpl in Hmid. by subst mid.
Qed.

(** X7. In debug mode a body that cannot be read to its end yields one
    plain [json_decode_error] wrapping the read error, with nothing
    captured and without the decoder being run; the same client without
    debug hands the reader to the decoder and returns what it decodes. *)
Theorem unreadable_body_in_debug c (ctx : Ctx) query variables options
    reqBody req resp left raw cause :
  answered c ctx query variables options reqBody req resp →
  debug c = true →
  Response_StatusCode resp = http_StatusOK →
  body_left resp left →
  io_ReadAll left = (raw, Some cause) →
  (∀ d, request (ext := with_json_Decode d) c ctx query variables options
        = Ret (failed [newError ErrJsonDecode cause])) ∧
  (∀ r out,
      decoded_from resp r → json_Decode r = inr out →
      request (without_debug c) ctx query variables options
      = Ret (rawMessage (Envelope_Data out), rawMessage (Envelope_Extensions out),
             Some resp, bytes_Reader_ptr None, Envelope_Errors out)).
Proof.
  intros Hans Hdbg Hst Hleft Hraw. split.
  - intros d.
    assert (answered (ext := with_json_Decode d) c ctx query variables options
              reqBody req resp) as Hans' by exact Hans.
    rewrite (request_dispatched _ _ _ _ _ _ _ _ _ Hans').
    assert (body_left (ext := with_json_Decode d) resp left) as Hleft' by exact Hleft.
    destruct (readResponse_left (ext := with_json_Decode d) c req
                (bytes_NewReader reqBody) resp left Hleft') as (r & -> & _).
    by rewrite Hst, Hdbg, Hraw.
  - intros r out Hfrom Hdec.
    assert (answered (without_debug c) ctx query variables options reqBody req resp)
      as Hans' by exact Hans.
    rewrite (request_dispatched _ _ _ _ _ _ _ _ _ Hans').
    by apply (readResponse_OK_plain _ _ _ _ r).
Qed.

End Further.

(** * Properties of the action *)

Section ActionProperties.

Import Action.

Context {Ctx ExtTarget : Type}.
Context {ext : Externals Ctx Fixture.Mutation ExtTarget}.
Context {machine : Machine}.
Context (context_Background : Ctx).

Implicit Types (t : list Event) (a : list string).

Lemma commands_app t t' : commands (t ++ t') = (commands t ++ commands t')%list.
Proof. apply omap_app. Qed.

Lemma writes_app t t' : writes (t ++ t') = (writes t ++ writes t')%list.
Proof. apply omap_app. Qed.

Lemma commands_log t line : commands (t ++ [call_log line]) = commands t.
Proof. rewrite commands_app. simpl. apply app_nil_r. Qed.

Lemma writes_log t line : writes (t ++ [call_log line]) = writes t.
Proof. rewrite writes_app. simpl. apply app_nil_r. Qed.

Lemma commands_run t argv : commands (t ++ [call_Run argv]) = (commands t ++ [argv])%list.
Proof. by rewrite commands_app. Qed.

Lemma writes_run t argv : writes (t ++ [call_Run argv]) = writes t.
Proof. rewrite writes_app. simpl. apply app_nil_r. Qed.

Lemma commands_write t name data perm :
  commands (t ++ [call_WriteFile name data perm]) = commands t.
Proof. rewrite commands_app. simpl. apply app_nil_r. Qed.

Lemma writes_write t name data perm :
  writes (t ++ [call_WriteFile name data perm]) = (writes t ++ [(name, data, perm)])%list.
Proof. by rewrite writes_app. Qed.

Lemma commands_mkdir t path perm : commands (t ++ [call_MkdirAll path perm]) = commands t.
Proof. rewrite commands_app. simpl. apply app_nil_r. Qed.

Lemma writes_mkdir t path perm : writes (t ++ [call_MkdirAll path perm]) = writes t.
Proof. rewrite writes_app. simpl. apply app_nil_r. Qed.

(** Rewriting the commands and writes of a trace built by appending. *)
Ltac trace :=
  repeat first
    [ rewrite commands_log | rewrite writes_log | rewrite commands_run
    | rewrite writes_run | rewrite commands_write | rewrite writes_write
    | rewrite commands_mkdir | rewrite writes_mkdir ].

(** ** The arguments *)

(** X8. [main] never gets past its arguments: it logs its first line and
    then, whatever [os.Args] is, either exits through [log.Fatalf] with
    the usage text (any number of arguments but six, the seven arguments
    of the action's manifest included) or panics on [os.Args[7]] (exactly
    six arguments) or on [os.Args[0]] (none at all). No token is asked
    for, nothing is written and no command is run. *)
Theorem main_stops_at_its_arguments a t :
  ∃ exit,
    main context_Background a t = ((t ++ [call_log "Starting Docker Push Action..."])%list, exit) ∧
    ((length a = 7%nat ∧ exit = index_out_of_range 7 7) ∨
     (a = [] ∧ exit = index_out_of_range 0 0) ∨
     (∃ program rest, a = program :: rest ∧ length a ≠ 7%nat ∧
                      exit = Fatalf usage [text program])).
Proof.
  unfold main. destruct (length a =? 7)%nat eqn:Hlen; simpl.
  - apply Nat.eqb_eq in Hlen.
    destruct a as [| a0 [| a1 [| a2 [| a3 [| a4 [| a5 [| a6 [| a7 rest]]]]]]]];
      try discriminate Hlen.
    eexists. split; [reflexivity |]. left. by split.
  - apply Nat.eqb_neq in Hlen. destruct a as [| program rest].
    + eexists. split; [reflexivity |]. right. left. by split.
    + eexists. split; [reflexivity |]. right. right. by exists program, rest.
Qed.

(** ** Building *)

(** X9. [runDockerBuild] runs [docker build] exactly when a Dockerfile is
    at hand. Inline content is written to [./Dockerfile] (mode 0644) and
    used whatever path was given; if that write fails nothing is run.
    With no inline content the given path is used and nothing is written.
    With neither, the step fails without writing or running anything.
    The image is tagged with the reference [parseLocation] gives. *)
Theorem docker_build_runs_when_a_dockerfile_is_at_hand
    (dockerfilePath dockerfile imageName imageTag : string) t :
  let t0 := (t ++ [call_log "Building Docker image..."])%list in
  let res := runDockerBuild dockerfilePath dockerfile imageName imageTag t in
  let build (path : string) :=
    ["docker"; "build"; "-f"; path; "-t"; parseLocation imageName imageTag; "."] in
  (dockerfile ≠ "" →
   res = runDockerBuild "" dockerfile imageName imageTag t ∧
   writes res.1 = (writes t ++ [("./Dockerfile", dockerfile, 420)])%list ∧
   match os_WriteFile t0 "./Dockerfile" dockerfile 420 with
   | Some e => commands res.1 = commands t ∧ res.2 = Some (library e)
   | None => commands res.1 = (commands t ++ [build "./Dockerfile"])%list
   end) ∧
  (dockerfile = "" → dockerfilePath ≠ "" →
   writes res.1 = writes t ∧
   commands res.1 = (commands t ++ [build dockerfilePath])%list) ∧
  (dockerfile = "" → dockerfilePath = "" →
   res = (t0, Some (library
                      (errorString "either dockerfilePath or dockerfile must be set")))).
Proof.
  intros t0 res build. subst res. unfold runDockerBuild. fold t0.
  split; [| split].
  - intros Hdf. rewrite !bool_decide_eq_false_2 by exact Hdf. simpl.
    split; [reflexivity |].
    destruct (os_WriteFile t0 "./Dockerfile" dockerfile 420) as [e |]; simpl.
    + unfold t0. trace. by repeat split.
    + destruct (cmd_Run _ _).2; simpl; unfold t0; trace; by split.
  - intros -> Hpath. simpl. rewrite bool_decide_eq_false_2 by exact Hpath. simpl.
    destruct (cmd_Run _ _).2; simpl; unfold t0; trace; by split.
  - by intros -> ->.
Qed.

(** ** The Docker configuration *)

(** X10. [updateDockerConfig] writes one file at most:
    [config.json] under [.docker] of the home directory, mode 0600, with
    the token in the [X-Meta-Authorization] header, and only after the
    home directory was found and the directory was made (mode 0700);
    otherwise it returns the error of the failed call. It runs no command. *)
Theorem docker_config_is_written_last (token : string) t :
  let t0 := (t ++ [call_log "Updating Docker config..."])%list in
  let res := updateDockerConfig token t in
  commands res.1 = commands t ∧
  match os_UserHomeDir t0 with
  | inl e => res = (t0, Some (library e))
  | inr home =>
      let dir := filepath_Join home ".docker" in
      match os_MkdirAll t0 dir 448 with
      | Some e => writes res.1 = writes t ∧ res.2 = Some (library e)
      | None =>
          writes res.1
          = (writes t ++ [(filepath_Join dir "config.json", configContent token, 384)])%list ∧
          res.2 = library <$> os_WriteFile (t0 ++ [call_MkdirAll dir 448])%list
                                (filepath_Join dir "config.json") (configContent token) 384
      end
  end.
Proof.
  intros t0 res. subst res. unfold updateDockerConfig. fold t0.
  destruct (os_UserHomeDir t0) as [e | home]; simpl.
  { unfold t0. trace. by split. }
  destruct (os_MkdirAll t0 _ 448) as [e |]; simpl.
  { unfold t0. trace. by repeat split. }
  destruct (os_WriteFile _ _ _ 384) as [e |]; simpl; unfold t0; trace; by repeat split.
Qed.

(** ** The bearer token *)

Lemma Split_length (s : string) (sep : ascii) :
  length (Split s sep) = S (occurrences sep s).
Proof.
  induction s as [| c r IH]; [reflexivity |]. simpl.
  destruct (Ascii.eqb c sep); simpl; [by rewrite IH |].
  destruct (Split r sep) as [| part parts]; [discriminate IH | exact IH].
Qed.

Lemma Split_whole (s : string) (sep : ascii) :
  occurrences sep s = 0%nat → Split s sep = [s].
Proof.
  induction s as [| c r IH]; [reflexivity |]. simpl.
  destruct (Ascii.eqb c sep); [discriminate |]. simpl. intros H. by rewrite IH.
Qed.

Lemma Split_first (s r : string) (sep : ascii) :
  occurrences sep s = 0%nat → Split (s ++ String sep r) sep = s :: Split r sep.
Proof.
  induction s as [| c s IH]; simpl.
  - intros _. by rewrite Ascii.eqb_refl.
  - destruct (Ascii.eqb c sep); [discriminate |]. simpl. intros H. by rewrite IH.
Qed.

(** A token of three parts without dots splits into them. *)
Lemma Split_token (h p s : string) :
  occurrences "." h = 0%nat → occurrences "." p = 0%nat → occurrences "." s = 0%nat →
  Split (h ++ "." ++ p ++ "." ++ s) "." = [h; p; s].
Proof.
  intros Hh Hp Hs.
  change (h ++ "." ++ p ++ "." ++ s) with (h ++ String "." (p ++ String "." s)).
  rewrite (Split_first h _ "." Hh), (Split_first p _ "." Hp).
  by rewrite (Split_whole s "." Hs).
Qed.

Lemma getBearerToken_quiet (clientId secret : string) t :
  commands (getBearerToken clientId secret t).1 = commands t ∧
  writes (getBearerToken clientId secret t).1 = writes t.
Proof.
  unfold getBearerToken.
  repeat match goal with
         | |- context [match ?x with _ => _ end] => destruct x; simpl
         | |- context [if ?x then _ else _] => destruct x; simpl
         end; trace; by split.
Qed.

(** X11. [getBearerToken] fails, without logging that a token was
    obtained, when the endpoint answers with a status other than 200
    (the error names the status line and the body is not decoded), when
    the access token does not have exactly two dots ("invalid token
    format", before any base64 decoding), and when the claims hold no
    string under [organization_id] ("organization_id not found in token",
    a checked type assertion: no panic). *)
Theorem token_failures (clientId secret : string) t (resp : TokenResponse) :
  token_answer clientId secret t resp →
  let t0 := (t ++ [call_log "Getting bearer token..."])%list in
  (StatusCode resp ≠ http_StatusOK →
   getBearerToken clientId secret t
   = (t0, inl (library (errorString ("failed to get token: " ++ Status resp))))) ∧
  (∀ authResp,
      StatusCode resp = http_StatusOK →
      json_Decode_AuthResponse (Body resp) = inr authResp →
      occurrences "." (AccessToken authResp) ≠ 2%nat →
      getBearerToken clientId secret t
      = (t0, inl (library (errorString "invalid token format")))) ∧
  (∀ authResp h p s data claims,
      StatusCode resp = http_StatusOK →
      json_Decode_AuthResponse (Body resp) = inr authResp →
      AccessToken authResp = h ++ "." ++ p ++ "." ++ s →
      occurrences "." h = 0%nat → occurrences "." p = 0%nat → occurrences "." s = 0%nat →
      base64_RawURLEncoding_DecodeString p = inr data →
      json_Unmarshal_claims data = inr claims →
      (∀ org, map_index claims "organization_id" ≠ string_any org) →
      getBearerToken clientId secret t
      = (t0, inl (library (errorString "organization_id not found in token")))).
Proof.
  intros (req & Hnew & Hdo) t0. subst t0. unfold getBearerToken.
  cbv zeta in Hnew, Hdo. cbv zeta. rewrite Hnew, Hdo. split; [| split].
  - intros Hst. apply Z.eqb_neq in Hst. by rewrite Hst.
  - intros authResp Hst Hdec Hdots. rewrite Hst, Hdec. simpl.
    rewrite Split_length.
    destruct (_ =? 3)%nat eqn:Hlen; [| reflexivity].
    apply Nat.eqb_eq in Hlen. lia.
  - intros authResp h p s data claims Hst Hdec Htok Hh Hp Hs Hb64 Hun Hnot.
    rewrite Hst, Hdec. simpl. rewrite Htok, (Split_token h p s Hh Hp Hs). simpl.
    rewrite Hb64, Hun.
    destruct (map_index claims "organization_id") eqn:Hidx; try reflexivity.
    by destruct (Hnot s0).
Qed.

(** X12. When the endpoint answers 200 with an access token of three
    dot-separated parts whose middle part decodes (base64, URL alphabet,
    no padding) to claims holding a string under [organization_id],
    [getBearerToken] logs twice and returns the whole access token
    together with that organization. *)
Theorem token_and_organization (clientId secret : string) t (resp : TokenResponse)
    authResp (h p s data org : string) claims :
  token_answer clientId secret t resp →
  StatusCode resp = http_StatusOK →
  json_Decode_AuthResponse (Body resp) = inr authResp →
  AccessToken authResp = h ++ "." ++ p ++ "." ++ s →
  occurrences "." h = 0%nat → occurrences "." p = 0%nat → occurrences "." s = 0%nat →
  base64_RawURLEncoding_DecodeString p = inr data →
  json_Unmarshal_claims data = inr claims →
  map_index claims "organization_id" = string_any org →
  getBearerToken clientId secret t
  = ((t ++ [call_log "Getting bearer token..."; call_log "Bearer token obtained."])%list,
     inr (h ++ "." ++ p ++ "." ++ s, org)).
Proof.
  intros (req & Hnew & Hdo) Hst Hdec Htok Hh Hp Hs Hb64 Hun Horg.
  unfold getBearerToken. cbv zeta in Hnew, Hdo. cbv zeta.
  rewrite Hnew, Hdo, Hst, Hdec. simpl.
  rewrite Htok, (Split_token h p s Hh Hp Hs). simpl.
  rewrite Hb64, Hun, Horg. by rewrite <- app_assoc.
Qed.

(** ** Recording the artifact *)

Lemma addArtifact_eq (token organization artifactId version url_ : string) t :
  addArtifact context_Background token organization artifactId version url_ t
  = let t0 := (t ++ [call_log "Adding artifact to GraphQL API..."])%list in
    match Mutate (artifact_client token organization t) context_Background
            {| Fixture.AddArtifact_ID := "" |}
            (artifact_variables artifactId version url_) [] with
    | Panic why => (t0, Panic why)
    | Ret (mutation, _, errs) =>
        match errs with
        | _ :: _ =>
            (t0, Ret (Some (Errorf_w "failed to add artifact: " (graphql_Errors errs))))
        | [] =>
            ((t0 ++ [call_log ("Artifact added successfully with ID: "
                               ++ Fixture.AddArtifact_ID mutation)])%list,
             Ret None)
        end
    end.
Proof.
  unfold addArtifact, NewClient, alloc. cbv beta iota zeta.
  rewrite lookup_insert_eq. reflexivity.
Qed.

Lemma addArtifact_quiet (token organization artifactId version url_ : string) t :
  commands (addArtifact context_Background token organization artifactId version url_ t).1
  = commands t ∧
  writes (addArtifact context_Background token organization artifactId version url_ t).1
  = writes t.
Proof.
  rewrite addArtifact_eq. cbv zeta.
  destruct (Mutate _ _ _ _ _) as [[[m x] [| e errs]] | why]; simpl; trace; by split.
Qed.

Lemma Mutate_built c (v : Fixture.Mutation) variables options query oo :
  constructMutation v variables options = (query, oo, None) →
  buildQueryAndOptions c mutationOperation v variables options = inr (query, oo).
Proof. intros H. unfold buildQueryAndOptions. simpl. by rewrite H. Qed.

(** X13. [addArtifact] never panics as long as the HTTP client returns a
    response or an error and the query builder hands out its options: the
    client it builds has debug mode off. It fails exactly when the call
    returned errors, wrapping all of them. *)
Theorem addArtifact_returns (token organization artifactId version url_ : string) t :
  honours_contract (httpClient (artifact_client token organization t)) →
  (∀ query, constructMutation {| Fixture.AddArtifact_ID := "" |}
              (artifact_variables artifactId version url_) []
            ≠ (query, None, None)) →
  ∃ mutation x errs,
    Mutate (artifact_client token organization t) context_Background
      {| Fixture.AddArtifact_ID := "" |} (artifact_variables artifactId version url_) []
    = Ret (mutation, x, errs) ∧
    (addArtifact context_Background token organization artifactId version url_ t).2
    = Ret (match errs with
           | [] => None
           | _ :: _ => Some (Errorf_w "failed to add artifact: " (graphql_Errors errs))
           end).
Proof.
  intros Hok Hsome.
  destruct (do_returns_without_debug (artifact_client token organization t)
              context_Background mutationOperation
              {| Fixture.AddArtifact_ID := "" |}
              (artifact_variables artifactId version url_) [] eq_refl Hok)
    as ([[mutation x] errs] & Hdo).
  { intros query Hb. apply (Hsome query).
    revert Hb. unfold buildQueryAndOptions. simpl.
    destruct (constructMutation _ _ _) as [[q o] [e |]]; [discriminate |].
    by intros [= -> ->]. }
  exists mutation, x, errs. split; [exact Hdo |].
  rewrite addArtifact_eq. cbv zeta. unfold Mutate. rewrite Hdo.
  by destruct errs.
Qed.

(** X14. Partial success is a failure of the action: when the API answers
    200 with an envelope that carries at least one error, [addArtifact]
    returns an error wrapping the errors of the envelope (and any decoding
    error after them) and does not log an artifact id, whether or not the
    envelope also has the data of the new artifact. *)
Theorem addArtifact_fails_on_envelope_errors
    (token organization artifactId version url_ : string) t
    query oo reqBody req resp r out e0 rest :
  constructMutation {| Fixture.AddArtifact_ID := "" |}
    (artifact_variables artifactId version url_) [] = (query, Some oo, None) →
  answered (artifact_client token organization t) context_Background query
    (artifact_variables artifactId version url_) (Some oo) reqBody req resp →
  Response_StatusCode resp = http_StatusOK →
  decoded_from resp r →
  json_Decode r = inr out →
  Envelope_Errors out = e0 :: rest →
  ∃ tail,
    addArtifact context_Background token organization artifactId version url_ t
    = ((t ++ [call_log "Adding artifact to GraphQL API..."])%list,
       Ret (Some (Errorf_w "failed to add artifact: "
                    (graphql_Errors (e0 :: rest ++ tail)%list)))).
Proof.
  intros Hcm Hans Hst Hfrom Hdec Herrs.
  pose proof (Mutate_built (artifact_client token organization t) _ _ _ _ _ Hcm) as Hb.
  assert (request (artifact_client token organization t) context_Background query
            (artifact_variables artifactId version url_) (Some oo)
          = Ret (rawMessage (Envelope_Data out), rawMessage (Envelope_Extensions out),
                 Some resp, bytes_Reader_ptr None, e0 :: rest)) as Hr.
  { rewrite (request_dispatched _ _ _ _ _ _ _ _ _ Hans).
    by rewrite (readResponse_OK_plain (artifact_client token organization t) _ _ _ r out
               eq_refl Hst Hfrom Hdec), Herrs. }
  pose proof (request_delivered _ _ _ _ _ _ Hr) as Hdel.
  destruct (processResponse_delivered (artifact_client token organization t)
              {| Fixture.AddArtifact_ID := "" |} _ _ (extensions oo) _ _ _ Hdel)
    as (mid & Hp & _).
  rewrite addArtifact_eq. cbv zeta. unfold Mutate.
  rewrite (do_built _ _ _ _ _ _ _ _ _ _ _ _ _ Hb Hr), Hp. simpl.
  eexists. reflexivity.
Qed.

(** X15. When the API answers with a status other than 200 (and the body
    is not declared gzip, or its gzip header was read), [addArtifact]
    fails with the single [request_error] of the client, which carries
    the status code and the body text. When it answers 200 with a
    well-formed envelope holding only data, [addArtifact] succeeds and
    logs the id the typed decoder found. *)
Theorem addArtifact_follows_the_answer
    (token organization artifactId version url_ : string) t
    query oo reqBody req resp :
  constructMutation {| Fixture.AddArtifact_ID := "" |}
    (artifact_variables artifactId version url_) [] = (query, Some oo, None) →
  answered (artifact_client token organization t) context_Background query
    (artifact_variables artifactId version url_) (Some oo) reqBody req resp →
  let t0 := (t ++ [call_log "Adding artifact to GraphQL API..."])%list in
  (∀ left,
      Response_StatusCode resp ≠ http_StatusOK →
      body_left resp left →
      addArtifact context_Background token organization artifactId version url_ t
      = (t0, Ret (Some (Errorf_w "failed to add artifact: "
                          (graphql_Errors
                             [newError ErrRequestError
                                (networkError
                                   {| body := (io_ReadAll left).1;
                                      statusCode := Response_StatusCode resp |})]))))) ∧
  (∀ r out data mutation,
      Response_StatusCode resp = http_StatusOK →
      decoded_from resp r →
      json_Decode r = inr out →
      Envelope_Data out = Some data → 0 < len data →
      Envelope_Extensions out = None →
      Envelope_Errors out = [] →
      jsonutil_UnmarshalGraphQL data {| Fixture.AddArtifact_ID := "" |} = (mutation, None) →
      addArtifact context_Background token organization artifactId version url_ t
      = ((t0 ++ [call_log ("Artifact added successfully with ID: "
                           ++ Fixture.AddArtifact_ID mutation)])%list,
         Ret None)).
Proof.
  intros Hcm Hans t0. subst t0.
  pose proof (Mutate_built (artifact_client token organization t) _ _ _ _ _ Hcm) as Hb.
  split.
  - intros left Hst Hleft.
    pose proof (request_not_OK _ _ _ _ _ _ _ _ left Hans Hleft Hst) as Hr.
    simpl in Hr.
    rewrite addArtifact_eq. cbv zeta. unfold Mutate.
    rewrite (do_built _ _ _ _ _ _ _ _ _ _ _ _ _ Hb Hr).
    unfold processResponse. simpl. by destruct (extensions oo).
  - intros r out data mutation Hst Hfrom Hdec Hdata Hlen Hext Herrs Hu.
    apply Z.ltb_lt in Hlen.
    assert (request (artifact_client token organization t) context_Background query
              (artifact_variables artifactId version url_) (Some oo)
            = Ret (data, "", Some resp, bytes_Reader_ptr None, [])) as Hr.
    { rewrite (request_dispatched _ _ _ _ _ _ _ _ _ Hans).
      rewrite (readResponse_OK_plain (artifact_client token organization t) _ _ _ r out
               eq_refl Hst Hfrom Hdec).
      rewrite Herrs, Hdata, Hext. simpl. by rewrite Hlen. }
    rewrite addArtifact_eq. cbv zeta. unfold Mutate.
    rewrite (do_built _ _ _ _ _ _ _ _ _ _ _ _ _ Hb Hr).
    unfold processResponse. rewrite Hlen, Hu. simpl. by destruct (extensions oo).
Qed.

(** ** The transport *)

(** X16. [customTransport.RoundTrip] hands the inner transport the request
    with [Authorization] set to the bearer token and [X-Organization] set
    to the organization, replacing whatever the request carried under
    those keys and leaving every other header, the method and the URL as
    they were; it returns what the inner transport returns. *)
Theorem RoundTrip_sets_credentials (ct : customTransport) (req : Request) :
  textproto_CanonicalMIMEHeaderKey "Authorization" = "Authorization" →
  textproto_CanonicalMIMEHeaderKey "x-organization" = "X-Organization" →
  ∃ req',
    RoundTrip ct req = Transport ct req' ∧
    Request_Method req' = Request_Method req ∧
    Request_URL req' = Request_URL req ∧
    Request_Header req' !! "Authorization" = Some ["Bearer " ++ Token ct] ∧
    Request_Header req' !! "X-Organization" = Some [Organization ct] ∧
    ∀ key, key ≠ "Authorization" → key ≠ "X-Organization" →
           Request_Header req' !! key = Request_Header req !! key.
Proof.
  intros Hauth Horg. unfold RoundTrip, Request_Header_Set, Header_Set.
  rewrite Hauth, Horg. simpl. eexists. split; [reflexivity |]. simpl.
  split; [reflexivity |]. split; [reflexivity |].
  split; [by rewrite lookup_insert_ne, lookup_insert_eq |].
  split; [by rewrite lookup_insert_eq |].
  intros key Ha Ho. by rewrite !lookup_insert_ne.
Qed.

(** ** The whole run *)

(** X17. In a run of the action's body on a machine where every call
    succeeds, once the token is obtained and a Dockerfile is at hand, the
    commands run are [docker build], [docker push] and the [set-output]
    echo, in this order and all three on one and the same image
    reference, [registry.trynova.ai/<imageName>:<imageTag>]; whatever
    the recording of the artifact does afterwards runs no command. *)
Theorem run_handles_one_image (home clientId secret imageName imageTag artifactId
    dockerfilePath dockerfile token org : string) t t1 :
  obliging home →
  getBearerToken clientId secret
    (t ++ [call_log ("ClientId: " ++ clientId ++ ", ImageName: " ++ imageName
                     ++ ", ImageTag: " ++ imageTag)])%list
  = (t1, inr (token, org)) →
  dockerfile ≠ "" ∨ dockerfilePath ≠ "" →
  let image := parseLocation imageName imageTag in
  let res := run context_Background clientId secret imageName imageTag artifactId
               dockerfilePath dockerfile t in
  let echo := "echo ::set-output name=location::" ++ image in
  image = "registry.trynova.ai/" ++ imageName ++ ":" ++ imageTag ∧
  commands res.1
  = (commands t
     ++ [["docker"; "build"; "-f";
          if decide (dockerfile = "") then dockerfilePath else "./Dockerfile";
          "-t"; image; "."];
         ["docker"; "push"; image];
         ["sh"; "-c"; echo]])%list.
Proof.
  intros (Hhome & Hmk & Hwr & Hrun) Htok Hfile image res echo. split; [reflexivity |].
  subst res echo. unfold run. rewrite Htok.
  pose proof (getBearerToken_quiet clientId secret
                (t ++ [call_log ("ClientId: " ++ clientId ++ ", ImageName: " ++ imageName
                                 ++ ", ImageTag: " ++ imageTag)])%list) as [Hq _].
  rewrite Htok in Hq. simpl in Hq. rewrite commands_log in Hq.
  unfold updateDockerConfig. rewrite Hhome, Hmk, Hwr.
  unfold runDockerBuild.
  assert (∀ t' argv, ∃ o, cmd_Run t' argv = (o, None)) as Hrun'.
  { intros t' argv. specialize (Hrun t' argv).
    destruct (cmd_Run t' argv) as [o e]. simpl in Hrun. subst e. by exists o. }
  destruct (decide (dockerfile = "")) as [-> | Hdf].
  - destruct Hfile as [[] | Hpath]; [reflexivity |].
    simpl. rewrite bool_decide_eq_false_2 by exact Hpath. simpl.
    rewrite Hrun. unfold runDockerPush.
    match goal with |- context [cmd_Run ?t' ["docker"; "push"; ?i]] =>
      destruct (Hrun' t' ["docker"; "push"; i]) as [o ->] end.
    unfold setOutput. rewrite Hrun. simpl.
    match goal with |- context [addArtifact ?c ?a ?b ?d ?e ?f ?g] =>
      pose proof (addArtifact_quiet a b d e f g) as [Ha _];
      destruct (addArtifact c a b d e f g) as [ta [[e1 |] | why]] end;
      simpl in *; trace; rewrite Ha; trace; rewrite Hq;
      by rewrite <- !app_assoc.
  - rewrite bool_decide_eq_false_2 by exact Hdf. simpl. rewrite Hwr. simpl.
    rewrite Hrun. unfold runDockerPush.
    match goal with |- context [cmd_Run ?t' ["docker"; "push"; ?i]] =>
      destruct (Hrun' t' ["docker"; "push"; i]) as [o ->] end.
    unfold setOutput. rewrite Hrun. simpl.
    match goal with |- context [addArtifact ?c ?a ?b ?d ?e ?f ?g] =>
      pose proof (addArtifact_quiet a b d e f g) as [Ha _];
      destruct (addArtifact c a b d e f g) as [ta [[e1 |] | why]] end;
      simpl in *; trace; rewrite Ha; trace; rewrite Hq;
      by rewrite <- !app_assoc.
Qed.

End ActionProperties.

(** * The properties on concrete calls *)

Import Fixture Scenario.

Lemma scenario_answered (dbg : bool) (resp : Response)
    (oo : constructOptionsOutput (gmap string any)) :
  operationName oo = "" →
  answered (client dbg resp) background query input (Some oo) sent seen resp.
Proof.
  intros Hname. exists fresh_request. unfold payload. rewrite Hname.
  split; [vm_compute; reflexivity |].
  split; [reflexivity |]. vm_compute. reflexivity.
Qed.

(** C4 on a heap with one client: two debug derivations. *)
Lemma derivations_do_not_mutate_witness :
  one_client !! 1%positive = Some base ∧
  ∃ l1 h1 l2 h2,
    WithDebug one_client 1%positive true = Ret (l1, h1) ∧
    WithDebug h1 1%positive false = Ret (l2, h2) ∧
    h2 !! 1%positive = Some base ∧
    debug <$> h2 !! l1 = Some true ∧ debug <$> h2 !! l2 = Some false.
Proof.
  split; [reflexivity |].
  destruct (derivations_do_not_mutate one_client 1%positive base None true false eq_refl)
    as [_ (l1 & h1 & c1 & H1 & _ & Hd1 & _ & l2 & h2 & c2 & H2 & _ & Hd2 & _ & Hb & Hc1 & Hc2)].
  exists l1, h1, l2, h2.
  split; [exact H1 |]. split; [exact H2 |]. split; [exact Hb |].
  rewrite Hc1, Hc2. simpl. rewrite Hd1, Hd2. split; reflexivity.
Defined.

(** C9 on a heap with one client. *)
Lemma modifier_derivation_drops_debug_witness :
  one_client !! 1%positive = Some base ∧
  ∃ l1 h1 l2 h2 c2,
    WithDebug one_client 1%positive true = Ret (l1, h1) ∧
    WithRequestModifier h1 l1 (Some (fun r => r)) = Ret (l2, h2) ∧
    h2 !! l2 = Some c2 ∧ debug c2 = false.
Proof.
  split; [reflexivity |].
  destruct (modifier_derivation_drops_debug one_client 1%positive base
              (Some (fun r => r)) true eq_refl)
    as (_ & _ & l1 & h1 & c1 & l2 & h2 & c2 & H1 & _ & _ & H2 & Hc2 & Hd2).
  exists l1, h1, l2, h2, c2. by repeat split.
Defined.

(** C10 on a call answered 502: the one error returned is classified. *)
Lemma pipeline_errors_are_classified_witness :
  ∃ e,
    Mutate (client false (plain 502 "Bad Gateway")) background zero input []
    = Ret (zero, None, [e]) ∧
    (classified e ∨ from_envelope e).
Proof.
  set (e := newError ErrRequestError
              (networkError {| body := "Bad Gateway"; statusCode := 502 |})).
  assert (Mutate (client false (plain 502 "Bad Gateway")) background zero input []
          = Ret (zero, None, [e])) as H by (vm_compute; reflexivity).
  exists e. split; [exact H |].
  apply (proj2 pipeline_errors_are_classified _ _ _ _ _ _ _ _ _ e H).
  apply list_elem_of_here.
Defined.


(** C7 on a call that bound a map and got a string for extensions. *)
Lemma extensions_failure_keeps_data_witness :
  0 < len (json "'oops'") ∧
  ∃ cause,
    json_Unmarshal (json "'oops'") ∅ = (∅, Some cause) ∧
    do (client false (plain 200 bad_extensions)) background mutationOperation zero
       input bound
    = Ret (decoded, Some ∅, [newError ErrGraphQLExtensionsDecode cause]).
Proof.
  split; [vm_compute; reflexivity |].
  set (cause := type_error "value into Go value of type map[string]interface {}").
  exists cause. split; [vm_compute; reflexivity |].
  destruct (extensions_failure_keeps_data
              (client false (plain 200 bad_extensions)) background mutationOperation zero
              input bound query bound_options
              (json "{'addArtifact': {'id': 'abc123'}}") (json "'oops'")
              (Some (plain 200 bad_extensions)) (bytes_Reader_ptr None) []
              ∅ ∅ cause)
    as (mid & Hdo & Hmid & _).
  - vm_compute; reflexivity.
  - vm_compute; reflexivity.
  - reflexivity.
  - vm_compute; reflexivity.
  - vm_compute; reflexivity.
  - rewrite Hdo.
    assert (mid = []) as ->.
    { revert Hmid. vm_compute. exact (fun H => H). }
    vm_compute. reflexivity.
Defined.




(** C3 on a debug call whose envelope has two errors: the first one gets
    the capture. *)
Lemma debug_capture_is_opt_in_and_first_only_witness :
  json_Decode (whole two_errors) = inr two_errors_envelope ∧
  ∃ e0',
    (∃ data extData r rb,
        request (client true (plain 200 two_errors)) background query input (Some options)
        = Ret (data, extData, r, rb, [e0'; message_only "second"])) ∧
    same_error (message_only "first") e0' ∧
    has_capture e0'.
Proof.
  assert (json_Decode (whole two_errors) = inr two_errors_envelope) as Hdec
    by (vm_compute; reflexivity).
  split; [exact Hdec |].
  destruct (proj2 (proj2 debug_capture_is_opt_in_and_first_only)
              (client true (plain 200 two_errors)) background mutationOperation zero
              input [] query options sent seen (plain 200 two_errors)
              (whole two_errors) two_errors two_errors_envelope
              (message_only "first") [message_only "second"] ∅)
    as (e0' & Hr & _ & Hsame & _ & _ & Hcap).
  - vm_compute; reflexivity.
  - by apply scenario_answered.
  - reflexivity.
  - reflexivity.
  - left. split; [vm_compute; discriminate | reflexivity].
  - reflexivity.
  - exact Hdec.
  - reflexivity.
  - by left.
  - reflexivity.
  - exists e0'. split; [exact Hr |]. split; [exact Hsame | exact Hcap].
Defined.

(** C3 as stated fails: in that call the second error of the collection
    has nothing attached. *)
Lemma second_error_carries_no_capture :
  debug (client true (plain 200 two_errors)) = true ∧
  ¬ Forall has_capture
      (errors_of (request (client true (plain 200 two_errors)) background query input
                    (Some options))).
Proof.
  split; [reflexivity |]. intros Hall.
  assert (errors_of (request (client true (plain 200 two_errors)) background query input
                       (Some options)) !! 1%nat
          = Some (message_only "second")) as Hsecond by (vm_compute; reflexivity).
  rewrite Forall_lookup in Hall.
  destruct (Hall _ _ Hsecond) as (internal & rq & rs & Hinternal & _).
  discriminate Hinternal.
Qed.

(** C5 on a debug call answered with the gzip file of the specification's
    example envelope: the debug client gets a decode error, the same
    client without debug gets the data. *)
Lemma gzip_is_bypassed_in_debug_witness :
  declares_gzip (gzipped 200 (gzip_stored only_data)) ∧
  gzip_NewReader (whole (gzip_stored only_data)) = (whole "", inr (whole only_data)) ∧
  json_Decode (whole only_data) = inr only_data_envelope ∧
  (∃ e,
      request (client true (gzipped 200 (gzip_stored only_data))) background query input
        (Some options)
      = Ret (failed [e]) ∧
      same_error (newError ErrJsonDecode (errorString "EOF")) e ∧
      map_index (Extensions e) "code" = string_any ErrJsonDecode) ∧
  request (client false (gzipped 200 (gzip_stored only_data))) background query input
    (Some options)
  = Ret (data_text, "", Some (gzipped 200 (gzip_stored only_data)),
         bytes_Reader_ptr None, []).
Proof.
  assert (declares_gzip (gzipped 200 (gzip_stored only_data))) as Hgz
    by (vm_compute; reflexivity).
  assert (gzip_NewReader (whole (gzip_stored only_data))
          = (whole "", inr (whole only_data))) as Hgr by (vm_compute; reflexivity).
  assert (json_Decode (whole only_data) = inr only_data_envelope) as Hdec
    by (vm_compute; reflexivity).
  split; [exact Hgz |]. split; [exact Hgr |]. split; [exact Hdec |].
  destruct (gzip_is_bypassed_in_debug
              (client true (gzipped 200 (gzip_stored only_data))) background query input
              (Some options) sent seen (gzipped 200 (gzip_stored only_data))
              (whole "") (whole only_data) only_data_envelope "" (errorString "EOF"))
    as [Hdebug Hplain].
  - by apply scenario_answered.
  - reflexivity.
  - reflexivity.
  - exact Hgz.
  - exact Hgr.
  - exact Hdec.
  - reflexivity.
  - vm_compute; reflexivity.
  - split; [exact Hdebug |]. exact Hplain.
Defined.

(** C1 on a debug call whose first error stores a string under
    ["internal"]: the envelope has data and an error, and the call panics. *)
Lemma ill_typed_internal_extension_panics_witness :
  json_Decode (whole ill_typed_internal) = inr ill_typed_internal_envelope ∧
  Mutate (client true (plain 200 ill_typed_internal)) background zero input []
  = Panic interface_conversion.
Proof.
  assert (json_Decode (whole ill_typed_internal) = inr ill_typed_internal_envelope)
    as Hdec by (vm_compute; reflexivity).
  split; [exact Hdec |].
  apply (ill_typed_internal_extension_panics
           (client true (plain 200 ill_typed_internal)) background mutationOperation zero
           input [] query (Some options) sent seen (plain 200 ill_typed_internal)
           (whole ill_typed_internal) ill_typed_internal ill_typed_internal_envelope
           data_text boom [] {[ "internal" := string_any "x" ]} (string_any "x")).
  - vm_compute; reflexivity.
  - by apply scenario_answered.
  - reflexivity.
  - reflexivity.
  - left. split; [vm_compute; discriminate | reflexivity].
  - reflexivity.
  - exact Hdec.
  - reflexivity.
  - vm_compute; reflexivity.
  - reflexivity.
  - reflexivity.
  - reflexivity.
  - reflexivity.
  - discriminate.
Defined.

(** ** Further properties of the client on concrete calls *)



(** X3 on a call with the nil context. *)
Lemma request_construction_failure_witness :
  request (client true (plain 200 only_data)) None query input (Some options)
  = Panic nil_dereference ∧
  request (client false (plain 200 only_data)) None query input (Some options)
  = Ret (failed [newError ErrRequestError
                   (wrapError "problem constructing request: "
                      (errorString "net/http: nil Context"))]).
Proof.
  split.
  - apply (request_construction_failure (client true (plain 200 only_data)) None query
             input (Some options) sent (errorString "net/http: nil Context")).
    + vm_compute; reflexivity.
    + reflexivity.
  - apply (request_construction_failure (client false (plain 200 only_data)) None query
             input (Some options) sent (errorString "net/http: nil Context")).
    + vm_compute; reflexivity.
    + reflexivity.
Defined.

(** X4 on the client of the examples. *)
Lemma calls_return_without_debug_witness :
  honours_contract (httpClient (client false (plain 200 two_errors))) ∧
  ∃ res, Mutate (client false (plain 200 two_errors)) background zero input [] = Ret res.
Proof.
  assert (honours_contract (httpClient (client false (plain 200 two_errors)))) as Hok.
  { intros req. eexists. left. eexists. reflexivity. }
  split; [exact Hok |].
  apply (calls_return_without_debug (client false (plain 200 two_errors)) background
           mutationOperation zero input [] eq_refl Hok).
  intros q H. vm_compute in H. discriminate H.
Defined.

(** X5 on a debug call whose envelope has an error and data that does not
    fit the output. *)
Lemma decode_error_capture_is_drained_witness :
  json_Decode (whole Recording.unknown_data_with_error)
  = inr Recording.unknown_data_with_error_envelope ∧
  ∃ e0' we x tail,
    Mutate (client true (plain 200 Recording.unknown_data_with_error)) background zero
      input []
    = Ret (zero, x, e0' :: we :: tail) ∧
    map_index (Extensions we) "internal"
    = map_any {[ "response" :=
                   captured_response (plain 200 Recording.unknown_data_with_error) "" ]}.
Proof.
  assert (json_Decode (whole Recording.unknown_data_with_error)
          = inr Recording.unknown_data_with_error_envelope) as Hdec
    by (vm_compute; reflexivity).
  split; [exact Hdec |].
  destruct (decode_error_capture_is_drained
              (client true (plain 200 Recording.unknown_data_with_error)) background
              mutationOperation zero zero input [] query options sent seen
              (plain 200 Recording.unknown_data_with_error)
              (whole Recording.unknown_data_with_error)
              Recording.unknown_data_with_error
              Recording.unknown_data_with_error_envelope
              (json "{'unknown': 1}") (no_field "unknown"))
    as [_ Hsome].
  - vm_compute; reflexivity.
  - by apply scenario_answered.
  - reflexivity.
  - reflexivity.
  - left. split; [vm_compute; discriminate | reflexivity].
  - reflexivity.
  - exact Hdec.
  - reflexivity.
  - vm_compute; reflexivity.
  - vm_compute; reflexivity.
  - destruct (Hsome (message_only "first") [] ∅ eq_refl (or_introl eq_refl) eq_refl)
      as (e0' & x & tail & Hdo & _).
    eexists e0', _, x, tail. split; [exact Hdo |].
    apply setInternal_internal.
Defined.

(** X6 on the envelope with one error and no data. *)
Lemma envelope_without_data_leaves_output_witness :
  json_Decode (whole Runner.not_found) = inr Recording.not_found_envelope ∧
  Mutate (client false (plain 200 Runner.not_found)) background zero input []
  = Ret (zero, None, [Runner.not_found_error]).
Proof.
  assert (json_Decode (whole Runner.not_found) = inr Recording.not_found_envelope) as Hdec
    by (vm_compute; reflexivity).
  split; [exact Hdec |].
  apply (envelope_without_data_leaves_output
           (client false (plain 200 Runner.not_found)) background mutationOperation zero
           input [] query options sent seen (plain 200 Runner.not_found)
           (whole Runner.not_found) Recording.not_found_envelope).
  - vm_compute; reflexivity.
  - by apply scenario_answered.
  - reflexivity.
  - reflexivity.
  - left. split; [vm_compute; discriminate | reflexivity].
  - exact Hdec.
  - reflexivity.
Defined.

(** X7 on a body that breaks off after a whole envelope. *)
Lemma unreadable_body_in_debug_witness :
  request (client true (Recording.broken only_data)) background query input (Some options)
  = Ret (failed [newError ErrJsonDecode (errorString "unexpected EOF")]) ∧
  request (client false (Recording.broken only_data)) background query input (Some options)
  = Ret (data_text, "", Some (Recording.broken only_data), bytes_Reader_ptr None, []).
Proof.
  destruct (unreadable_body_in_debug
              (client true (Recording.broken only_data)) background query input
              (Some options) sent seen (Recording.broken only_data)
              (Response_Body (Recording.broken only_data)) only_data
              (errorString "unexpected EOF"))
    as [Hdebug Hplain].
  - by apply scenario_answered.
  - reflexivity.
  - reflexivity.
  - left. split; [vm_compute; discriminate | reflexivity].
  - reflexivity.
  - split.
    + exact (Hdebug json_Decode).
    + apply (Hplain (Response_Body (Recording.broken only_data)) only_data_envelope).
      * left. split; [vm_compute; discriminate | reflexivity].
      * vm_compute; reflexivity.
Defined.

(** ** Properties of the action on concrete runs *)

(** X9 on inline content given together with a path. *)
Lemma docker_build_runs_when_a_dockerfile_is_at_hand_witness :
  let m := Recording.runner Recording.token_body (plain 200 only_data) in
  let res := Action.runDockerBuild (machine := m) "docker/Dockerfile" "FROM alpine"
               "foo" "v1" [] in
  "FROM alpine" ≠ "" ∧
  writes res.1 = [("./Dockerfile", "FROM alpine", 420)] ∧
  commands res.1
  = [["docker"; "build"; "-f"; "./Dockerfile"; "-t"; Recording.image; "."]].
Proof.
  intros m res.
  assert ("FROM alpine" ≠ "") as Hdf by discriminate.
  split; [exact Hdf |].
  destruct (docker_build_runs_when_a_dockerfile_is_at_hand (machine := m)
              "docker/Dockerfile" "FROM alpine" "foo" "v1" []) as [Hinline _].
  destruct (Hinline Hdf) as (_ & Hw & Hc).
  split; [exact Hw | exact Hc].
Defined.

(** X11 on a refused token request, on a token without dots and on a
    numeric organization. *)
Lemma token_failures_witness :
  let refused :=
    {| Action.Status := "401 Unauthorized"; Action.StatusCode := 401;
       Action.Body := {| unread := "denied"; fault := None |} |} in
  Action.getBearerToken (machine := Runner.machine (inr refused) (Runner.answers (plain 200 only_data)))
    "id" "secret" []
  = ([Action.call_log "Getting bearer token..."],
     inl (Action.library (errorString "failed to get token: 401 Unauthorized"))) ∧
  Action.getBearerToken
    (machine := Recording.runner Recording.opaque_body (plain 200 only_data)) "id" "secret" []
  = ([Action.call_log "Getting bearer token..."],
     inl (Action.library (errorString "invalid token format"))) ∧
  Action.getBearerToken
    (machine := Recording.runner Recording.numeric_body (plain 200 only_data)) "id" "secret" []
  = ([Action.call_log "Getting bearer token..."],
     inl (Action.library (errorString "organization_id not found in token"))).
Proof.
  intros refused. split; [| split].
  - destruct (token_failures
                (machine := Runner.machine (inr refused) (Runner.answers (plain 200 only_data)))
                "id" "secret" [] refused) as [H _].
    + eexists. split; reflexivity.
    + apply H. discriminate.
  - destruct (token_failures
                (machine := Recording.runner Recording.opaque_body (plain 200 only_data))
                "id" "secret" []
                {| Action.Status := "200 OK"; Action.StatusCode := 200;
                   Action.Body := {| unread := Recording.opaque_body; fault := None |} |})
      as (_ & H & _).
    + eexists. split; reflexivity.
    + apply (H {| Action.AccessToken := "opaque" |}).
      * reflexivity.
      * vm_compute; reflexivity.
      * vm_compute; discriminate.
  - destruct (token_failures
                (machine := Recording.runner Recording.numeric_body (plain 200 only_data))
                "id" "secret" []
                {| Action.Status := "200 OK"; Action.StatusCode := 200;
                   Action.Body := {| unread := Recording.numeric_body; fault := None |} |})
      as (_ & _ & H).
    + eexists. split; reflexivity.
    + apply (H {| Action.AccessToken := Runner.jwt_numeric |}
               "eyJhbGciOiJub25lIn0" "eyJvcmdhbml6YXRpb25faWQiOjd9" "c2ln"
               (json "{'organization_id':7}")
               (Some {[ "organization_id" := number_any "7" ]})).
      * reflexivity.
      * vm_compute; reflexivity.
      * reflexivity.
      * reflexivity.
      * reflexivity.
      * reflexivity.
      * vm_compute; reflexivity.
      * vm_compute; reflexivity.
      * intros org. vm_compute. discriminate.
Defined.

(** X12 on a token whose claims name the organization [org-1]. *)
Lemma token_and_organization_witness :
  Action.getBearerToken
    (machine := Recording.runner Recording.token_body (plain 200 only_data)) "id" "secret" []
  = ([Action.call_log "Getting bearer token..."; Action.call_log "Bearer token obtained."],
     inr (Runner.jwt, "org-1")).
Proof.
  apply (token_and_organization
           (machine := Recording.runner Recording.token_body (plain 200 only_data))
           "id" "secret" []
           {| Action.Status := "200 OK"; Action.StatusCode := 200;
              Action.Body := {| unread := Recording.token_body; fault := None |} |}
           {| Action.AccessToken := Runner.jwt |}
           "eyJhbGciOiJub25lIn0" "eyJvcmdhbml6YXRpb25faWQiOiJvcmctMSJ9" "c2ln"
           (json "{'organization_id':'org-1'}") "org-1"
           (Some {[ "organization_id" := string_any "org-1" ]})).
  - eexists. split; reflexivity.
  - reflexivity.
  - vm_compute; reflexivity.
  - reflexivity.
  - reflexivity.
  - reflexivity.
  - reflexivity.
  - vm_compute; reflexivity.
  - vm_compute; reflexivity.
  - vm_compute; reflexivity.
Defined.

Lemma recording_answered (resp : Response) :
  answered
    (artifact_client (machine := Recording.runner Recording.token_body resp)
       Runner.jwt "org-1" [])
    background Recording.query Recording.variables (Some Recording.options)
    Recording.sent Recording.seen resp.
Proof.
  exists {| Request_Method := "POST"; Request_URL := Action.apiURL; Request_Header := ∅ |}.
  split; [vm_compute; reflexivity |].
  split; [reflexivity |]. vm_compute. reflexivity.
Qed.

(** X13 on an API that answers with data and an error. *)
Lemma addArtifact_returns_witness :
  let m := Recording.runner Recording.token_body (plain 200 Runner.partial) in
  honours_contract (httpClient (artifact_client (machine := m) Runner.jwt "org-1" [])) ∧
  ∃ mutation x errs,
    Mutate (artifact_client (machine := m) Runner.jwt "org-1" []) background
      {| AddArtifact_ID := "" |} Recording.variables []
    = Ret (mutation, x, errs) ∧
    (Action.addArtifact (machine := m) background Runner.jwt "org-1" "a-1" "v1"
       Recording.image []).2
    = Ret (match errs with
           | [] => None
           | _ :: _ => Some (Action.Errorf_w "failed to add artifact: "
                               (Action.graphql_Errors errs))
           end).
Proof.
  intros m.
  assert (honours_contract
            (httpClient (artifact_client (machine := m) Runner.jwt "org-1" []))) as Hok.
  { intros req. eexists. left. eexists. reflexivity. }
  split; [exact Hok |].
  apply (addArtifact_returns (machine := m) background Runner.jwt "org-1" "a-1" "v1"
           Recording.image [] Hok).
  intros q H. vm_compute in H. discriminate H.
Defined.

(** X14 on an API that answers with data and an error. *)
Lemma addArtifact_fails_on_envelope_errors_witness :
  let m := Recording.runner Recording.token_body (plain 200 Runner.partial) in
  json_Decode (whole Runner.partial) = inr Recording.partial_envelope ∧
  ∃ tail,
    Action.addArtifact (machine := m) background Runner.jwt "org-1" "a-1" "v1"
      Recording.image []
    = ([Action.call_log "Adding artifact to GraphQL API..."],
       Ret (Some (Action.Errorf_w "failed to add artifact: "
                    (Action.graphql_Errors (message_only "quota" :: tail))))).
Proof.
  intros m.
  assert (json_Decode (whole Runner.partial) = inr Recording.partial_envelope) as Hdec
    by (vm_compute; reflexivity).
  split; [exact Hdec |].
  apply (addArtifact_fails_on_envelope_errors (machine := m) background Runner.jwt "org-1"
           "a-1" "v1" Recording.image [] Recording.query Recording.options Recording.sent
           Recording.seen (plain 200 Runner.partial) (whole Runner.partial)
           Recording.partial_envelope (message_only "quota") []).
  - vm_compute; reflexivity.
  - apply recording_answered.
  - reflexivity.
  - left. split; [vm_compute; discriminate | reflexivity].
  - exact Hdec.
  - reflexivity.
Defined.

(** X15 on an API that answers 404, and on the example of the data-only
    envelope. *)
Lemma addArtifact_follows_the_answer_witness :
  Action.addArtifact
    (machine := Recording.runner Recording.token_body (plain 404 "Not Found"))
    background Runner.jwt "org-1" "a-1" "v1" Recording.image []
  = ([Action.call_log "Adding artifact to GraphQL API..."],
     Ret (Some (Action.Errorf_w "failed to add artifact: "
                  (Action.graphql_Errors
                     [newError ErrRequestError
                        (networkError {| body := "Not Found"; statusCode := 404 |})])))) ∧
  Action.addArtifact
    (machine := Recording.runner Recording.token_body (plain 200 only_data))
    background Runner.jwt "org-1" "a-1" "v1" Recording.image []
  = ([Action.call_log "Adding artifact to GraphQL API...";
      Action.call_log "Artifact added successfully with ID: abc123"],
     Ret None).
Proof.
  split.
  - destruct (addArtifact_follows_the_answer
                (machine := Recording.runner Recording.token_body (plain 404 "Not Found"))
                background Runner.jwt "org-1" "a-1" "v1" Recording.image []
                Recording.query Recording.options Recording.sent Recording.seen
                (plain 404 "Not Found")) as [H _].
    + vm_compute; reflexivity.
    + apply recording_answered.
    + apply (H (whole "Not Found")).
      * discriminate.
      * left. split; [vm_compute; discriminate | reflexivity].
  - destruct (addArtifact_follows_the_answer
                (machine := Recording.runner Recording.token_body (plain 200 only_data))
                background Runner.jwt "org-1" "a-1" "v1" Recording.image []
                Recording.query Recording.options Recording.sent Recording.seen
                (plain 200 only_data)) as [_ H].
    + vm_compute; reflexivity.
    + apply recording_answered.
    + apply (H (whole only_data) only_data_envelope data_text {| AddArtifact_ID := "abc123" |}).
      * reflexivity.
      * left. split; [vm_compute; discriminate | reflexivity].
      * vm_compute; reflexivity.
      * reflexivity.
      * reflexivity.
      * reflexivity.
      * reflexivity.
      * vm_compute; reflexivity.
Defined.

(** X16 on a request that already carries an [Authorization] header. *)
Lemma RoundTrip_sets_credentials_witness :
  let m := Recording.runner Recording.token_body (plain 200 only_data) in
  let ct := {| Action.Transport := Runner.answers (plain 200 only_data);
               Action.Token := "tok"; Action.Organization := "org-1" |} in
  let req := {| Request_Method := "POST"; Request_URL := Action.apiURL;
                Request_Header := {[ "Authorization" := ["Basic old"];
                                     "Accept" := ["*/*"] ]} |} in
  ∃ req',
    Action.RoundTrip (machine := m) ct req = Action.Transport ct req' ∧
    Request_Header req' !! "Authorization" = Some ["Bearer tok"] ∧
    Request_Header req' !! "X-Organization" = Some ["org-1"] ∧
    Request_Header req' !! "Accept" = Some ["*/*"].
Proof.
  intros m ct req.
  destruct (RoundTrip_sets_credentials (machine := m) ct req)
    as (req' & Hrt & _ & _ & Hauth & Horg & Hother).
  - reflexivity.
  - reflexivity.
  - exists req'. split; [exact Hrt |]. split; [exact Hauth |]. split; [exact Horg |].
    rewrite (Hother "Accept") by discriminate. reflexivity.
Defined.

(** X17 on a run with inline Dockerfile content. *)
Lemma run_handles_one_image_witness :
  let m := Recording.runner Recording.token_body (plain 200 only_data) in
  obliging (machine := m) "/root" ∧
  commands (Action.run (machine := m) background "id" "secret" "foo" "v1" "a-1" ""
              "FROM alpine" []).1
  = [["docker"; "build"; "-f"; "./Dockerfile"; "-t"; Recording.image; "."];
     ["docker"; "push"; Recording.image];
     ["sh"; "-c"; "echo ::set-output name=location::registry.trynova.ai/foo:v1"]].
Proof.
  intros m.
  assert (obliging (machine := m) "/root") as Hob.
  { split; [reflexivity |]. split; [reflexivity |]. split; reflexivity. }
  split; [exact Hob |].
  destruct (run_handles_one_image (machine := m) background "/root" "id" "secret" "foo"
              "v1" "a-1" "" "FROM alpine" Runner.jwt "org-1" []
              [Action.call_log "ClientId: id, ImageName: foo, ImageTag: v1";
               Action.call_log "Getting bearer token...";
               Action.call_log "Bearer token obtained."] Hob) as [_ H].
  - vm_compute; reflexivity.
  - left. discriminate.
  - exact H.
Defined.
